(** * The presenter of datoviz (src/presenter.c)

    The presenter links the renderer (canvases, swapchains, recorders) with
    the client (windows, event loop) and the GUI.  Almost everything it does
    is a call to one of these collaborators, so the embedding is a state and
    error monad over a [World] that holds the fields presenter.c reads and
    writes, together with the collaborator calls it makes ([calls], newest
    first; [trace] gives them in the order they were made).  A failed [ANN]
    or [ASSERT], like a NULL dereference, is [Abort]. *)

From Stdlib Require Import ZArith List String Bool Lia.
From stdpp Require Import base option list gmap strings.
Import ListNotations.
Local Open Scope Z_scope.

(** ** Data model *)

(** A DvzId is a uint64_t and a pointer is an address: both are integers.
    uint32_t and uint64_t arithmetic wraps at [two32] and [two64]. *)
Definition two32 : Z := 2 ^ 32.
Definition two64 : Z := 2 ^ 64.

(** DvzObjectStatus is declared in a header; presenter.c names two of its
    values, and every other value is treated alike. *)
Inductive DvzObjectStatus :=
| DVZ_OBJECT_STATUS_NEED_RECREATE
| DVZ_OBJECT_STATUS_INVALID
| DVZ_OBJECT_STATUS_OTHER (n : Z).

(** canvas->render.swapchain: obj.status, img_idx, img_count. *)
Record DvzSwapchain := {
  sc_status : DvzObjectStatus;
  img_idx : Z;
  img_count : Z
}.

(** canvas->recorder: the number of cached commands and the dirty bit of
    every swapchain image. *)
Record DvzRecorder := {
  rec_count : Z;
  rec_dirty : list bool
}.

(** The fields of a canvas that presenter.c touches.  canvas->scale is a
    float and is left out. *)
Record DvzCanvas := {
  canvas_width : Z;
  canvas_height : Z;
  cur_frame : Z;
  frame_time_idx : Z;
  swapchain : DvzSwapchain;
  cmds_count : Z;
  recorder : option DvzRecorder;
  surface : Z
}.

Record DvzWindow := {
  window_width : Z;
  window_height : Z;
  framebuffer_width : Z;
  framebuffer_height : Z
}.

(** A GUI window: its address and obj.id. *)
Record DvzGuiWindow := {
  gw_ptr : Z;
  gw_obj_id : Z
}.

(** GUI callbacks and their user data are opaque references; the two
    built-in callbacks of widgets.h and the two addresses _create_canvas
    passes to them are named. *)
Inductive DvzGuiCallback :=
| _gui_callback_fps
| _gui_callback_monitoring
| user_gui_callback (f : Z).

Inductive UserData :=
| prt_fps
| ctx_datalloc
| user_pointer (p : Z).

Record DvzGuiCallbackPayload := {
  window_id : Z;
  callback : DvzGuiCallback;
  user_data : UserData
}.

Inductive DvzRequestAction :=
| DVZ_REQUEST_ACTION_CREATE
| DVZ_REQUEST_ACTION_DELETE
| DVZ_REQUEST_ACTION_OTHER (n : Z).

Inductive DvzRequestObject :=
| DVZ_REQUEST_OBJECT_CANVAS
| DVZ_REQUEST_OBJECT_RECORD
| DVZ_REQUEST_OBJECT_OTHER (n : Z).

Record DvzRequest := {
  req_action : DvzRequestAction;
  req_type : DvzRequestObject;
  req_id : Z;
  req_flags : Z;
  req_screen_width : Z;
  req_screen_height : Z
}.

Record DvzBatch := {
  batch_ptr : Z;
  batch_requests : list DvzRequest
}.

Inductive DvzClientEvent :=
| DVZ_CLIENT_EVENT_WINDOW_RESIZE
    (id : Z) (fb_width fb_height screen_width screen_height : Z)
| DVZ_CLIENT_EVENT_REQUESTS (batch : DvzBatch)
| DVZ_CLIENT_EVENT_FRAME (id : Z)
| DVZ_CLIENT_EVENT_WINDOW_DELETE (id : Z).

(** Which command buffers are handed to dvz_submit_commands. *)
Inductive DvzCommands :=
| canvas_cmds (id : Z)
| gui_window_cmds (gw : DvzGuiWindow).

Inductive Semaphores := sem_img_available | sem_render_finished.

(** ** Collaborator calls

    One constructor per function of another module that presenter.c calls,
    with the arguments that identify the call.  Canvases, windows, swapchains
    and recorders are named by the id of their canvas.  Invoking a registered
    GUI callback is a call like the others: what the callback does is not the
    presenter's.  dvz_window_destroy, dvz_input_destroy and dvz_map_remove
    occur in presenter.c only inside the commented-out end of
    _delete_canvas. *)
Inductive Call :=
| dvz_gpu_wait
| create_client_window (id : Z) (screen_width screen_height : Z)
| dvz_window_input (id : Z)
| dvz_window_surface (id : Z)
| dvz_canvas_create (id : Z) (surf : Z)
| dvz_list_append_surface (id : Z)
| dvz_recorder_new (id : Z)
| dvz_window_fullscreen (id : Z) (on : bool)
| dvz_gui_window (id : Z)
| dvz_map_add_gui (id : Z) (gw : DvzGuiWindow)
| dvz_list_append_callback (p : DvzGuiCallbackPayload)
| dvz_canvas_destroy (id : Z)
| dvz_recorder_destroy (id : Z)
| dvz_list_remove_pointer (id : Z)
| dvz_surface_destroy (surf : Z)
| dvz_gui_window_destroy (gw : DvzGuiWindow)
| dvz_window_destroy (id : Z)
| dvz_input_destroy (id : Z)
| dvz_map_remove (id : Z)
| dvz_cmd_reset (id : Z) (img : Z)
| blank_commands (id : Z) (img : Z)
| dvz_recorder_set (id : Z) (img : Z)
| dvz_recorder_set_dirty (id : Z)
| dvz_renderer_request (req : DvzRequest)
| dvz_batch_destroy (batch : DvzBatch)
| dvz_batch_print (batch : DvzBatch)
| dvz_batch_yaml (batch : DvzBatch) (file : string)
| dvz_gui_window_begin (gw : DvzGuiWindow) (img : Z)
| gui_callback_invoke (cb : DvzGuiCallback) (gw : DvzGuiWindow) (ud : UserData)
| dvz_gui_window_end (gw : DvzGuiWindow) (img : Z)
| dvz_gui_window_resize (gw : DvzGuiWindow) (width height : Z)
| dvz_fences_wait (id : Z) (slot : Z)
| dvz_swapchain_acquire (id : Z) (frame : Z)
| dvz_window_poll_size (id : Z)
| dvz_canvas_recreate (id : Z)
| dvz_semaphores_recreate (id : Z) (s : Semaphores)
| dvz_client_event (ev : DvzClientEvent)
| dvz_time (id : Z) (fidx : Z)
| dvz_fences_copy (id : Z) (frame : Z) (img : Z)
| dvz_submit_reset (id : Z)
| dvz_submit_commands (id : Z) (cmds : DvzCommands)
| dvz_submit_wait_semaphores (id : Z) (frame : Z)
| dvz_submit_signal_semaphores (id : Z) (frame : Z)
| dvz_submit_send (id : Z) (img : Z) (frame : Z)
| dvz_swapchain_present (id : Z) (frame : Z)
| dvz_transfers_frame (img : Z).

(** ** The world *)

Record World := {
  (* client: id2window and the frame counter *)
  windows : gmap Z DvzWindow;
  frame_idx : Z;
  (* renderer: dvz_renderer_canvas and rd->ctx->res.img_count *)
  canvases : gmap Z DvzCanvas;
  res_img_count : Z;
  (* presenter *)
  prt_gui : option Z;
  guis : gmap Z DvzGuiWindow;
  callbacks : option (list DvzGuiCallbackPayload);
  surfaces : list Z;
  (* getenv *)
  environ : string -> option string;
  (* the collaborator calls made so far, newest first *)
  calls : list Call
}.

(** The calls in the order they were made. *)
Definition trace (w : World) : list Call := rev (calls w).

Definition with_windows (m : gmap Z DvzWindow) (w : World) : World :=
  {| windows := m; frame_idx := frame_idx w; canvases := canvases w;
     res_img_count := res_img_count w; prt_gui := prt_gui w; guis := guis w;
     callbacks := callbacks w; surfaces := surfaces w; environ := environ w;
     calls := calls w |}.

Definition with_canvases (m : gmap Z DvzCanvas) (w : World) : World :=
  {| windows := windows w; frame_idx := frame_idx w; canvases := m;
     res_img_count := res_img_count w; prt_gui := prt_gui w; guis := guis w;
     callbacks := callbacks w; surfaces := surfaces w; environ := environ w;
     calls := calls w |}.

Definition with_res_img_count (n : Z) (w : World) : World :=
  {| windows := windows w; frame_idx := frame_idx w; canvases := canvases w;
     res_img_count := n; prt_gui := prt_gui w; guis := guis w;
     callbacks := callbacks w; surfaces := surfaces w; environ := environ w;
     calls := calls w |}.

Definition with_guis (m : gmap Z DvzGuiWindow) (w : World) : World :=
  {| windows := windows w; frame_idx := frame_idx w; canvases := canvases w;
     res_img_count := res_img_count w; prt_gui := prt_gui w; guis := m;
     callbacks := callbacks w; surfaces := surfaces w; environ := environ w;
     calls := calls w |}.

Definition with_callbacks (l : option (list DvzGuiCallbackPayload)) (w : World) : World :=
  {| windows := windows w; frame_idx := frame_idx w; canvases := canvases w;
     res_img_count := res_img_count w; prt_gui := prt_gui w; guis := guis w;
     callbacks := l; surfaces := surfaces w; environ := environ w;
     calls := calls w |}.

Definition with_surfaces (l : list Z) (w : World) : World :=
  {| windows := windows w; frame_idx := frame_idx w; canvases := canvases w;
     res_img_count := res_img_count w; prt_gui := prt_gui w; guis := guis w;
     callbacks := callbacks w; surfaces := l; environ := environ w;
     calls := calls w |}.

Definition with_calls (t : list Call) (w : World) : World :=
  {| windows := windows w; frame_idx := frame_idx w; canvases := canvases w;
     res_img_count := res_img_count w; prt_gui := prt_gui w; guis := guis w;
     callbacks := callbacks w; surfaces := surfaces w; environ := environ w;
     calls := t |}.

(** Field updates of a canvas. *)
Definition canvas_with_size (wd ht : Z) (c : DvzCanvas) : DvzCanvas :=
  {| canvas_width := wd; canvas_height := ht; cur_frame := cur_frame c;
     frame_time_idx := frame_time_idx c; swapchain := swapchain c;
     cmds_count := cmds_count c; recorder := recorder c; surface := surface c |}.

Definition canvas_with_cur_frame (n : Z) (c : DvzCanvas) : DvzCanvas :=
  {| canvas_width := canvas_width c; canvas_height := canvas_height c; cur_frame := n;
     frame_time_idx := frame_time_idx c; swapchain := swapchain c;
     cmds_count := cmds_count c; recorder := recorder c; surface := surface c |}.

Definition canvas_with_frame_time_idx (n : Z) (c : DvzCanvas) : DvzCanvas :=
  {| canvas_width := canvas_width c; canvas_height := canvas_height c;
     cur_frame := cur_frame c; frame_time_idx := n; swapchain := swapchain c;
     cmds_count := cmds_count c; recorder := recorder c; surface := surface c |}.

Definition canvas_with_swapchain (s : DvzSwapchain) (c : DvzCanvas) : DvzCanvas :=
  {| canvas_width := canvas_width c; canvas_height := canvas_height c;
     cur_frame := cur_frame c; frame_time_idx := frame_time_idx c; swapchain := s;
     cmds_count := cmds_count c; recorder := recorder c; surface := surface c |}.

Definition canvas_with_cmds_count (n : Z) (c : DvzCanvas) : DvzCanvas :=
  {| canvas_width := canvas_width c; canvas_height := canvas_height c;
     cur_frame := cur_frame c; frame_time_idx := frame_time_idx c;
     swapchain := swapchain c; cmds_count := n; recorder := recorder c;
     surface := surface c |}.

Definition canvas_with_recorder (r : option DvzRecorder) (c : DvzCanvas) : DvzCanvas :=
  {| canvas_width := canvas_width c; canvas_height := canvas_height c;
     cur_frame := cur_frame c; frame_time_idx := frame_time_idx c;
     swapchain := swapchain c; cmds_count := cmds_count c; recorder := r;
     surface := surface c |}.

Definition canvas_with_surface (s : Z) (c : DvzCanvas) : DvzCanvas :=
  {| canvas_width := canvas_width c; canvas_height := canvas_height c;
     cur_frame := cur_frame c; frame_time_idx := frame_time_idx c;
     swapchain := swapchain c; cmds_count := cmds_count c; recorder := recorder c;
     surface := s |}.

Definition swapchain_with_status (s : DvzObjectStatus) (sc : DvzSwapchain) : DvzSwapchain :=
  {| sc_status := s; img_idx := img_idx sc; img_count := img_count sc |}.

(** ** The monad *)

Inductive Res (A : Type) :=
| Ok (a : A) (w : World)
| Abort.
Arguments Ok {A} a w.
Arguments Abort {A}.

Definition M (A : Type) : Type := World -> Res A.

Definition ret {A} (a : A) : M A := fun w => Ok a w.

Definition bind {A B} (m : M A) (k : A -> M B) : M B :=
  fun w => match m w with
           | Ok a w' => k a w'
           | Abort => Abort
           end.

Notation "'do' x <- m ; k" := (bind m (fun x => k))
  (at level 10, x name, m at level 100, k at level 200).
Notation "m >> k" := (bind m (fun _ => k))
  (at level 90, right associativity).

Definition get : M World := fun w => Ok w w.
Definition modify (f : World -> World) : M unit := fun w => Ok tt (f w).

(** ASSERT(b) *)
Definition ASSERT (b : bool) : M unit :=
  fun w => if b then Ok tt w else Abort.

(** ANN(p): p is not NULL. *)
Definition ANN {A} (p : option A) : M A :=
  fun w => match p with Some a => Ok a w | None => Abort end.

(** The world after one more call. *)
Definition logged (c : Call) (w : World) : World :=
  with_calls (c :: calls w) w.

(** Record a call to a collaborator. *)
Definition call (c : Call) : M unit := modify (logged c).

Definition when (b : bool) (m : M unit) : M unit :=
  if b then m else ret tt.

(** for (i = 0; i < n; i++) body(i), for a bound the body does not write. *)
Fixpoint for_loop (n : nat) (i : Z) (body : Z -> M unit) : M unit :=
  match n with
  | O => ret tt
  | S n' => body i >> for_loop n' (i + 1) body
  end.

(** ** Header constants and collaborators

    presenter.c includes the headers that define these constants; their
    values are not part of this file, so they are parameters. *)
Record Header := {
  DVZ_MAX_FRAMES_IN_FLIGHT : Z;
  DVZ_MAX_TIMESTAMPS : Z;
  DVZ_CANVAS_FLAGS_IMGUI : Z;
  DVZ_CANVAS_FLAGS_FPS : Z;
  DVZ_CANVAS_FLAGS_MONITOR : Z;
  DVZ_CANVAS_FLAGS_FULLSCREEN : Z
}.

(** What the collaborators write into the fields presenter.c reads back.
    Each answer may depend on the whole world, trace included, so that two
    calls of one function need not agree. *)
Record Collaborators := {
  (* create_client_window: the new window, with its framebuffer size *)
  client_window : World -> Z -> Z -> Z -> DvzWindow;
  (* dvz_window_surface: the surface handle *)
  window_surface : World -> Z -> Z;
  (* dvz_canvas_create: the swapchain and the number of command buffers *)
  canvas_created : World -> Z -> DvzSwapchain * Z;
  (* dvz_recorder(0): the dirty bits of a new, empty recorder *)
  recorder_dirty0 : World -> Z -> list bool;
  (* dvz_gui_window: the address of the new GUI window *)
  gui_window_address : World -> Z -> Z;
  (* dvz_obj_is_created *)
  dvz_obj_is_created : DvzObjectStatus -> bool;
  (* dvz_renderer_request: the canvases of the renderer after the request *)
  renderer_canvases : World -> DvzRequest -> gmap Z DvzCanvas;
  (* dvz_canvas_destroy, dvz_swapchain_acquire, dvz_swapchain_present:
     the swapchain they leave *)
  canvas_destroyed : World -> Z -> DvzSwapchain;
  swapchain_acquired : World -> Z -> DvzSwapchain;
  swapchain_presented : World -> Z -> DvzSwapchain;
  (* dvz_window_poll_size: the window with its polled size *)
  window_polled : World -> Z -> DvzWindow;
  (* dvz_canvas_recreate: the new canvas width and height, and the swapchain *)
  canvas_recreated : World -> Z -> Z * Z * DvzSwapchain
}.

Definition is_prefix_prt (v : string) : bool := String.prefix "prt" v.

(** Remove the first occurrence of a pointer from a list. *)
Fixpoint remove_first (x : Z) (l : list Z) : list Z :=
  match l with
  | [] => []
  | y :: l' => if x =? y then l' else y :: remove_first x l'
  end.

Definition event_window_id (ev : DvzClientEvent) : Z :=
  match ev with
  | DVZ_CLIENT_EVENT_WINDOW_RESIZE id _ _ _ _ => id
  | DVZ_CLIENT_EVENT_REQUESTS _ => 0
  | DVZ_CLIENT_EVENT_FRAME id => id
  | DVZ_CLIENT_EVENT_WINDOW_DELETE id => id
  end.

Section Presenter.

Context (H : Header) (K : Collaborators).

(** ** Lookups and stores through pointers *)

(** Modelled from the spec: id2window (client_utils.h), the window of the
    client with this id, or NULL. *)
Definition id2window (id : Z) : M (option DvzWindow) :=
  do w <- get; ret (windows w !! id).

(** Modelled from the spec: dvz_renderer_canvas (renderer), the lookup of a
    surface object by id. *)
Definition dvz_renderer_canvas (id : Z) : M (option DvzCanvas) :=
  do w <- get; ret (canvases w !! id).

(** Modelled from the spec: dvz_map_get (_map.h) on prt->maps.guis, the
    lookup from surface id to GUI window, NULL when there is none. *)
Definition dvz_map_get (id : Z) : M (option DvzGuiWindow) :=
  do w <- get; ret (guis w !! id).

(** Reading a field through window-> or canvas->: NULL aborts. *)
Definition the_window (id : Z) : M DvzWindow :=
  do p <- id2window id; ANN p.

Definition the_canvas (id : Z) : M DvzCanvas :=
  do p <- dvz_renderer_canvas id; ANN p.

Definition update_canvas (id : Z) (f : DvzCanvas -> DvzCanvas) : M unit :=
  do c <- the_canvas id;
  modify (fun w => with_canvases (<[id := f c]> (canvases w)) w).

Definition update_recorder (id : Z) (f : DvzRecorder -> DvzRecorder) : M unit :=
  do c <- the_canvas id;
  do r <- ANN (recorder c);
  modify (fun w => with_canvases (<[id := canvas_with_recorder (Some (f r)) c]> (canvases w)) w).

(** ** Collaborators with an effect on the world

    None of these functions is in presenter.c.  Each one records its call and
    stores what the collaborator answers. *)

(** Modelled from the spec: create_client_window (client_utils.h), which
    creates the window of this id and screen size in the client. *)
Definition ext_create_client_window (id sw sh : Z) : M unit :=
  call (create_client_window id sw sh) >>
  modify (fun w => with_windows (<[id := client_window K w id sw sh]> (windows w)) w).

(** Modelled from the spec: dvz_window_surface (surface.h), which returns a
    drawable surface for the window. *)
Definition ext_window_surface (id : Z) : M Z :=
  call (dvz_window_surface id) >>
  do w <- get; ret (window_surface K w id).

(** Modelled from the spec: dvz_canvas_create (canvas.h), which binds the
    surface to the canvas and builds its swapchain and command buffers. *)
Definition ext_canvas_create (id surf : Z) : M unit :=
  call (dvz_canvas_create id surf) >>
  do w <- get;
  update_canvas id (fun c =>
    canvas_with_cmds_count (snd (canvas_created K w id))
      (canvas_with_swapchain (fst (canvas_created K w id))
         (canvas_with_surface surf c))).

(** Modelled from the spec: dvz_list_append (_list.h) on prt->surfaces, which
    tracks the surface of the canvas for teardown. *)
Definition ext_list_append_surface (id : Z) : M unit :=
  call (dvz_list_append_surface id) >>
  modify (fun w => with_surfaces (surfaces w ++ [id]) w).

(** Modelled from the spec: dvz_list_remove_pointer (_list.h) on
    prt->surfaces, which untracks the surface of the canvas. *)
Definition ext_list_remove_pointer (id : Z) : M unit :=
  call (dvz_list_remove_pointer id) >>
  modify (fun w => with_surfaces (remove_first id (surfaces w)) w).

(** Modelled from the spec: dvz_recorder (recorder.h), a fresh recorder
    without any command; canvas->recorder = dvz_recorder(0). *)
Definition ext_recorder (id : Z) : M unit :=
  call (dvz_recorder_new id) >>
  do w <- get;
  update_canvas id (canvas_with_recorder
    (Some {| rec_count := 0; rec_dirty := recorder_dirty0 K w id |})).

(** Modelled from the spec: dvz_list_count (_list.h) on prt->callbacks; a
    NULL list aborts. *)
Definition dvz_list_count : M Z :=
  do w <- get; do l <- ANN (callbacks w); ret (Z.of_nat (length l)).

(** Modelled from the spec: dvz_list_get (_list.h) on prt->callbacks, the
    i-th entry in registration order. *)
Definition dvz_list_get (i : Z) : M DvzGuiCallbackPayload :=
  do w <- get; do l <- ANN (callbacks w); ANN (l !! Z.to_nat i).

(** Modelled from the spec: dvz_list_append (_list.h) on prt->callbacks,
    which adds the entry at the end of the list. *)
Definition ext_list_append_callback (p : DvzGuiCallbackPayload) : M unit :=
  do w <- get;
  do l <- ANN (callbacks w);
  call (dvz_list_append_callback p) >>
  modify (with_callbacks (Some (l ++ [p]))).

(** Modelled from the spec: dvz_map_add (_map.h) on prt->maps.guis, which
    registers the GUI window under the id. *)
Definition ext_map_add_gui (id : Z) (gw : DvzGuiWindow) : M unit :=
  call (dvz_map_add_gui id gw) >>
  modify (fun w => with_guis (<[id := gw]> (guis w)) w).

(** Modelled from the spec: dvz_renderer_request (renderer), which applies
    one command to the rendering backend. *)
Definition ext_renderer_request (req : DvzRequest) : M unit :=
  call (dvz_renderer_request req) >>
  modify (fun w => with_canvases (renderer_canvases K w req) w).

(** Modelled from the spec: dvz_canvas_destroy (canvas.h), which destroys the
    swapchain and the state that depends on it; the canvas object and its
    recorder and surface fields stay readable. *)
Definition ext_canvas_destroy (id : Z) : M unit :=
  call (dvz_canvas_destroy id) >>
  do w <- get;
  update_canvas id (canvas_with_swapchain (canvas_destroyed K w id)).

(** Modelled from the spec: dvz_swapchain_acquire (vklite.h), which requests
    the next image and leaves the status and the image index in the
    swapchain. *)
Definition ext_swapchain_acquire (id frame : Z) : M unit :=
  call (dvz_swapchain_acquire id frame) >>
  do w <- get;
  update_canvas id (canvas_with_swapchain (swapchain_acquired K w id)).

(** Modelled from the spec: dvz_swapchain_present (vklite.h), which presents
    the acquired image. *)
Definition ext_swapchain_present (id frame : Z) : M unit :=
  call (dvz_swapchain_present id frame) >>
  do w <- get;
  update_canvas id (canvas_with_swapchain (swapchain_presented K w id)).

(** Modelled from the spec: dvz_window_poll_size (window.h), which polls the
    window for its size. *)
Definition ext_window_poll_size (id : Z) : M unit :=
  call (dvz_window_poll_size id) >>
  do _w <- the_window id;
  modify (fun w => with_windows (<[id := window_polled K w id]> (windows w)) w).

(** Modelled from the spec: dvz_canvas_recreate (canvas.h), which rebuilds
    the swapchain and stores the new framebuffer size in canvas->width and
    canvas->height. *)
Definition ext_canvas_recreate (id : Z) : M unit :=
  call (dvz_canvas_recreate id) >>
  do w <- get;
  update_canvas id (fun c =>
    canvas_with_swapchain (snd (canvas_recreated K w id))
      (canvas_with_size (fst (fst (canvas_recreated K w id)))
                        (snd (fst (canvas_recreated K w id))) c)).

(** An image index inside the dirty bit vector of the recorder; an index
    outside it aborts the three functions below. *)
Definition in_range (i : Z) (l : list bool) : bool :=
  (0 <=? i) && (i <? Z.of_nat (length l)).

(** Modelled from the spec: dvz_recorder_set_dirty (recorder.h), which sets
    the dirty bit of every image. *)
Definition ext_recorder_set_dirty (id : Z) : M unit :=
  call (dvz_recorder_set_dirty id) >>
  update_recorder id (fun r =>
    {| rec_count := rec_count r;
       rec_dirty := replicate (length (rec_dirty r)) true |}).

(** Modelled from the spec: dvz_recorder_set (recorder.h), which refills the
    command buffer of one image from the cached commands and then clears the
    dirty bit of that image. *)
Definition ext_recorder_set (id img : Z) : M unit :=
  call (dvz_recorder_set id img) >>
  do c <- the_canvas id;
  do r <- ANN (recorder c);
  ASSERT (in_range img (rec_dirty r)) >>
  update_recorder id (fun r =>
    {| rec_count := rec_count r;
       rec_dirty := <[Z.to_nat img := false]> (rec_dirty r) |}).

(** Modelled from the spec: dvz_recorder_is_dirty (recorder.h), the dirty bit
    of one image. *)
Definition dvz_recorder_is_dirty (id img : Z) : M bool :=
  do c <- the_canvas id;
  do r <- ANN (recorder c);
  ASSERT (in_range img (rec_dirty r)) >>
  ANN (rec_dirty r !! Z.to_nat img).

(** ** presenter.c *)

(** The flag tests at the top of _create_canvas. *)
Definition has_gui (flags : Z) : bool :=
  negb (Z.land flags (DVZ_CANVAS_FLAGS_IMGUI H) =? 0).

Definition has_fps (flags : Z) : bool :=
  negb (Z.land flags (Z.lxor (DVZ_CANVAS_FLAGS_FPS H) (DVZ_CANVAS_FLAGS_IMGUI H)) =? 0).

Definition has_monitor (flags : Z) : bool :=
  negb (Z.land flags (Z.lxor (DVZ_CANVAS_FLAGS_MONITOR H) (DVZ_CANVAS_FLAGS_IMGUI H)) =? 0).

Definition has_fullscreen (flags : Z) : bool :=
  negb (Z.land flags (DVZ_CANVAS_FLAGS_FULLSCREEN H) =? 0).

(** dvz_presenter_gui(prt, window_id, callback, user_data); a NULL callback
    is [None]. *)
Definition dvz_presenter_gui (id : Z) (cb : option DvzGuiCallback) (ud : UserData) : M unit :=
  ASSERT (negb (id =? 0)) >>
  do f <- ANN cb;
  ext_list_append_callback {| window_id := id; callback := f; user_data := ud |}.

(** _create_canvas(prt, req) *)
Definition _create_canvas (req : DvzRequest) : M unit :=
  let id := req_id req in
  let screen_width := req_screen_width req in
  let screen_height := req_screen_height req in
  ASSERT (0 <? screen_width) >>
  ASSERT (0 <? screen_height) >>
  ext_create_client_window id screen_width screen_height >>
  call (dvz_window_input id) >>
  do window <- the_window id;
  update_canvas id
    (canvas_with_size (framebuffer_width window) (framebuffer_height window)) >>
  do surf <- ext_window_surface id;
  ext_canvas_create id surf >>
  ext_list_append_surface id >>
  do canvas <- the_canvas id;
  ASSERT (dvz_obj_is_created K (sc_status (swapchain canvas))) >>
  ext_recorder id >>
  modify (fun w =>
    with_res_img_count (Z.max (img_count (swapchain canvas)) (res_img_count w)) w) >>
  call (dvz_window_fullscreen id (has_fullscreen (req_flags req))) >>
  when (has_gui (req_flags req))
    (do w <- get;
     do _g <- ANN (prt_gui w);
     call (dvz_gui_window id) >>
     do w <- get;
     ext_map_add_gui id {| gw_ptr := gui_window_address K w id; gw_obj_id := id |}) >>
  when (has_fps (req_flags req))
    (dvz_presenter_gui id (Some _gui_callback_fps) prt_fps) >>
  when (has_monitor (req_flags req))
    (dvz_presenter_gui id (Some _gui_callback_monitoring) ctx_datalloc) >>
  update_canvas id (fun c =>
    canvas_with_swapchain
      (swapchain_with_status DVZ_OBJECT_STATUS_NEED_RECREATE (swapchain c)) c).

(** _delete_canvas(prt, id) *)
Definition _delete_canvas (id : Z) : M unit :=
  call dvz_gpu_wait >>
  do canvas <- the_canvas id;
  ext_canvas_destroy id >>
  do canvas <- the_canvas id;
  match recorder canvas with
  | Some _ => call (dvz_recorder_destroy id)
  | None => ret tt
  end >>
  ext_list_remove_pointer id >>
  call (dvz_surface_destroy (surface canvas)) >>
  do gui_window <- dvz_map_get id;
  match gui_window with
  | Some gw => call (dvz_gui_window_destroy gw)
  | None => ret tt
  end.

(** _canvas_request(prt, req) *)
Definition _canvas_request (req : DvzRequest) : M unit :=
  match req_action req with
  | DVZ_REQUEST_ACTION_CREATE => _create_canvas req
  | DVZ_REQUEST_ACTION_DELETE => _delete_canvas (req_id req)
  | DVZ_REQUEST_ACTION_OTHER _ => ret tt
  end.

(** _record_command(rd, canvas, img_idx) *)
Definition _record_command (id : Z) (img : Z) : M unit :=
  do canvas <- the_canvas id;
  do r <- ANN (recorder canvas);
  if 0 <? rec_count r then
    call (dvz_cmd_reset id img) >>
    ext_recorder_set id img
  else
    call (dvz_cmd_reset id img) >>
    call (blank_commands id img) >>
    ext_recorder_set id img.

(** _delete_callback(client, ev) *)
Definition _delete_callback (ev : DvzClientEvent) : M unit :=
  ASSERT (match ev with DVZ_CLIENT_EVENT_WINDOW_DELETE _ => true | _ => false end) >>
  _delete_canvas (event_window_id ev).

(** _requester_callback(client, ev) *)
Definition _requester_callback (ev : DvzClientEvent) : M unit :=
  match ev with
  | DVZ_CLIENT_EVENT_REQUESTS batch =>
      let count := Z.of_nat (length (batch_requests batch)) in
      ASSERT (0 <? count) >>
      for_loop (Z.to_nat count) 0 (fun i =>
        do req <- ANN (batch_requests batch !! Z.to_nat i);
        ext_renderer_request req >>
        match req_type req with
        | DVZ_REQUEST_OBJECT_CANVAS => _canvas_request req
        | _ => ret tt
        end) >>
      call (dvz_batch_destroy batch)
  | _ => ASSERT false
  end.

(** _gui_callback(prt, gui_window, submit, img_idx); prt and submit are
    never NULL at its one call site.  dvz_list_count is 64 bits wide and n is
    a uint32_t. *)
Definition _gui_callback (gui_window : option DvzGuiWindow) (id : Z) (img : Z) : M unit :=
  do w <- get;
  match gui_window, callbacks w with
  | Some gw, Some _ =>
      call (dvz_gui_window_begin gw img) >>
      do count <- dvz_list_count;
      let n := count mod two32 in
      for_loop (Z.to_nat n) 0 (fun i =>
        do payload <- dvz_list_get i;
        when (window_id payload =? gw_obj_id gw)
          (call (gui_callback_invoke (callback payload) gw (user_data payload)))) >>
      call (dvz_gui_window_end gw img) >>
      call (dvz_submit_commands id (gui_window_cmds gw))
  | _, _ => ret tt
  end.

(** The NEED_RECREATE arm of dvz_presenter_frame. *)
Definition frame_recreate (id : Z) (gui_window : option DvzGuiWindow) : M unit :=
  call dvz_gpu_wait >>
  ext_window_poll_size id >>
  ext_canvas_recreate id >>
  call (dvz_semaphores_recreate id sem_img_available) >>
  call (dvz_semaphores_recreate id sem_render_finished) >>
  do canvas <- the_canvas id;
  match gui_window with
  | Some gw => call (dvz_gui_window_resize gw (canvas_width canvas) (canvas_height canvas))
  | None => ret tt
  end >>
  do window <- the_window id;
  call (dvz_client_event
          (DVZ_CLIENT_EVENT_WINDOW_RESIZE id
             (canvas_width canvas) (canvas_height canvas)
             (window_width window) (window_height window))) >>
  ext_recorder_set_dirty id >>
  for_loop (Z.to_nat (cmds_count canvas)) 0 (fun i => _record_command id i).

(** The last arm of dvz_presenter_frame: record, submit and present.
    frame_time_idx is taken as a 64-bit counter and cur_frame as a
    uint32_t. *)
Definition frame_submit (id : Z) (gui_window : option DvzGuiWindow) : M unit :=
  do canvas <- the_canvas id;
  let fidx := frame_time_idx canvas mod DVZ_MAX_TIMESTAMPS H in
  update_canvas id (canvas_with_frame_time_idx ((frame_time_idx canvas + 1) mod two64)) >>
  ASSERT (fidx <? DVZ_MAX_TIMESTAMPS H) >>
  call (dvz_time id fidx) >>
  let img := img_idx (swapchain canvas) in
  call (dvz_fences_copy id (cur_frame canvas) img) >>
  do dirty <- dvz_recorder_is_dirty id img;
  when dirty (_record_command id img) >>
  call (dvz_submit_reset id) >>
  call (dvz_submit_commands id (canvas_cmds id)) >>
  match gui_window with
  | Some gw =>
      do n <- dvz_list_count;
      when (0 <? n) (_gui_callback gui_window id img)
  | None => ret tt
  end >>
  call (dvz_submit_wait_semaphores id (cur_frame canvas)) >>
  call (dvz_submit_signal_semaphores id (cur_frame canvas)) >>
  call (dvz_submit_send id img (cur_frame canvas)) >>
  ext_swapchain_present id (cur_frame canvas) >>
  update_canvas id
    (canvas_with_cur_frame (((cur_frame canvas + 1) mod two32) mod DVZ_MAX_FRAMES_IN_FLIGHT H)).

(** The head of dvz_presenter_frame: the lookups, the fence wait and the
    acquisition.  It returns the GUI window of the canvas, NULL or not. *)
Definition frame_acquire (id : Z) : M (option DvzGuiWindow) :=
  do _window <- the_window id;
  do canvas <- the_canvas id;
  do _recorder <- ANN (recorder canvas);
  do gui_window <- dvz_map_get id;
  call (dvz_fences_wait id
          (((cur_frame canvas + 1) mod two32) mod DVZ_MAX_FRAMES_IN_FLIGHT H)) >>
  ext_swapchain_acquire id (cur_frame canvas) >>
  ret gui_window.

(** dvz_presenter_frame(prt, window_id) *)
Definition dvz_presenter_frame (id : Z) : M unit :=
  do gui_window <- frame_acquire id;
  do canvas <- the_canvas id;
  match sc_status (swapchain canvas) with
  | DVZ_OBJECT_STATUS_INVALID => call dvz_gpu_wait
  | status =>
      match status with
      | DVZ_OBJECT_STATUS_NEED_RECREATE => frame_recreate id gui_window
      | _ => frame_submit id gui_window
      end >>
      do canvas <- the_canvas id;
      call (dvz_transfers_frame (img_idx (swapchain canvas)))
  end.

(** _frame_callback(client, ev) *)
Definition _frame_callback (ev : DvzClientEvent) : M unit :=
  dvz_presenter_frame (event_window_id ev).

(** dvz_presenter_submit(prt, batch); a NULL batch is [None]. *)
Definition dvz_presenter_submit (batch : option DvzBatch) : M unit :=
  do b <- ANN batch;
  let count := Z.of_nat (length (batch_requests b)) in
  if count =? 0 then ret tt
  else
    ASSERT (0 <? count) >>
    do w <- get;
    when (match environ w "DVZ_VERBOSE" with
          | Some v => is_prefix_prt v
          | None => false
          end)
      (call (dvz_batch_print b)) >>
    match environ w "DVZ_DRP" with
    | Some file => call (dvz_batch_yaml b file)
    | None => ret tt
    end >>
    call (dvz_client_event (DVZ_CLIENT_EVENT_REQUESTS b)).

End Presenter.

(** ** What a tick observes after acquisition *)

(** The world right after the fence wait and the acquisition. *)
Definition acquired_world (H : Header) (K : Collaborators) (id : Z) (w : World) : option World :=
  match frame_acquire H K id w with
  | Ok _ w1 => Some w1
  | Abort => None
  end.

(** The canvas of [id] as the tick finds it after acquisition, if the tick
    gets that far. *)
Definition acquired_canvas (H : Header) (K : Collaborators) (id : Z) (w : World) : option DvzCanvas :=
  match acquired_world H K id w with
  | Some w1 => canvases w1 !! id
  | None => None
  end.

(** swapchain->obj.status and swapchain->img_idx after acquisition. *)
Definition observed_status (H : Header) (K : Collaborators) (id : Z) (w : World) : option DvzObjectStatus :=
  match acquired_canvas H K id w with
  | Some c => Some (sc_status (swapchain c))
  | None => None
  end.

Definition acquired_img_idx (H : Header) (K : Collaborators) (id : Z) (w : World) : option Z :=
  match acquired_canvas H K id w with
  | Some c => Some (img_idx (swapchain c))
  | None => None
  end.

(** ** Worlds reached by a run *)

(** The world in which canvas [id] is [c]. *)
Definition set_canvas (id : Z) (c : DvzCanvas) (w : World) : World :=
  with_canvases (<[id := c]> (canvases w)) w.

(** The world after the calls [l], given in the order they are made. *)
Definition logs (l : list Call) (w : World) : World :=
  with_calls (rev l ++ calls w) w.

(** The calls of one _record_command, for a recorder with [cnt] cached
    commands. *)
Definition record_calls (id cnt img : Z) : list Call :=
  if 0 <? cnt
  then [dvz_cmd_reset id img; dvz_recorder_set id img]
  else [dvz_cmd_reset id img; blank_commands id img; dvz_recorder_set id img].

(** The image indices i, i+1, ..., i+n-1 of a for loop. *)
Fixpoint indices (n : nat) (i : Z) : list Z :=
  match n with
  | O => []
  | S n' => i :: indices n' (i + 1)
  end.

(** Clearing the dirty bits [i], [i+1], ..., [i+n-1]. *)
Fixpoint clear_bits (n : nat) (i : Z) (l : list bool) : list bool :=
  match n with
  | O => l
  | S n' => clear_bits n' (i + 1) (<[Z.to_nat i := false]> l)
  end.

Definition recorder_with_dirty (d : list bool) (r : DvzRecorder) : DvzRecorder :=
  {| rec_count := rec_count r; rec_dirty := d |}.

Definition canvas_with_dirty (d : list bool) (r : DvzRecorder) (c : DvzCanvas) : DvzCanvas :=
  canvas_with_recorder (Some (recorder_with_dirty d r)) c.

(** The call that resizes the GUI window, when there is one. *)
Definition resize_gui_calls (gw : option DvzGuiWindow) (wd ht : Z) : list Call :=
  match gw with
  | Some g => [dvz_gui_window_resize g wd ht]
  | None => []
  end.

(** The callbacks _gui_callback invokes for the GUI window [g]: the entries
    of the list registered for the id of [g], in list order. *)
Definition matching (g : DvzGuiWindow) (l : list DvzGuiCallbackPayload) : list DvzGuiCallbackPayload :=
  List.filter (fun p => window_id p =? gw_obj_id g) l.

Definition invocations (g : DvzGuiWindow) (l : list DvzGuiCallbackPayload) : list Call :=
  map (fun p => gui_callback_invoke (callback p) g (user_data p)) (matching g l).

(** The calls of the overlay pass of a tick. *)
Definition overlay_pass (g : DvzGuiWindow) (l : list DvzGuiCallbackPayload) (id img : Z) : list Call :=
  [dvz_gui_window_begin g img] ++ invocations g l
  ++ [dvz_gui_window_end g img; dvz_submit_commands id (gui_window_cmds g)].

Definition overlay_calls (gw : option DvzGuiWindow) (cbs : option (list DvzGuiCallbackPayload))
    (id img : Z) : list Call :=
  match gw, cbs with
  | Some g, Some l => if 0 <? Z.of_nat (length l) then overlay_pass g l id img else []
  | _, _ => []
  end.

(** ** Closed forms of the arms of a tick

    The worlds in which the collaborators answer during a tick, the canvas
    and window they leave, and the calls each arm makes. *)

Section Closed.

Context (H : Header) (K : Collaborators).

(** The fence slot a tick waits on. *)
Definition next_slot (c : DvzCanvas) : Z :=
  ((cur_frame c + 1) mod two32) mod DVZ_MAX_FRAMES_IN_FLIGHT H.

(** Acquisition, for a tick that starts in [w] with canvas [c]. *)
Definition acquire_world (id : Z) (c : DvzCanvas) (w : World) : World :=
  logged (dvz_swapchain_acquire id (cur_frame c))
    (logged (dvz_fences_wait id (next_slot c)) w).

Definition acquired (id : Z) (c : DvzCanvas) (w : World) : DvzCanvas :=
  canvas_with_swapchain (swapchain_acquired K (acquire_world id c w) id) c.

Definition after_acquire (id : Z) (c : DvzCanvas) (w : World) : World :=
  set_canvas id (acquired id c w) (acquire_world id c w).

(** The first two calls of every tick. *)
Definition acquire_calls (id : Z) (c : DvzCanvas) : list Call :=
  [dvz_fences_wait id (next_slot c); dvz_swapchain_acquire id (cur_frame c)].

(** The NEED_RECREATE arm, started in [w] with canvas [c] and recorder [r]. *)
Definition poll_world (id : Z) (w : World) : World :=
  logged (dvz_window_poll_size id) (logged dvz_gpu_wait w).

Definition polled (id : Z) (w : World) : DvzWindow :=
  window_polled K (poll_world id w) id.

Definition recreate_world (id : Z) (w : World) : World :=
  logged (dvz_canvas_recreate id)
    (with_windows (<[id := polled id w]> (windows w)) (poll_world id w)).

Definition recreated (id : Z) (c : DvzCanvas) (w : World) : DvzCanvas :=
  let rc := canvas_recreated K (recreate_world id w) id in
  canvas_with_swapchain (snd rc) (canvas_with_size (fst (fst rc)) (snd (fst rc)) c).

Definition resize_event (id : Z) (c : DvzCanvas) (w : World) : DvzClientEvent :=
  DVZ_CLIENT_EVENT_WINDOW_RESIZE id
    (canvas_width (recreated id c w)) (canvas_height (recreated id c w))
    (window_width (polled id w)) (window_height (polled id w)).

Definition recreate_calls (id : Z) (gw : option DvzGuiWindow) (c : DvzCanvas)
    (r : DvzRecorder) (w : World) : list Call :=
  [dvz_gpu_wait; dvz_window_poll_size id; dvz_canvas_recreate id;
   dvz_semaphores_recreate id sem_img_available;
   dvz_semaphores_recreate id sem_render_finished]
  ++ resize_gui_calls gw (canvas_width (recreated id c w)) (canvas_height (recreated id c w))
  ++ [dvz_client_event (resize_event id c w); dvz_recorder_set_dirty id]
  ++ flat_map (record_calls id (rec_count r)) (indices (Z.to_nat (cmds_count c)) 0).

Definition rerecorded (id : Z) (c : DvzCanvas) (r : DvzRecorder) (w : World) : DvzCanvas :=
  canvas_with_dirty
    (clear_bits (Z.to_nat (cmds_count c)) 0 (replicate (length (rec_dirty r)) true))
    r (recreated id c w).

Definition after_recreate (id : Z) (gw : option DvzGuiWindow) (c : DvzCanvas)
    (r : DvzRecorder) (w : World) : World :=
  set_canvas id (rerecorded id c r w)
    (logs (recreate_calls id gw c r w)
       (with_windows (<[id := polled id w]> (windows w)) w)).

(** The last arm, started in [w] with canvas [c] and recorder [r]; [b] is
    the dirty bit of the acquired image. *)
Definition recorded (c : DvzCanvas) (r : DvzRecorder) (b : bool) : DvzCanvas :=
  let cA := canvas_with_frame_time_idx ((frame_time_idx c + 1) mod two64) c in
  if b
  then canvas_with_dirty (<[Z.to_nat (img_idx (swapchain c)) := false]> (rec_dirty r)) r cA
  else cA.

Definition submit_calls (id : Z) (gw : option DvzGuiWindow)
    (cbs : option (list DvzGuiCallbackPayload)) (c : DvzCanvas) (r : DvzRecorder)
    (b : bool) : list Call :=
  let img := img_idx (swapchain c) in
  let cf := cur_frame c in
  [dvz_time id (frame_time_idx c mod DVZ_MAX_TIMESTAMPS H); dvz_fences_copy id cf img]
  ++ (if b then record_calls id (rec_count r) img else [])
  ++ [dvz_submit_reset id; dvz_submit_commands id (canvas_cmds id)]
  ++ overlay_calls gw cbs id img
  ++ [dvz_submit_wait_semaphores id cf; dvz_submit_signal_semaphores id cf;
      dvz_submit_send id img cf].

Definition present_world (id : Z) (gw : option DvzGuiWindow) (c : DvzCanvas)
    (r : DvzRecorder) (b : bool) (w : World) : World :=
  logged (dvz_swapchain_present id (cur_frame c))
    (set_canvas id (recorded c r b) (logs (submit_calls id gw (callbacks w) c r b) w)).

Definition presented (id : Z) (gw : option DvzGuiWindow) (c : DvzCanvas)
    (r : DvzRecorder) (b : bool) (w : World) : DvzCanvas :=
  canvas_with_cur_frame (next_slot c)
    (canvas_with_swapchain (swapchain_presented K (present_world id gw c r b w) id)
       (recorded c r b)).

Definition after_submit (id : Z) (gw : option DvzGuiWindow) (c : DvzCanvas)
    (r : DvzRecorder) (b : bool) (w : World) : World :=
  set_canvas id (presented id gw c r b w) (present_world id gw c r b w).

(** A live surface: the window, the canvas and its recorder exist, the
    presenter has its list of callbacks (shorter than 2^32), and the recorder
    has a dirty bit for every command buffer. *)
Definition live (id : Z) (w : World) : bool :=
  match windows w !! id, canvases w !! id, callbacks w with
  | Some _, Some c, Some l =>
      match recorder c with
      | Some r =>
          (Z.of_nat (length l) <? two32)
          && (cmds_count c <=? Z.of_nat (length (rec_dirty r)))
      | None => false
      end
  | _, _, _ => false
  end.

(** The acquired image has a dirty bit, when the tick is going to read it. *)
Definition acquired_in_range (id : Z) (w : World) : bool :=
  match acquired_canvas H K id w with
  | Some c1 =>
      match recorder c1 with
      | Some r =>
          match sc_status (swapchain c1) with
          | DVZ_OBJECT_STATUS_INVALID | DVZ_OBJECT_STATUS_NEED_RECREATE => true
          | _ => in_range (img_idx (swapchain c1)) (rec_dirty r)
          end
      | None => false
      end
  | None => false
  end.

(** dvz_canvas_recreate and dvz_swapchain_present leave swapchain->img_idx
    as it is. *)
Definition keeps_img_idx : Prop :=
  forall (w : World) (id : Z) (c : DvzCanvas),
    canvases w !! id = Some c ->
    img_idx (snd (canvas_recreated K w id)) = img_idx (swapchain c) /\
    img_idx (swapchain_presented K w id) = img_idx (swapchain c).

(** dvz_canvas_create leaves a swapchain that dvz_obj_is_created accepts. *)
Definition creates_swapchain : Prop :=
  forall (w : World) (id : Z),
    dvz_obj_is_created K (sc_status (fst (canvas_created K w id))) = true.

(** The callback entries _create_canvas registers by itself. *)
Definition builtin_entries (id flags : Z) : list DvzGuiCallbackPayload :=
  (if has_fps H flags
   then [{| window_id := id; callback := _gui_callback_fps; user_data := prt_fps |}]
   else [])
  ++ (if has_monitor H flags
      then [{| window_id := id; callback := _gui_callback_monitoring;
               user_data := ctx_datalloc |}]
      else []).

End Closed.

(** The three ways a tick on a live surface can go. *)
Inductive tick_outcome (H : Header) (K : Collaborators) (id : Z) (w : World)
    (c : DvzCanvas) (r : DvzRecorder) : Prop :=
| tick_invalid :
    sc_status (swapchain (acquired H K id c w)) = DVZ_OBJECT_STATUS_INVALID ->
    dvz_presenter_frame H K id w = Ok tt (logged dvz_gpu_wait (after_acquire H K id c w)) ->
    tick_outcome H K id w c r
| tick_need_recreate :
    sc_status (swapchain (acquired H K id c w)) = DVZ_OBJECT_STATUS_NEED_RECREATE ->
    dvz_presenter_frame H K id w =
      Ok tt (logged (dvz_transfers_frame
                       (img_idx (swapchain (rerecorded K id (acquired H K id c w) r
                                              (after_acquire H K id c w)))))
               (after_recreate K id (guis w !! id) (acquired H K id c w) r
                  (after_acquire H K id c w))) ->
    tick_outcome H K id w c r
| tick_ready (b : bool) :
    sc_status (swapchain (acquired H K id c w)) <> DVZ_OBJECT_STATUS_INVALID ->
    sc_status (swapchain (acquired H K id c w)) <> DVZ_OBJECT_STATUS_NEED_RECREATE ->
    0 <= img_idx (swapchain (acquired H K id c w)) ->
    rec_dirty r !! Z.to_nat (img_idx (swapchain (acquired H K id c w))) = Some b ->
    dvz_presenter_frame H K id w =
      Ok tt (logged (dvz_transfers_frame
                       (img_idx (swapchain (presented H K id (guis w !! id)
                                              (acquired H K id c w) r b
                                              (after_acquire H K id c w)))))
               (after_submit H K id (guis w !! id) (acquired H K id c w) r b
                  (after_acquire H K id c w))) ->
    tick_outcome H K id w c r.

(** ** Reading a trace *)

Definition transfers_of (l : list Call) : list Z :=
  omap (fun c => match c with dvz_transfers_frame i => Some i | _ => None end) l.

Definition fence_waits_of (l : list Call) : list (Z * Z) :=
  omap (fun c => match c with dvz_fences_wait id s => Some (id, s) | _ => None end) l.

Definition client_events_of (l : list Call) : list DvzClientEvent :=
  omap (fun c => match c with dvz_client_event ev => Some ev | _ => None end) l.

Definition invocations_of (l : list Call) : list (DvzGuiCallback * DvzGuiWindow * UserData) :=
  omap (fun c => match c with
                 | gui_callback_invoke cb g ud => Some (cb, g, ud)
                 | _ => None
                 end) l.

(** The submissions and presentations of a trace. *)
Definition submissions_of (l : list Call) : list Call :=
  List.filter (fun c => match c with
                        | dvz_submit_send _ _ _ | dvz_swapchain_present _ _ => true
                        | _ => false
                        end) l.

Definition overlay_begins_of (l : list Call) : list (DvzGuiWindow * Z) :=
  omap (fun c => match c with dvz_gui_window_begin g i => Some (g, i) | _ => None end) l.

Definition window_destroys_of (l : list Call) : list Z :=
  omap (fun c => match c with
                 | dvz_window_destroy id | dvz_input_destroy id | dvz_map_remove id => Some id
                 | _ => None
                 end) l.

(** The calls made inside the recording and overlay passes. *)
Definition inner_call (c : Call) : bool :=
  match c with
  | dvz_cmd_reset _ _ | blank_commands _ _ | dvz_recorder_set _ _
  | dvz_gui_window_begin _ _ | gui_callback_invoke _ _ _ | dvz_gui_window_end _ _
  | dvz_submit_commands _ _ | dvz_gui_window_resize _ _ _ => true
  | _ => false
  end.

(** ** A sample configuration

    Sample values for the header constants, collaborators with fixed
    answers, and a world with one canvas of three images. *)

(** Three statuses that presenter.c does not name. *)
Definition status_created : DvzObjectStatus := DVZ_OBJECT_STATUS_OTHER 0.
Definition status_destroyed : DvzObjectStatus := DVZ_OBJECT_STATUS_OTHER 1.
Definition status_none : DvzObjectStatus := DVZ_OBJECT_STATUS_OTHER 2.

Definition sample_header : Header :=
  {| DVZ_MAX_FRAMES_IN_FLIGHT := 2; DVZ_MAX_TIMESTAMPS := 16;
     DVZ_CANVAS_FLAGS_IMGUI := 1; DVZ_CANVAS_FLAGS_FPS := 3;
     DVZ_CANVAS_FLAGS_MONITOR := 5; DVZ_CANVAS_FLAGS_FULLSCREEN := 8 |}.

Definition sample_window : DvzWindow :=
  {| window_width := 800; window_height := 600;
     framebuffer_width := 1600; framebuffer_height := 1200 |}.

Definition current_swapchain (w : World) (id : Z) : DvzSwapchain :=
  match canvases w !! id with
  | Some c => swapchain c
  | None => {| sc_status := status_none; img_idx := 0; img_count := 0 |}
  end.

(** Collaborators whose acquisition leaves status [s] and image [img]. *)
Definition sample_collaborators (s : DvzObjectStatus) (img : Z) : Collaborators :=
  {| client_window := fun _ _ _ _ => sample_window;
     window_surface := fun _ _ => 7;
     canvas_created := fun _ _ =>
       ({| sc_status := status_created; img_idx := 0; img_count := 3 |}, 3);
     recorder_dirty0 := fun _ _ => [true; true; true];
     gui_window_address := fun _ _ => 9;
     dvz_obj_is_created := fun st =>
       match st with DVZ_OBJECT_STATUS_OTHER 0 => true | _ => false end;
     renderer_canvases := fun w _ => canvases w;
     canvas_destroyed := fun w id =>
       swapchain_with_status status_destroyed (current_swapchain w id);
     swapchain_acquired := fun w id =>
       {| sc_status := s; img_idx := img; img_count := img_count (current_swapchain w id) |};
     swapchain_presented := fun w id => current_swapchain w id;
     window_polled := fun _ _ => sample_window;
     canvas_recreated := fun w id =>
       (1600, 1200,
        swapchain_with_status status_created (current_swapchain w id)) |}.

Definition sample_canvas (r : DvzRecorder) : DvzCanvas :=
  {| canvas_width := 1600; canvas_height := 1200; cur_frame := 0; frame_time_idx := 0;
     swapchain := {| sc_status := status_created; img_idx := 0; img_count := 3 |};
     cmds_count := 3; recorder := Some r; surface := 7 |}.

Definition blank_recorder : DvzRecorder :=
  {| rec_count := 0; rec_dirty := [true; true; true] |}.

Definition sample_gui_window : DvzGuiWindow := {| gw_ptr := 9; gw_obj_id := 1 |}.

Definition sample_payload (id f : Z) : DvzGuiCallbackPayload :=
  {| window_id := id; callback := user_gui_callback f; user_data := user_pointer f |}.

(** Scenario C: three callbacks for canvas 1 and one for canvas 2. *)
Definition sample_callbacks : list DvzGuiCallbackPayload :=
  [sample_payload 1 10; sample_payload 2 20; sample_payload 1 11; sample_payload 1 12].

Definition sample_world (r : DvzRecorder) (gw : option DvzGuiWindow)
    (cbs : list DvzGuiCallbackPayload) : World :=
  {| windows := {[ 1 := sample_window ]}; frame_idx := 0;
     canvases := {[ 1 := sample_canvas r ]}; res_img_count := 3;
     prt_gui := Some 5;
     guis := match gw with Some g => {[ 1 := g ]} | None => ∅ end;
     callbacks := Some cbs; surfaces := [1];
     environ := fun _ => None; calls := [] |}.

Definition sample_request (flags : Z) : DvzRequest :=
  {| req_action := DVZ_REQUEST_ACTION_CREATE; req_type := DVZ_REQUEST_OBJECT_CANVAS;
     req_id := 1; req_flags := flags; req_screen_width := 800; req_screen_height := 600 |}.

Definition empty_batch : DvzBatch := {| batch_ptr := 3; batch_requests := [] |}.

(** ** More readings of a trace, and the calls of a whole tick *)

(** The calls that refill a command buffer. *)
Definition recording_call (c : Call) : bool :=
  match c with
  | dvz_cmd_reset _ _ | blank_commands _ _ | dvz_recorder_set _ _ => true
  | _ => false
  end.

Definition recordings_of (l : list Call) : list Call := List.filter recording_call l.

Definition blanks_of (l : list Call) : list (Z * Z) :=
  omap (fun c => match c with blank_commands id i => Some (id, i) | _ => None end) l.

(** The calls of an overlay pass. *)
Definition overlay_call (c : Call) : bool :=
  match c with
  | dvz_gui_window_begin _ _ | gui_callback_invoke _ _ _ | dvz_gui_window_end _ _
  | dvz_submit_commands _ (gui_window_cmds _) => true
  | _ => false
  end.

Definition overlay_of (l : list Call) : list Call := List.filter overlay_call l.

(** The calls that take a GUI window. *)
Definition gui_window_call (c : Call) : bool :=
  match c with
  | dvz_gui_window_resize _ _ _ | dvz_gui_window_destroy _ | dvz_map_add_gui _ _
  | dvz_gui_window _ => true
  | _ => overlay_call c
  end.

Definition gui_window_calls_of (l : list Call) : list Call :=
  List.filter gui_window_call l.

Definition renderer_requests_of (l : list Call) : list DvzRequest :=
  omap (fun c => match c with dvz_renderer_request req => Some req | _ => None end) l.

Definition batch_destroys_of (l : list Call) : list DvzBatch :=
  omap (fun c => match c with dvz_batch_destroy b => Some b | _ => None end) l.

(** The calls of a whole tick that starts in [w] with canvas [c] and recorder
    [r], one list per arm. *)
Definition invalid_tick_calls (H : Header) (id : Z) (c : DvzCanvas) : list Call :=
  acquire_calls H id c ++ [dvz_gpu_wait].

Definition recreate_tick_calls (H : Header) (K : Collaborators) (id : Z)
    (c : DvzCanvas) (r : DvzRecorder) (w : World) : list Call :=
  let c1 := acquired H K id c w in
  let w1 := after_acquire H K id c w in
  acquire_calls H id c
  ++ recreate_calls K id (guis w !! id) c1 r w1
  ++ [dvz_transfers_frame (img_idx (swapchain (rerecorded K id c1 r w1)))].

Definition ready_tick_calls (H : Header) (K : Collaborators) (id : Z)
    (c : DvzCanvas) (r : DvzRecorder) (b : bool) (w : World) : list Call :=
  let c1 := acquired H K id c w in
  let w1 := after_acquire H K id c w in
  acquire_calls H id c
  ++ submit_calls H id (guis w !! id) (callbacks w) c1 r b
  ++ [dvz_swapchain_present id (cur_frame c);
      dvz_transfers_frame
        (img_idx (swapchain (presented H K id (guis w !! id) c1 r b w1)))].

(** A request that the router only forwards to the renderer: anything but the
    creation or the deletion of a canvas. *)
Definition forwarded_only (req : DvzRequest) : bool :=
  match req_type req, req_action req with
  | DVZ_REQUEST_OBJECT_CANVAS, DVZ_REQUEST_ACTION_CREATE => false
  | DVZ_REQUEST_OBJECT_CANVAS, DVZ_REQUEST_ACTION_DELETE => false
  | _, _ => true
  end.

(** The diagnostic calls of dvz_presenter_submit, as the environment asks. *)
Definition diagnostic_calls (w : World) (b : DvzBatch) : list Call :=
  (match environ w "DVZ_VERBOSE"%string with
   | Some v => if is_prefix_prt v then [dvz_batch_print b] else []
   | None => []
   end)
  ++ match environ w "DVZ_DRP"%string with
     | Some file => [dvz_batch_yaml b file]
     | None => []
     end.

(** The calls of _create_canvas, with the surface the window gave and the
    GUI window made for the id. *)
Definition create_calls (H : Header) (req : DvzRequest) (surf : Z) (g : DvzGuiWindow)
    : list Call :=
  [create_client_window (req_id req) (req_screen_width req) (req_screen_height req);
   dvz_window_input (req_id req);
   dvz_window_surface (req_id req);
   dvz_canvas_create (req_id req) surf;
   dvz_list_append_surface (req_id req);
   dvz_recorder_new (req_id req);
   dvz_window_fullscreen (req_id req) (has_fullscreen H (req_flags req))]
  ++ (if has_gui H (req_flags req)
      then [dvz_gui_window (req_id req); dvz_map_add_gui (req_id req) g]
      else [])
  ++ map dvz_list_append_callback (builtin_entries H (req_id req) (req_flags req)).

(** The world after the renderer has applied one request, and after it has
    applied a list of requests in order. *)
Definition requested (K : Collaborators) (req : DvzRequest) (w : World) : World :=
  let w1 := logged (dvz_renderer_request req) w in
  with_canvases (renderer_canvases K w1 req) w1.

Fixpoint forwarded (K : Collaborators) (l : list DvzRequest) (w : World) : World :=
  match l with
  | [] => w
  | req :: l' => forwarded K l' (requested K req w)
  end.

(** The body of the loop of _requester_callback over the requests [l]. *)
Definition route (H : Header) (K : Collaborators) (l : list DvzRequest) (i : Z) : M unit :=
  do req <- ANN (l !! Z.to_nat i);
  ext_renderer_request K req >>
  match req_type req with
  | DVZ_REQUEST_OBJECT_CANVAS => _canvas_request H K req
  | _ => ret tt
  end.

(** ** More of the sample configuration *)

(** A recorder with two cached commands; the bit of image 1 is clean. *)
Definition cached_recorder : DvzRecorder :=
  {| rec_count := 2; rec_dirty := [true; false; true] |}.

(** The sample world before canvas 1 is tracked by the presenter. *)
Definition untracked_world : World :=
  with_surfaces [] (sample_world blank_recorder None []).

(** The sample world with a canvas that never got a recorder. *)
Definition bare_world : World :=
  with_canvases {[ 1 := canvas_with_recorder None (sample_canvas blank_recorder) ]}
    (sample_world blank_recorder (Some sample_gui_window) []).

(** A request that is no business of the presenter. *)
Definition upload_request (id : Z) : DvzRequest :=
  {| req_action := DVZ_REQUEST_ACTION_OTHER 4; req_type := DVZ_REQUEST_OBJECT_OTHER 6;
     req_id := id; req_flags := 0; req_screen_width := 0; req_screen_height := 0 |}.

Definition record_request (id : Z) : DvzRequest :=
  {| req_action := DVZ_REQUEST_ACTION_OTHER 5; req_type := DVZ_REQUEST_OBJECT_RECORD;
     req_id := id; req_flags := 0; req_screen_width := 0; req_screen_height := 0 |}.

Definition delete_request (id : Z) : DvzRequest :=
  {| req_action := DVZ_REQUEST_ACTION_DELETE; req_type := DVZ_REQUEST_OBJECT_CANVAS;
     req_id := id; req_flags := 0; req_screen_width := 0; req_screen_height := 0 |}.

Definition upload_batch : DvzBatch :=
  {| batch_ptr := 4; batch_requests := [upload_request 20; record_request 1] |}.

Definition creation_batch : DvzBatch :=
  {| batch_ptr := 5;
     batch_requests := [upload_request 20; sample_request 7; record_request 1] |}.

(** ** Reasoning about runs *)

Lemma World_ext (w1 w2 : World) :
  windows w1 = windows w2 -> frame_idx w1 = frame_idx w2 ->
  canvases w1 = canvases w2 -> res_img_count w1 = res_img_count w2 ->
  prt_gui w1 = prt_gui w2 -> guis w1 = guis w2 ->
  callbacks w1 = callbacks w2 -> surfaces w1 = surfaces w2 ->
  environ w1 = environ w2 -> calls w1 = calls w2 ->
  w1 = w2.
Proof. destruct w1, w2; cbn; intros; subst; reflexivity. Qed.

Lemma trace_calls (l : list Call) (w w' : World) :
  calls w' = rev l ++ calls w -> trace w' = trace w ++ l.
Proof. intros E. unfold trace. rewrite E, rev_app_distr, rev_involutive. reflexivity. Qed.

Lemma bind_Ok {A B} (m : M A) (k : A -> M B) (w w' : World) (a : A) :
  m w = Ok a w' -> bind m k w = k a w'.
Proof. intros E. unfold bind. rewrite E. reflexivity. Qed.

Lemma the_canvas_run id w c : canvases w !! id = Some c -> the_canvas id w = Ok c w.
Proof.
  intros E. unfold the_canvas, dvz_renderer_canvas, bind, get, ret, ANN.
  rewrite E. reflexivity.
Qed.

Lemma the_window_run id w win : windows w !! id = Some win -> the_window id w = Ok win w.
Proof.
  intros E. unfold the_window, id2window, bind, get, ret, ANN.
  rewrite E. reflexivity.
Qed.

Lemma update_canvas_run id f w c :
  canvases w !! id = Some c ->
  update_canvas id f w = Ok tt (set_canvas id (f c) w).
Proof.
  intros E. unfold update_canvas. erewrite bind_Ok by (apply the_canvas_run; exact E).
  reflexivity.
Qed.

Lemma update_recorder_run id f w c r :
  canvases w !! id = Some c ->
  recorder c = Some r ->
  update_recorder id f w = Ok tt (set_canvas id (canvas_with_recorder (Some (f r)) c) w).
Proof.
  intros E Er. unfold update_recorder. erewrite bind_Ok by (apply the_canvas_run; exact E).
  unfold bind, ANN. rewrite Er. reflexivity.
Qed.

Lemma ANN_run {A} (p : option A) (a : A) w : p = Some a -> ANN p w = Ok a w.
Proof. intros ->. reflexivity. Qed.

Lemma ASSERT_run (b : bool) w : b = true -> ASSERT b w = Ok tt w.
Proof. intros ->. reflexivity. Qed.

Ltac lookup :=
  cbn;
  first [ eassumption
        | apply lookup_insert_eq
        | rewrite lookup_insert_eq; reflexivity ].

Ltac hyp := cbn; first [eassumption | reflexivity].

Ltac step_with tac := erewrite bind_Ok; [ | tac ].

(** Equality of two worlds, field by field. *)
Ltac calls_eq :=
  cbn;
  repeat progress (rewrite ?rev_app_distr; cbn; rewrite <- ?app_assoc; cbn);
  try reflexivity.

Ltac world_eq :=
  apply World_ext; cbn;
  first [ reflexivity
        | rewrite ?insert_insert_eq; reflexivity
        | calls_eq ].

Lemma ext_window_poll_size_run K id w win :
  windows w !! id = Some win ->
  let w1 := logged (dvz_window_poll_size id) w in
  ext_window_poll_size K id w =
    Ok tt (with_windows (<[id := window_polled K w1 id]> (windows w)) w1).
Proof.
  intros E w1. unfold ext_window_poll_size.
  step_with ltac:(reflexivity).
  step_with ltac:(apply the_window_run; lookup).
  reflexivity.
Qed.

Lemma ext_canvas_recreate_run K id w c :
  canvases w !! id = Some c ->
  let w1 := logged (dvz_canvas_recreate id) w in
  let rc := canvas_recreated K w1 id in
  ext_canvas_recreate K id w =
    Ok tt (set_canvas id
             (canvas_with_swapchain (snd rc)
                (canvas_with_size (fst (fst rc)) (snd (fst rc)) c)) w1).
Proof.
  intros E w1 rc. unfold ext_canvas_recreate.
  step_with ltac:(reflexivity).
  step_with ltac:(reflexivity).
  erewrite update_canvas_run by lookup. reflexivity.
Qed.

Lemma ext_swapchain_acquire_run K id frame w c :
  canvases w !! id = Some c ->
  let w1 := logged (dvz_swapchain_acquire id frame) w in
  ext_swapchain_acquire K id frame w =
    Ok tt (set_canvas id (canvas_with_swapchain (swapchain_acquired K w1 id) c) w1).
Proof.
  intros E w1. unfold ext_swapchain_acquire.
  step_with ltac:(reflexivity).
  step_with ltac:(reflexivity).
  erewrite update_canvas_run by lookup. reflexivity.
Qed.

Lemma ext_swapchain_present_run K id frame w c :
  canvases w !! id = Some c ->
  let w1 := logged (dvz_swapchain_present id frame) w in
  ext_swapchain_present K id frame w =
    Ok tt (set_canvas id (canvas_with_swapchain (swapchain_presented K w1 id) c) w1).
Proof.
  intros E w1. unfold ext_swapchain_present.
  step_with ltac:(reflexivity).
  step_with ltac:(reflexivity).
  erewrite update_canvas_run by lookup. reflexivity.
Qed.

Lemma ext_recorder_set_dirty_run id w c r :
  canvases w !! id = Some c ->
  recorder c = Some r ->
  ext_recorder_set_dirty id w =
    Ok tt (set_canvas id
             (canvas_with_dirty (replicate (length (rec_dirty r)) true) r c)
             (logged (dvz_recorder_set_dirty id) w)).
Proof.
  intros E Er. unfold ext_recorder_set_dirty.
  step_with ltac:(reflexivity).
  erewrite update_recorder_run; [ | lookup | exact Er ].
  reflexivity.
Qed.

Lemma ext_recorder_set_run id img w c r :
  canvases w !! id = Some c ->
  recorder c = Some r ->
  in_range img (rec_dirty r) = true ->
  ext_recorder_set id img w =
    Ok tt (set_canvas id
             (canvas_with_dirty (<[Z.to_nat img := false]> (rec_dirty r)) r c)
             (logged (dvz_recorder_set id img) w)).
Proof.
  intros E Er Hin. unfold ext_recorder_set.
  step_with ltac:(reflexivity).
  step_with ltac:(apply the_canvas_run; lookup).
  step_with ltac:(apply ANN_run; exact Er).
  step_with ltac:(apply ASSERT_run; exact Hin).
  erewrite update_recorder_run; [ | lookup | exact Er ].
  reflexivity.
Qed.

Ltac step :=
  first
    [ step_with ltac:(reflexivity)
    | step_with ltac:(apply the_canvas_run; lookup)
    | step_with ltac:(apply the_window_run; lookup)
    | step_with ltac:(apply update_canvas_run; lookup)
    | step_with ltac:(eapply update_recorder_run; [lookup | hyp])
    | step_with ltac:(eapply ext_window_poll_size_run; lookup)
    | step_with ltac:(eapply ext_canvas_recreate_run; lookup)
    | step_with ltac:(eapply ext_swapchain_acquire_run; lookup)
    | step_with ltac:(eapply ext_swapchain_present_run; lookup)
    | step_with ltac:(eapply ext_recorder_set_dirty_run; [lookup | hyp])
    | step_with ltac:(eapply ext_recorder_set_run; [lookup | hyp | hyp])
    | step_with ltac:(apply ANN_run; hyp)
    | step_with ltac:(apply ASSERT_run; hyp) ].

Lemma record_command_run (id img : Z) (w : World) (c : DvzCanvas) (r : DvzRecorder) :
  canvases w !! id = Some c ->
  recorder c = Some r ->
  in_range img (rec_dirty r) = true ->
  _record_command id img w =
    Ok tt (set_canvas id
             (canvas_with_dirty (<[Z.to_nat img := false]> (rec_dirty r)) r c)
             (logs (record_calls id (rec_count r) img) w)).
Proof.
  intros Hc Hr Hin. unfold _record_command, record_calls.
  do 2 step.
  destruct (0 <? rec_count r).
  - step. erewrite ext_recorder_set_run by (try lookup; hyp). reflexivity.
  - do 2 step. erewrite ext_recorder_set_run by (try lookup; hyp). reflexivity.
Qed.

Lemma canvas_with_dirty_same c r :
  recorder c = Some r -> canvas_with_dirty (rec_dirty r) r c = c.
Proof. destruct c, r; cbn; intros ->; reflexivity. Qed.

Lemma record_loop_run (id : Z) (n : nat) :
  forall (i : Z) (w : World) (c : DvzCanvas) (r : DvzRecorder),
  canvases w !! id = Some c ->
  recorder c = Some r ->
  0 <= i ->
  i + Z.of_nat n <= Z.of_nat (length (rec_dirty r)) ->
  for_loop n i (fun k => _record_command id k) w =
    Ok tt (set_canvas id
             (canvas_with_dirty (clear_bits n i (rec_dirty r)) r c)
             (logs (flat_map (record_calls id (rec_count r)) (indices n i)) w)).
Proof.
  induction n as [|n IH]; intros i w c r Hc Hr Hi Hlen.
  - cbn. unfold ret. f_equal. rewrite canvas_with_dirty_same by exact Hr.
    apply World_ext; cbn; try reflexivity.
    symmetry. apply insert_id. exact Hc.
  - cbn [for_loop].
    erewrite bind_Ok.
    2:{ apply record_command_run with (c := c) (r := r); try assumption.
        unfold in_range. apply andb_true_intro.
        split; [apply Z.leb_le | apply Z.ltb_lt]; lia. }
    erewrite IH; [ | lookup | reflexivity | lia | cbn; rewrite length_insert; lia ].
    f_equal. world_eq.
Qed.

Section Runs.

Context (H : Header) (K : Collaborators).

Lemma frame_acquire_run id w win c r :
  windows w !! id = Some win ->
  canvases w !! id = Some c ->
  recorder c = Some r ->
  frame_acquire H K id w = Ok (guis w !! id) (after_acquire H K id c w).
Proof.
  intros Hw Hc Hr. unfold frame_acquire.
  do 3 step. unfold dvz_map_get. do 3 step. reflexivity.
Qed.

Lemma frame_recreate_run id gw w win c r :
  windows w !! id = Some win ->
  canvases w !! id = Some c ->
  recorder c = Some r ->
  cmds_count c <= Z.of_nat (length (rec_dirty r)) ->
  frame_recreate K id gw w = Ok tt (after_recreate K id gw c r w).
Proof.
  intros Hw Hc Hr Hn.
  unfold frame_recreate.
  do 6 step.
  set (c1 := recreated K id c w).
  assert (Hgui : forall w0,
    (match gw with
     | Some g => call (dvz_gui_window_resize g (canvas_width c1) (canvas_height c1))
     | None => ret tt
     end) w0 = Ok tt (logs (resize_gui_calls gw (canvas_width c1) (canvas_height c1)) w0)).
  { intros w0. destruct gw; cbn; [reflexivity|]. unfold ret.
    f_equal. apply World_ext; reflexivity. }
  erewrite bind_Ok by apply Hgui.
  do 3 step.
  erewrite record_loop_run;
    [ | lookup | reflexivity | lia | cbn; rewrite length_replicate; lia ].
  f_equal. unfold after_recreate, rerecorded, recreate_calls, resize_event, canvas_with_dirty.
  cbn. rewrite ?length_replicate. world_eq.
Qed.

Lemma when_record_run id img (b : bool) w c r :
  canvases w !! id = Some c ->
  recorder c = Some r ->
  in_range img (rec_dirty r) = true ->
  when b (_record_command id img) w =
    Ok tt (set_canvas id
             (if b then canvas_with_dirty (<[Z.to_nat img := false]> (rec_dirty r)) r c else c)
             (logs (if b then record_calls id (rec_count r) img else []) w)).
Proof.
  intros Hc Hr Hin. destruct b; cbn [when].
  - apply record_command_run; assumption.
  - unfold ret. f_equal. apply World_ext; cbn; try reflexivity.
    symmetry. apply insert_id. exact Hc.
Qed.

Lemma gui_loop_run (g : DvzGuiWindow) (rest : list DvzGuiCallbackPayload) :
  forall (pre : list DvzGuiCallbackPayload) (w : World),
  callbacks w = Some (pre ++ rest) ->
  for_loop (length rest) (Z.of_nat (length pre))
    (fun i =>
       do payload <- dvz_list_get i;
       when (window_id payload =? gw_obj_id g)
         (call (gui_callback_invoke (callback payload) g (user_data payload)))) w =
  Ok tt (logs (invocations g rest) w).
Proof.
  induction rest as [|p rest IH]; intros pre w Hcb.
  - cbn. unfold ret. f_equal. apply World_ext; reflexivity.
  - cbn [length for_loop].
    assert (Hget : dvz_list_get (Z.of_nat (length pre)) w = Ok p w).
    { unfold dvz_list_get. do 2 step. rewrite Nat2Z.id.
      apply ANN_run. apply list_lookup_middle. reflexivity. }
    unfold invocations, matching. cbn [List.filter].
    destruct (window_id p =? gw_obj_id g) eqn:Em.
    + erewrite bind_Ok.
      2:{ erewrite bind_Ok by exact Hget. rewrite Em. reflexivity. }
      replace (Z.of_nat (length pre) + 1) with (Z.of_nat (length (pre ++ [p])))
        by (rewrite length_app; cbn; lia).
      rewrite IH by (cbn; rewrite <- app_assoc; exact Hcb).
      f_equal. world_eq.
    + erewrite bind_Ok.
      2:{ erewrite bind_Ok by exact Hget. rewrite Em. reflexivity. }
      replace (Z.of_nat (length pre) + 1) with (Z.of_nat (length (pre ++ [p])))
        by (rewrite length_app; cbn; lia).
      rewrite IH by (rewrite <- app_assoc; exact Hcb). reflexivity.
Qed.

Lemma dvz_list_count_run w l :
  callbacks w = Some l -> dvz_list_count w = Ok (Z.of_nat (length l)) w.
Proof. intros E. unfold dvz_list_count, bind, get, ANN, ret. rewrite E. reflexivity. Qed.

Lemma gui_callback_run (g : DvzGuiWindow) id img w l :
  callbacks w = Some l ->
  Z.of_nat (length l) < two32 ->
  _gui_callback (Some g) id img w = Ok tt (logs (overlay_pass g l id img) w).
Proof.
  intros Hcb Hlen. unfold _gui_callback.
  step. rewrite Hcb. step.
  erewrite bind_Ok by (apply dvz_list_count_run; exact Hcb).
  rewrite Z.mod_small by lia. rewrite Nat2Z.id.
  erewrite bind_Ok by (apply (gui_loop_run g l []); exact Hcb).
  step. unfold call, modify. f_equal. unfold overlay_pass. world_eq.
Qed.

Lemma overlay_run gw id img w l :
  callbacks w = Some l ->
  Z.of_nat (length l) < two32 ->
  (match gw with
   | Some _ => do n <- dvz_list_count; when (0 <? n) (_gui_callback gw id img)
   | None => ret tt
   end) w = Ok tt (logs (overlay_calls gw (Some l) id img) w).
Proof.
  intros Hcb Hlen. destruct gw as [g|]; cbn.
  - erewrite bind_Ok by (apply dvz_list_count_run; exact Hcb).
    destruct (0 <? Z.of_nat (length l)); cbn [when].
    + apply gui_callback_run; assumption.
    + unfold ret. f_equal. apply World_ext; reflexivity.
  - unfold ret. f_equal. apply World_ext; reflexivity.
Qed.

Lemma is_dirty_run id img w c r (b : bool) :
  canvases w !! id = Some c ->
  recorder c = Some r ->
  0 <= img ->
  rec_dirty r !! Z.to_nat img = Some b ->
  dvz_recorder_is_dirty id img w = Ok b w.
Proof.
  intros E Er Hpos Eb. unfold dvz_recorder_is_dirty.
  apply lookup_lt_Some in Eb as Hlt.
  step_with ltac:(apply the_canvas_run; lookup).
  step_with ltac:(apply ANN_run; exact Er).
  step_with ltac:(apply ASSERT_run; unfold in_range; apply andb_true_intro;
                  split; [apply Z.leb_le | apply Z.ltb_lt]; lia).
  rewrite Eb. reflexivity.
Qed.

Lemma frame_submit_run id gw w c r l (b : bool) :
  canvases w !! id = Some c ->
  recorder c = Some r ->
  callbacks w = Some l ->
  Z.of_nat (length l) < two32 ->
  0 < DVZ_MAX_TIMESTAMPS H ->
  0 <= img_idx (swapchain c) ->
  rec_dirty r !! Z.to_nat (img_idx (swapchain c)) = Some b ->
  frame_submit H K id gw w = Ok tt (after_submit H K id gw c r b w).
Proof.
  intros Hc Hr Hcb Hlen Hts Himg Hb.
  set (img := img_idx (swapchain c)) in *.
  set (cA := canvas_with_frame_time_idx ((frame_time_idx c + 1) mod two64) c).
  assert (Hin : in_range img (rec_dirty r) = true).
  { apply lookup_lt_Some in Hb. unfold in_range. apply andb_true_intro.
    split; [apply Z.leb_le | apply Z.ltb_lt]; lia. }
  unfold frame_submit.
  do 2 step.
  step_with ltac:(apply ASSERT_run; apply Z.ltb_lt; apply Z.mod_pos_bound; exact Hts).
  do 2 step.
  erewrite bind_Ok
    by (eapply is_dirty_run with (c := cA) (r := r); [lookup | hyp | exact Himg | exact Hb]).
  erewrite bind_Ok
    by (eapply when_record_run with (c := cA) (r := r); [lookup | hyp | exact Hin]).
  do 2 step.
  erewrite bind_Ok by (eapply overlay_run with (l := l); [cbn; exact Hcb | exact Hlen]).
  do 3 step.
  match goal with
  | |- bind _ _ ?W = _ =>
      replace W with
        (set_canvas id (recorded c r b) (logs (submit_calls H id gw (callbacks w) c r b) w))
  end.
  2:{ unfold recorded, submit_calls. rewrite Hcb. subst cA img. world_eq. }
  erewrite bind_Ok by (eapply ext_swapchain_present_run with (c := recorded c r b); lookup).
  erewrite update_canvas_run by lookup.
  f_equal. unfold after_submit, presented, present_world, next_slot. world_eq.
Qed.

(** *** A whole tick *)

Lemma frame_invalid_run id w win c r :
  windows w !! id = Some win ->
  canvases w !! id = Some c ->
  recorder c = Some r ->
  sc_status (swapchain (acquired H K id c w)) = DVZ_OBJECT_STATUS_INVALID ->
  dvz_presenter_frame H K id w = Ok tt (logged dvz_gpu_wait (after_acquire H K id c w)).
Proof.
  intros Hw Hc Hr Hs. unfold dvz_presenter_frame.
  erewrite bind_Ok by (eapply frame_acquire_run; eassumption).
  step_with ltac:(apply the_canvas_run; unfold after_acquire; lookup).
  cbv beta. rewrite Hs. reflexivity.
Qed.

Lemma frame_need_recreate_run id w win c r :
  windows w !! id = Some win ->
  canvases w !! id = Some c ->
  recorder c = Some r ->
  cmds_count c <= Z.of_nat (length (rec_dirty r)) ->
  sc_status (swapchain (acquired H K id c w)) = DVZ_OBJECT_STATUS_NEED_RECREATE ->
  let c1 := acquired H K id c w in
  let w1 := after_acquire H K id c w in
  dvz_presenter_frame H K id w =
    Ok tt (logged (dvz_transfers_frame (img_idx (swapchain (rerecorded K id c1 r w1))))
             (after_recreate K id (guis w !! id) c1 r w1)).
Proof.
  intros Hw Hc Hr Hn Hs c1 w1. unfold dvz_presenter_frame.
  erewrite bind_Ok by (eapply frame_acquire_run; eassumption).
  step_with ltac:(apply the_canvas_run; unfold after_acquire; lookup).
  cbv beta. fold c1. fold c1 in Hs. rewrite Hs.
  erewrite bind_Ok.
  2:{ eapply frame_recreate_run with (win := win) (c := c1) (r := r);
        subst c1; unfold after_acquire, acquired; cbn;
        first [eassumption | apply lookup_insert_eq]. }
  step_with ltac:(apply the_canvas_run; unfold after_recreate; lookup).
  reflexivity.
Qed.

Lemma frame_ready_run id w win c r l (b : bool) :
  windows w !! id = Some win ->
  canvases w !! id = Some c ->
  recorder c = Some r ->
  callbacks w = Some l ->
  Z.of_nat (length l) < two32 ->
  0 < DVZ_MAX_TIMESTAMPS H ->
  let c1 := acquired H K id c w in
  let w1 := after_acquire H K id c w in
  sc_status (swapchain c1) <> DVZ_OBJECT_STATUS_INVALID ->
  sc_status (swapchain c1) <> DVZ_OBJECT_STATUS_NEED_RECREATE ->
  0 <= img_idx (swapchain c1) ->
  rec_dirty r !! Z.to_nat (img_idx (swapchain c1)) = Some b ->
  dvz_presenter_frame H K id w =
    Ok tt (logged (dvz_transfers_frame
                     (img_idx (swapchain (presented H K id (guis w !! id) c1 r b w1))))
             (after_submit H K id (guis w !! id) c1 r b w1)).
Proof.
  intros Hw Hc Hr Hcb Hlen Hts c1 w1 Hs1 Hs2 Himg Hb. unfold dvz_presenter_frame.
  erewrite bind_Ok by (eapply frame_acquire_run; eassumption).
  step_with ltac:(apply the_canvas_run; unfold after_acquire; lookup).
  cbv beta. fold c1.
  assert (Hsub : frame_submit H K id (guis w !! id) w1 =
                 Ok tt (after_submit H K id (guis w !! id) c1 r b w1)).
  { eapply frame_submit_run with (l := l); try eassumption;
      subst c1 w1; unfold after_acquire, acquired; cbn;
      first [eassumption | apply lookup_insert_eq]. }
  destruct (sc_status (swapchain c1)) eqn:Es; try congruence;
    (erewrite bind_Ok by exact Hsub;
     step_with ltac:(apply the_canvas_run; unfold after_submit; lookup);
     reflexivity).
Qed.

End Runs.


(** *** Ticks on a live surface *)

Lemma live_inv id w :
  live id w = true ->
  exists win c r l,
    windows w !! id = Some win /\ canvases w !! id = Some c /\
    recorder c = Some r /\ callbacks w = Some l /\
    Z.of_nat (length l) < two32 /\
    cmds_count c <= Z.of_nat (length (rec_dirty r)).
Proof.
  unfold live. intros Hl.
  destruct (windows w !! id) as [win|]; [|discriminate].
  destruct (canvases w !! id) as [c|]; [|discriminate].
  destruct (callbacks w) as [l|]; [|discriminate].
  destruct (recorder c) as [r|] eqn:Er; [|discriminate].
  apply andb_prop in Hl as [H1 H2].
  apply Z.ltb_lt in H1. apply Z.leb_le in H2.
  exists win, c, r, l. repeat split; assumption.
Qed.

Lemma acquired_canvas_eq H K id w win c r :
  windows w !! id = Some win ->
  canvases w !! id = Some c ->
  recorder c = Some r ->
  acquired_canvas H K id w = Some (acquired H K id c w).
Proof.
  intros Hw Hc Hr. unfold acquired_canvas, acquired_world.
  erewrite frame_acquire_run by eassumption.
  unfold after_acquire. cbn. apply lookup_insert_eq.
Qed.

Lemma observed_status_eq H K id w win c r :
  windows w !! id = Some win ->
  canvases w !! id = Some c ->
  recorder c = Some r ->
  observed_status H K id w = Some (sc_status (swapchain (acquired H K id c w))).
Proof.
  intros Hw Hc Hr. unfold observed_status.
  erewrite acquired_canvas_eq by eassumption. reflexivity.
Qed.

Lemma acquired_img_idx_eq H K id w win c r :
  windows w !! id = Some win ->
  canvases w !! id = Some c ->
  recorder c = Some r ->
  acquired_img_idx H K id w = Some (img_idx (swapchain (acquired H K id c w))).
Proof.
  intros Hw Hc Hr. unfold acquired_img_idx.
  erewrite acquired_canvas_eq by eassumption. reflexivity.
Qed.

Lemma in_range_lookup i l :
  in_range i l = true -> 0 <= i /\ exists b : bool, l !! Z.to_nat i = Some b.
Proof.
  unfold in_range. intros Hin. apply andb_prop in Hin as [H0 H1].
  apply Z.leb_le in H0. apply Z.ltb_lt in H1. split; [exact H0|].
  destruct (l !! Z.to_nat i) as [b|] eqn:E; [exists b; reflexivity|].
  apply lookup_ge_None in E. lia.
Qed.

Lemma tick_cases H K id w c r :
  live id w = true ->
  acquired_in_range H K id w = true ->
  0 < DVZ_MAX_TIMESTAMPS H ->
  canvases w !! id = Some c ->
  recorder c = Some r ->
  tick_outcome H K id w c r.
Proof.
  intros Hl Hin Hts Hc Hr.
  destruct (live_inv id w Hl) as (win & c' & r' & l & Hw & Hc' & Hr' & Hcb & Hlen & Hn).
  assert (c' = c) by congruence. subst c'.
  assert (r' = r) by congruence. subst r'.
  unfold acquired_in_range in Hin.
  erewrite acquired_canvas_eq in Hin by eassumption.
  assert (Hr1 : recorder (acquired H K id c w) = Some r) by (cbn; exact Hr).
  rewrite Hr1 in Hin.
  destruct (sc_status (swapchain (acquired H K id c w))) eqn:Es.
  all: try (apply in_range_lookup in Hin as [Hpos [b Hb]];
            apply tick_ready with (b := b);
            [ rewrite Es; discriminate | rewrite Es; discriminate | exact Hpos | exact Hb
            | eapply frame_ready_run; try eassumption; rewrite Es; discriminate ]).
  - apply tick_need_recreate; [exact Es|].
    eapply frame_need_recreate_run; eassumption.
  - apply tick_invalid; [exact Es|].
    eapply frame_invalid_run; eassumption.
Qed.

(** *** Reading the calls of an arm *)

Lemma omap_inner_nil {A} (f : Call -> option A) (l : list Call) :
  (forall c, inner_call c = true -> f c = None) ->
  Forall (fun c => inner_call c = true) l ->
  omap f l = [].
Proof.
  intros Hf Hl. induction Hl as [|c l Hc _ IH]; [reflexivity|].
  cbn. rewrite (Hf c Hc). exact IH.
Qed.

Lemma inner_record_calls id cnt img :
  Forall (fun c => inner_call c = true) (record_calls id cnt img).
Proof. unfold record_calls. destruct (0 <? cnt); repeat constructor. Qed.

Lemma inner_record_loop id cnt l :
  Forall (fun c => inner_call c = true) (flat_map (record_calls id cnt) l).
Proof.
  induction l as [|i l IH]; cbn; [constructor|].
  apply Forall_app. split; [apply inner_record_calls | exact IH].
Qed.

Lemma inner_invocations g l :
  Forall (fun c => inner_call c = true) (invocations g l).
Proof.
  unfold invocations. induction (matching g l) as [|p m IH]; cbn; constructor;
    [reflexivity | exact IH].
Qed.

Lemma inner_overlay_calls gw cbs id img :
  Forall (fun c => inner_call c = true) (overlay_calls gw cbs id img).
Proof.
  unfold overlay_calls. destruct gw as [g|]; [|constructor].
  destruct cbs as [l|]; [|constructor].
  destruct (0 <? Z.of_nat (length l)); [|constructor].
  unfold overlay_pass. apply Forall_app. split; [repeat constructor|].
  apply Forall_app. split; [apply inner_invocations | repeat constructor].
Qed.

Lemma inner_resize_gui_calls gw wd ht :
  Forall (fun c => inner_call c = true) (resize_gui_calls gw wd ht).
Proof. destruct gw; repeat constructor. Qed.

Lemma inner_if_record (b : bool) id cnt img :
  Forall (fun c => inner_call c = true) (if b then record_calls id cnt img else []).
Proof. destruct b; [apply inner_record_calls | constructor]. Qed.

Section Skip.

Context {A : Type} (f : Call -> option A).
Hypothesis f_inner : forall c, inner_call c = true -> f c = None.

Lemma omap_record_loop id cnt l : omap f (flat_map (record_calls id cnt) l) = [].
Proof. apply omap_inner_nil; [exact f_inner | apply inner_record_loop]. Qed.

Lemma omap_overlay_calls gw cbs id img : omap f (overlay_calls gw cbs id img) = [].
Proof. apply omap_inner_nil; [exact f_inner | apply inner_overlay_calls]. Qed.

Lemma omap_resize_gui_calls gw wd ht : omap f (resize_gui_calls gw wd ht) = [].
Proof. apply omap_inner_nil; [exact f_inner | apply inner_resize_gui_calls]. Qed.

Lemma omap_if_record (b : bool) id cnt img :
  omap f (if b then record_calls id cnt img else []) = [].
Proof. apply omap_inner_nil; [exact f_inner | apply inner_if_record]. Qed.

End Skip.

(** [f] reads nothing from the recording and overlay passes. *)
Ltac not_inner := intros []; cbn; congruence.

Ltac skip_inner :=
  rewrite ?omap_record_loop by not_inner;
  rewrite ?omap_overlay_calls by not_inner;
  rewrite ?omap_resize_gui_calls by not_inner;
  rewrite ?omap_if_record by not_inner.

Section Traces.

Context (H : Header) (K : Collaborators).

Lemma trace_logged x w : trace (logged x w) = trace w ++ [x].
Proof. reflexivity. Qed.

Lemma trace_after_acquire id c w :
  trace (after_acquire H K id c w) = trace w ++ acquire_calls H id c.
Proof. unfold trace, after_acquire, acquire_world. cbn. rewrite <- app_assoc. reflexivity. Qed.

Lemma trace_after_recreate id gw c r w :
  trace (after_recreate K id gw c r w) = trace w ++ recreate_calls K id gw c r w.
Proof. unfold after_recreate, set_canvas. apply trace_calls. reflexivity. Qed.

Lemma trace_after_submit id gw c r b w :
  trace (after_submit H K id gw c r b w) =
  trace w ++ submit_calls H id gw (callbacks w) c r b
          ++ [dvz_swapchain_present id (cur_frame c)].
Proof.
  unfold after_submit, present_world, set_canvas. apply trace_calls.
  rewrite rev_app_distr. reflexivity.
Qed.

Lemma callbacks_after_acquire id c w : callbacks (after_acquire H K id c w) = callbacks w.
Proof. reflexivity. Qed.

End Traces.

(** ** Properties of the specification *)

(** The submission arm leaves cur_frame below DVZ_MAX_FRAMES_IN_FLIGHT. *)
Remark presented_cur_frame (H : Header) (K : Collaborators) (id : Z)
    (gw : option DvzGuiWindow) (c : DvzCanvas) (r : DvzRecorder) (b : bool) (w : World) :
  0 < DVZ_MAX_FRAMES_IN_FLIGHT H ->
  0 <= cur_frame (presented H K id gw c r b w) < DVZ_MAX_FRAMES_IN_FLIGHT H.
Proof. intros HN. cbn. unfold next_slot. apply Z.mod_pos_bound. exact HN. Qed.

(** C2.  In every tick on a live surface the presenter waits on exactly one
    fence, before the acquisition, and it is the fence of slot
    (cur_frame + 1) mod DVZ_MAX_FRAMES_IN_FLIGHT: the next slot, which differs
    from cur_frame as soon as two frames can be in flight.  (cur_frame + 1
    does not wrap: the tick leaves cur_frame below the constant.) *)
Theorem C2_fence_wait_next_slot (H : Header) (K : Collaborators) (id : Z) (w : World)
    (c : DvzCanvas) :
  live id w = true ->
  acquired_in_range H K id w = true ->
  0 < DVZ_MAX_TIMESTAMPS H ->
  canvases w !! id = Some c ->
  1 < DVZ_MAX_FRAMES_IN_FLIGHT H ->
  0 <= cur_frame c < two32 - 1 ->
  let slot := (cur_frame c + 1) mod DVZ_MAX_FRAMES_IN_FLIGHT H in
  exists w' rest,
    dvz_presenter_frame H K id w = Ok tt w' /\
    trace w' = trace w ++ dvz_fences_wait id slot
                          :: dvz_swapchain_acquire id (cur_frame c) :: rest /\
    fence_waits_of rest = [] /\
    slot <> cur_frame c.
Proof.
  intros Hl Hin Hts Hc HN Hcf slot.
  destruct (live_inv id w Hl) as (win & c' & r & l & Hw & Hc' & Hr & Hcb & Hlen & Hn).
  assert (c' = c) by congruence. subst c'.
  assert (Hslot : next_slot H c = slot).
  { unfold next_slot, slot. change two32 with 4294967296 in *.
    rewrite (Z.mod_small (cur_frame c + 1)) by lia. reflexivity. }
  assert (Hne : slot <> cur_frame c).
  { unfold slot. intros E.
    pose proof (Z.mod_pos_bound (cur_frame c + 1) (DVZ_MAX_FRAMES_IN_FLIGHT H)
                  ltac:(lia)) as Hb.
    destruct (Z.lt_trichotomy (cur_frame c + 1) (DVZ_MAX_FRAMES_IN_FLIGHT H))
      as [E1|[E1|E1]].
    - rewrite Z.mod_small in E by lia. lia.
    - rewrite E1, Z.mod_same in E by lia. lia.
    - lia. }
  destruct (tick_cases H K id w c r Hl Hin Hts Hc Hr) as [Hs Hrun|Hs Hrun|b Hs1 Hs2 Hpos Hb Hrun];
    rewrite Hrun; eexists; eexists; (split; [reflexivity|]).
  - rewrite trace_logged, trace_after_acquire. unfold acquire_calls. rewrite Hslot.
    rewrite <- app_assoc. cbn. split; [reflexivity|]. split; [reflexivity | exact Hne].
  - rewrite trace_logged, trace_after_recreate, trace_after_acquire.
    unfold acquire_calls. rewrite Hslot. repeat rewrite <- app_assoc. cbn [app].
    split; [reflexivity|]. split; [|exact Hne].
    unfold fence_waits_of, recreate_calls. rewrite !omap_app. skip_inner. reflexivity.
  - rewrite trace_logged, trace_after_submit, trace_after_acquire.
    unfold acquire_calls. rewrite Hslot. repeat rewrite <- app_assoc. cbn [app].
    split; [reflexivity|]. split; [|exact Hne].
    unfold fence_waits_of, submit_calls. rewrite !omap_app. skip_inner. reflexivity.
Qed.

Lemma clear_bits_out n : forall (i : Z) (l : list bool) (j : nat),
  0 <= i ->
  ~ (Z.to_nat i <= j < Z.to_nat i + n)%nat ->
  clear_bits n i l !! j = l !! j.
Proof.
  induction n as [|n IH]; intros i l j Hi Hj; cbn; [reflexivity|].
  rewrite IH by lia. apply list_lookup_insert_ne. lia.
Qed.

Lemma clear_bits_in n : forall (i : Z) (l : list bool) (j : nat),
  0 <= i ->
  (Z.to_nat i <= j < Z.to_nat i + n)%nat ->
  (j < length l)%nat ->
  clear_bits n i l !! j = Some false.
Proof.
  induction n as [|n IH]; intros i l j Hi Hj Hlen; cbn; [lia|].
  destruct (Nat.eq_dec j (Z.to_nat i)) as [->|Hne].
  - rewrite clear_bits_out by lia. apply list_lookup_insert_eq. exact Hlen.
  - apply IH; [lia | lia | rewrite length_insert; exact Hlen].
Qed.

Lemma In_indices n : forall (i k : Z), In k (indices n i) <-> i <= k < i + Z.of_nat n.
Proof.
  induction n as [|n IH]; intros i k; cbn [indices In].
  - lia.
  - rewrite IH. lia.
Qed.

(** C1 (as amended).  A tick on a live surface whose swapchain is not
    INVALID after the acquisition ends with one dvz_transfers_frame call, and
    its argument is the image index of that acquisition (recreation and
    presentation leaving that index alone).  When the swapchain is INVALID the
    tick returns without any dvz_transfers_frame call. *)
Theorem C1_transfers_unless_invalid (H : Header) (K : Collaborators) (id : Z) (w : World)
    (s : DvzObjectStatus) (i : Z) :
  live id w = true ->
  acquired_in_range H K id w = true ->
  0 < DVZ_MAX_TIMESTAMPS H ->
  keeps_img_idx K ->
  observed_status H K id w = Some s ->
  acquired_img_idx H K id w = Some i ->
  exists w' delta,
    dvz_presenter_frame H K id w = Ok tt w' /\
    trace w' = trace w ++ delta /\
    match s with
    | DVZ_OBJECT_STATUS_INVALID => transfers_of delta = []
    | _ => transfers_of delta = [i] /\
           exists before, delta = before ++ [dvz_transfers_frame i]
    end.
Proof.
  intros Hl Hin Hts Hk Hs Hi.
  destruct (live_inv id w Hl) as (win & c & r & l & Hw & Hc & Hr & Hcb & Hlen & Hn).
  erewrite observed_status_eq in Hs by eassumption.
  erewrite acquired_img_idx_eq in Hi by eassumption.
  assert (Hs' : s = sc_status (swapchain (acquired H K id c w))) by congruence.
  assert (Hi' : i = img_idx (swapchain (acquired H K id c w))) by congruence.
  clear Hs Hi. subst s i.
  set (c1 := acquired H K id c w) in *.
  set (w1 := after_acquire H K id c w) in *.
  assert (Hc1 : canvases w1 !! id = Some c1) by (unfold w1, after_acquire; lookup).
  destruct (tick_cases H K id w c r Hl Hin Hts Hc Hr) as [Es Hrun|Es Hrun|b Es1 Es2 Hpos Hb Hrun];
    fold c1 w1 in Hrun; rewrite Hrun; eexists; eexists; (split; [reflexivity|]).
  - rewrite trace_logged. unfold w1. rewrite trace_after_acquire, <- app_assoc.
    split; [reflexivity|]. fold c1 in Es. rewrite Es. reflexivity.
  - assert (Hidx : img_idx (swapchain (rerecorded K id c1 r w1)) = img_idx (swapchain c1)).
    { apply (Hk (recreate_world K id w1) id c1). cbn. exact Hc1. }
    rewrite Hidx, trace_logged, trace_after_recreate. unfold w1.
    rewrite trace_after_acquire. fold w1. repeat rewrite <- app_assoc.
    split; [reflexivity|]. fold c1 in Es. rewrite Es. split.
    + unfold transfers_of, recreate_calls. rewrite !omap_app. skip_inner. reflexivity.
    + eexists. rewrite app_assoc. reflexivity.
  - assert (Hidx : img_idx (swapchain (presented H K id (guis w !! id) c1 r b w1))
                  = img_idx (swapchain c1)).
    { cbn [presented canvas_with_cur_frame canvas_with_swapchain swapchain].
      rewrite (proj2 (Hk (present_world H id (guis w !! id) c1 r b w1) id (recorded c1 r b)
                         ltac:(unfold present_world; lookup))).
      unfold recorded. destruct b; reflexivity. }
    rewrite Hidx, trace_logged, trace_after_submit. unfold w1.
    rewrite trace_after_acquire. fold w1. repeat rewrite <- app_assoc.
    split; [reflexivity|].
    assert (Hgoal : transfers_of
               (acquire_calls H id c ++ submit_calls H id (guis w !! id) (callbacks w1) c1 r b ++
                [dvz_swapchain_present id (cur_frame c1)]
                ++ [dvz_transfers_frame (img_idx (swapchain c1))]) = [img_idx (swapchain c1)] /\
             exists before,
               acquire_calls H id c ++ submit_calls H id (guis w !! id) (callbacks w1) c1 r b ++
               [dvz_swapchain_present id (cur_frame c1)]
               ++ [dvz_transfers_frame (img_idx (swapchain c1))] =
               before ++ [dvz_transfers_frame (img_idx (swapchain c1))]).
    { split.
      - unfold transfers_of, submit_calls. rewrite !omap_app. skip_inner. reflexivity.
      - eexists. rewrite !app_assoc. reflexivity. }
    fold c1 in Es1, Es2.
    destruct (sc_status (swapchain c1)); try congruence; exact Hgoal.
Qed.

(** C3.  A tick that finds the swapchain in NEED_RECREATE calls
    dvz_recorder_set_dirty and then records the command buffer of every image
    0, 1, ..., cmds->count - 1 before it returns: at the end the dirty bit of
    each of these images has been set and cleared again by its recording, and
    the bits of the remaining images are set. *)
Theorem C3_recreate_rerecords_every_image (H : Header) (K : Collaborators) (id : Z)
    (w : World) (c : DvzCanvas) (r : DvzRecorder) :
  live id w = true ->
  observed_status H K id w = Some DVZ_OBJECT_STATUS_NEED_RECREATE ->
  canvases w !! id = Some c ->
  recorder c = Some r ->
  exists w' before img c' r',
    dvz_presenter_frame H K id w = Ok tt w' /\
    trace w' = trace w ++ before ++ [dvz_recorder_set_dirty id]
               ++ flat_map (record_calls id (rec_count r))
                    (indices (Z.to_nat (cmds_count c)) 0)
               ++ [dvz_transfers_frame img] /\
    (forall k, In k (indices (Z.to_nat (cmds_count c)) 0) <-> 0 <= k < cmds_count c) /\
    canvases w' !! id = Some c' /\
    recorder c' = Some r' /\
    forall j : nat, (j < length (rec_dirty r))%nat ->
      rec_dirty r' !! j = Some (negb (Z.of_nat j <? cmds_count c)).
Proof.
  intros Hl Hs Hc Hr.
  destruct (live_inv id w Hl) as (win & c0 & r0 & l & Hw & Hc0 & Hr0 & Hcb & Hlen & Hn).
  assert (c0 = c) by congruence. subst c0.
  assert (r0 = r) by congruence. subst r0.
  erewrite observed_status_eq in Hs by eassumption.
  assert (Hs' : sc_status (swapchain (acquired H K id c w)) = DVZ_OBJECT_STATUS_NEED_RECREATE)
    by congruence.
  erewrite frame_need_recreate_run by eassumption.
  set (c1 := acquired H K id c w) in *.
  set (w1 := after_acquire H K id c w) in *.
  eexists.
  exists (acquire_calls H id c
          ++ [dvz_gpu_wait; dvz_window_poll_size id; dvz_canvas_recreate id;
              dvz_semaphores_recreate id sem_img_available;
              dvz_semaphores_recreate id sem_render_finished]
          ++ resize_gui_calls (guis w !! id) (canvas_width (recreated K id c1 w1))
               (canvas_height (recreated K id c1 w1))
          ++ [dvz_client_event (resize_event K id c1 w1)]).
  exists (img_idx (swapchain (rerecorded K id c1 r w1))).
  exists (rerecorded K id c1 r w1). eexists.
  split; [reflexivity|].
  split.
  { rewrite trace_logged, trace_after_recreate. unfold w1.
    rewrite trace_after_acquire. unfold recreate_calls.
    repeat rewrite <- app_assoc. reflexivity. }
  split.
  { intros k. rewrite In_indices. lia. }
  split; [unfold after_recreate; lookup|].
  split; [reflexivity|].
  intros j Hj. cbn.
  destruct (Z.of_nat j <? cmds_count c) eqn:E; cbn.
  - apply Z.ltb_lt in E. apply clear_bits_in; [lia | lia | rewrite length_replicate; exact Hj].
  - apply Z.ltb_ge in E. rewrite clear_bits_out by lia.
    apply lookup_replicate_2. exact Hj.
Qed.

(** C4.  A tick emits a client event only in the NEED_RECREATE arm, and
    there exactly one: the WINDOW_RESIZE event of the window id, with the
    width and height of the recreated canvas and the width and height polled
    from the window, which are the sizes the canvas and the window hold when
    the tick returns. *)
Theorem C4_resize_event_on_recreate_only (H : Header) (K : Collaborators) (id : Z)
    (w : World) (s : DvzObjectStatus) :
  live id w = true ->
  acquired_in_range H K id w = true ->
  0 < DVZ_MAX_TIMESTAMPS H ->
  observed_status H K id w = Some s ->
  exists w' delta c' win',
    dvz_presenter_frame H K id w = Ok tt w' /\
    trace w' = trace w ++ delta /\
    canvases w' !! id = Some c' /\
    windows w' !! id = Some win' /\
    client_events_of delta =
      match s with
      | DVZ_OBJECT_STATUS_NEED_RECREATE =>
          [DVZ_CLIENT_EVENT_WINDOW_RESIZE id
             (canvas_width c') (canvas_height c')
             (window_width win') (window_height win')]
      | _ => []
      end /\
    (s = DVZ_OBJECT_STATUS_NEED_RECREATE ->
     exists w1,
       acquired_world H K id w = Some w1 /\
       win' = window_polled K (poll_world id w1) id /\
       (canvas_width c', canvas_height c') =
         fst (canvas_recreated K (recreate_world K id w1) id)).
Proof.
  intros Hl Hin Hts Hs.
  destruct (live_inv id w Hl) as (win & c & r & l & Hw & Hc & Hr & Hcb & Hlen & Hn).
  erewrite observed_status_eq in Hs by eassumption.
  assert (Hs' : s = sc_status (swapchain (acquired H K id c w))) by congruence.
  clear Hs. subst s.
  assert (Haw : acquired_world H K id w = Some (after_acquire H K id c w)).
  { unfold acquired_world. erewrite frame_acquire_run by eassumption. reflexivity. }
  set (c1 := acquired H K id c w) in *.
  set (w1 := after_acquire H K id c w) in *.
  destruct (tick_cases H K id w c r Hl Hin Hts Hc Hr) as [Es Hrun|Es Hrun|b Es1 Es2 Hpos Hb Hrun];
    fold c1 w1 in Hrun; rewrite Hrun.
  - fold c1 in Es. rewrite Es.
    exists (logged dvz_gpu_wait w1), (acquire_calls H id c ++ [dvz_gpu_wait]), c1, win.
    split; [reflexivity|].
    split; [rewrite trace_logged; unfold w1; rewrite trace_after_acquire, <- app_assoc; reflexivity|].
    split; [unfold w1, after_acquire; lookup|].
    split; [exact Hw|].
    split; [reflexivity | discriminate].
  - fold c1 in Es. rewrite Es.
    eexists.
    exists (acquire_calls H id c ++ recreate_calls K id (guis w !! id) c1 r w1
            ++ [dvz_transfers_frame (img_idx (swapchain (rerecorded K id c1 r w1)))]).
    exists (rerecorded K id c1 r w1), (polled K id w1).
    split; [reflexivity|].
    split; [rewrite trace_logged, trace_after_recreate; unfold w1;
            rewrite trace_after_acquire; repeat rewrite <- app_assoc; reflexivity|].
    split; [unfold after_recreate; lookup|].
    split; [unfold after_recreate; lookup|].
    split.
    + unfold client_events_of, recreate_calls. rewrite !omap_app. skip_inner. reflexivity.
    + intros _. exists w1. split; [exact Haw|]. split; [reflexivity|].
      cbn. destruct (canvas_recreated K (recreate_world K id w1) id) as [[wd ht] sc].
      reflexivity.
  - eexists.
    exists (acquire_calls H id c ++ submit_calls H id (guis w !! id) (callbacks w1) c1 r b
            ++ [dvz_swapchain_present id (cur_frame c1)]
            ++ [dvz_transfers_frame
                  (img_idx (swapchain (presented H K id (guis w !! id) c1 r b w1)))]).
    exists (presented H K id (guis w !! id) c1 r b w1), win.
    split; [reflexivity|].
    split; [rewrite trace_logged, trace_after_submit; unfold w1;
            rewrite trace_after_acquire; repeat rewrite <- app_assoc; reflexivity|].
    split; [unfold after_submit; lookup|].
    split; [exact Hw|].
    fold c1 in Es1, Es2.
    assert (Hev : client_events_of
              (acquire_calls H id c ++ submit_calls H id (guis w !! id) (callbacks w1) c1 r b
               ++ [dvz_swapchain_present id (cur_frame c1)]
               ++ [dvz_transfers_frame
                     (img_idx (swapchain (presented H K id (guis w !! id) c1 r b w1)))]) = []).
    { unfold client_events_of, submit_calls. rewrite !omap_app. skip_inner. reflexivity. }
    split; [|congruence].
    destruct (sc_status (swapchain c1)); try congruence; exact Hev.
Qed.

(** *** The overlay pass *)

Lemma invocations_of_invocations g l :
  invocations_of (invocations g l) =
  map (fun p => (callback p, g, user_data p)) (matching g l).
Proof.
  unfold invocations. induction (matching g l) as [|p m IH]; [reflexivity|].
  cbn. f_equal. exact IH.
Qed.

Lemma invocations_of_overlay_calls g l id img :
  invocations_of (overlay_calls (Some g) (Some l) id img) =
  map (fun p => (callback p, g, user_data p)) (matching g l).
Proof.
  unfold overlay_calls. destruct l as [|p l]; [reflexivity|].
  replace (0 <? Z.of_nat (length (p :: l))) with true
    by (symmetry; apply Z.ltb_lt; cbn [length]; lia).
  unfold overlay_pass, invocations_of. rewrite !omap_app.
  fold (invocations_of (invocations g (p :: l))).
  rewrite invocations_of_invocations. cbn. rewrite app_nil_r. reflexivity.
Qed.

Lemma invocations_of_if_record (b : bool) id cnt img :
  invocations_of (if b then record_calls id cnt img else []) = [].
Proof. destruct b; [|reflexivity]. unfold record_calls. destruct (0 <? cnt); reflexivity. Qed.

Lemma matching_none g l :
  (forall p, In p l -> window_id p <> gw_obj_id g) -> matching g l = [].
Proof.
  unfold matching. induction l as [|p l IH]; intros Hne; [reflexivity|].
  cbn. destruct (window_id p =? gw_obj_id g) eqn:E.
  - apply Z.eqb_eq in E. exfalso. apply (Hne p); [left; reflexivity | exact E].
  - apply IH. intros q Hq. apply Hne. right. exact Hq.
Qed.

Lemma dvz_presenter_gui_run id cb ud w l :
  id <> 0 ->
  callbacks w = Some l ->
  let p := {| window_id := id; callback := cb; user_data := ud |} in
  dvz_presenter_gui id (Some cb) ud w =
    Ok tt (with_callbacks (Some (l ++ [p])) (logged (dvz_list_append_callback p) w)).
Proof.
  intros Hid Hcb p. unfold dvz_presenter_gui, ext_list_append_callback.
  step_with ltac:(apply ASSERT_run; apply negb_true_iff; apply Z.eqb_neq; exact Hid).
  do 2 step. step_with ltac:(apply ANN_run; exact Hcb).
  reflexivity.
Qed.

(** C5.  In a tick that reaches the submission with a GUI window bound to
    the surface, the callbacks invoked are exactly the entries of the callback
    list whose window id is the id of the surface, in list order, each with
    the GUI window and its own user data.  dvz_presenter_gui appends its entry
    at the end of the list whatever the list already holds. *)
Theorem C5_overlay_callbacks (H : Header) (K : Collaborators) (id : Z) (w : World)
    (l : list DvzGuiCallbackPayload) :
  callbacks w = Some l ->
  (forall (s : DvzObjectStatus) (g : DvzGuiWindow),
     live id w = true ->
     acquired_in_range H K id w = true ->
     0 < DVZ_MAX_TIMESTAMPS H ->
     observed_status H K id w = Some s ->
     s <> DVZ_OBJECT_STATUS_INVALID ->
     s <> DVZ_OBJECT_STATUS_NEED_RECREATE ->
     guis w !! id = Some g ->
     gw_obj_id g = id ->
     exists w' delta,
       dvz_presenter_frame H K id w = Ok tt w' /\
       trace w' = trace w ++ delta /\
       invocations_of delta =
         map (fun p => (callback p, g, user_data p))
             (List.filter (fun p => window_id p =? id) l))
  /\
  (forall (id' : Z) (cb : DvzGuiCallback) (ud : UserData),
     id' <> 0 ->
     exists w',
       dvz_presenter_gui id' (Some cb) ud w = Ok tt w' /\
       callbacks w' =
         Some (l ++ [{| window_id := id'; callback := cb; user_data := ud |}])).
Proof.
  intros Hcb. split.
  - intros s g Hl Hin Hts Hs Hs1 Hs2 Hg Hid.
    destruct (live_inv id w Hl) as (win & c & r & l' & Hw & Hc & Hr & Hcb' & Hlen & Hn).
    assert (l' = l) by congruence. subst l'.
    erewrite observed_status_eq in Hs by eassumption.
    assert (Hs' : s = sc_status (swapchain (acquired H K id c w))) by congruence.
    clear Hs. subst s.
    set (c1 := acquired H K id c w) in *.
    set (w1 := after_acquire H K id c w) in *.
    destruct (tick_cases H K id w c r Hl Hin Hts Hc Hr)
      as [Es Hrun|Es Hrun|b Es1 Es2 Hpos Hb Hrun]; try (fold c1 in Es; congruence).
    fold c1 w1 in Hrun. rewrite Hrun, Hg.
    eexists.
    exists (acquire_calls H id c ++ submit_calls H id (Some g) (callbacks w1) c1 r b
            ++ [dvz_swapchain_present id (cur_frame c1)]
            ++ [dvz_transfers_frame
                  (img_idx (swapchain (presented H K id (Some g) c1 r b w1)))]).
    split; [reflexivity|].
    split; [rewrite trace_logged, trace_after_submit; unfold w1;
            rewrite trace_after_acquire; repeat rewrite <- app_assoc; reflexivity|].
    unfold w1. rewrite callbacks_after_acquire, Hcb.
    unfold invocations_of at 1, submit_calls. rewrite !omap_app.
    fold (invocations_of (overlay_calls (Some g) (Some l) id (img_idx (swapchain c1)))).
    fold (invocations_of (if b then record_calls id (rec_count r) (img_idx (swapchain c1)) else [])).
    rewrite invocations_of_overlay_calls, invocations_of_if_record.
    cbn. rewrite ?app_nil_r. unfold matching. rewrite Hid. rewrite ?app_nil_r. reflexivity.
  - intros id' cb ud Hid'. eexists. split.
    + apply dvz_presenter_gui_run; [exact Hid' | exact Hcb].
    + reflexivity.
Qed.

(** C9 (as amended).  In a tick that reaches the submission (the swapchain
    is neither INVALID nor NEED_RECREATE after the acquisition) on a surface
    with a GUI window, a non-empty callback list is enough for the overlay
    pass: dvz_gui_window_begin, the matching callbacks, dvz_gui_window_end,
    and the GUI command buffer added to the submission before it is sent.
    When no entry of the list matches the surface the pass is still recorded
    and submitted, with no callback in it. *)
Theorem C9_overlay_pass_on_nonempty_list (H : Header) (K : Collaborators) (id : Z)
    (w : World) (s : DvzObjectStatus) (c : DvzCanvas) (g : DvzGuiWindow)
    (l : list DvzGuiCallbackPayload) (img : Z) :
  live id w = true ->
  acquired_in_range H K id w = true ->
  0 < DVZ_MAX_TIMESTAMPS H ->
  observed_status H K id w = Some s ->
  s <> DVZ_OBJECT_STATUS_INVALID ->
  s <> DVZ_OBJECT_STATUS_NEED_RECREATE ->
  acquired_img_idx H K id w = Some img ->
  canvases w !! id = Some c ->
  guis w !! id = Some g ->
  callbacks w = Some l ->
  l <> [] ->
  exists w' before img',
    dvz_presenter_frame H K id w = Ok tt w' /\
    trace w' = trace w ++ before
               ++ [dvz_gui_window_begin g img] ++ invocations g l
               ++ [dvz_gui_window_end g img; dvz_submit_commands id (gui_window_cmds g)]
               ++ [dvz_submit_wait_semaphores id (cur_frame c);
                   dvz_submit_signal_semaphores id (cur_frame c);
                   dvz_submit_send id img (cur_frame c);
                   dvz_swapchain_present id (cur_frame c);
                   dvz_transfers_frame img'] /\
    overlay_begins_of before = [] /\
    ((forall p, In p l -> window_id p <> gw_obj_id g) -> invocations g l = []).
Proof.
  intros Hl Hin Hts Hs Hs1 Hs2 Hi Hc Hg Hcb Hne.
  destruct (live_inv id w Hl) as (win & c0 & r & l' & Hw & Hc0 & Hr & Hcb' & Hlen & Hn).
  assert (l' = l) by congruence. subst l'.
  assert (c0 = c) by congruence. subst c0.
  erewrite observed_status_eq in Hs by eassumption.
  erewrite acquired_img_idx_eq in Hi by eassumption.
  assert (Hs' : s = sc_status (swapchain (acquired H K id c w))) by congruence.
  assert (Hi' : img = img_idx (swapchain (acquired H K id c w))) by congruence.
  clear Hs Hi. subst s img.
  set (c1 := acquired H K id c w) in *.
  set (w1 := after_acquire H K id c w) in *.
  destruct (tick_cases H K id w c r Hl Hin Hts Hc Hr)
    as [Es Hrun|Es Hrun|b Es1 Es2 Hpos Hb Hrun]; try (fold c1 in Es; congruence).
  fold c1 w1 in Hrun. rewrite Hrun, Hg.
  eexists.
  exists (acquire_calls H id c
          ++ [dvz_time id (frame_time_idx c1 mod DVZ_MAX_TIMESTAMPS H);
              dvz_fences_copy id (cur_frame c1) (img_idx (swapchain c1))]
          ++ (if b then record_calls id (rec_count r) (img_idx (swapchain c1)) else [])
          ++ [dvz_submit_reset id; dvz_submit_commands id (canvas_cmds id)]).
  eexists.
  split; [reflexivity|].
  split.
  { rewrite trace_logged, trace_after_submit. unfold w1.
    rewrite trace_after_acquire, callbacks_after_acquire, Hcb.
    unfold submit_calls, overlay_calls.
    replace (0 <? Z.of_nat (length l)) with true
      by (symmetry; apply Z.ltb_lt; destruct l; [congruence | cbn [length]; lia]).
    unfold overlay_pass. change (cur_frame c1) with (cur_frame c).
    repeat rewrite <- app_assoc. reflexivity. }
  split.
  { unfold overlay_begins_of. rewrite !omap_app.
    fold (overlay_begins_of (if b then record_calls id (rec_count r) (img_idx (swapchain c1)) else [])).
    replace (overlay_begins_of
               (if b then record_calls id (rec_count r) (img_idx (swapchain c1)) else []))
      with (@nil (DvzGuiWindow * Z))
      by (destruct b; [unfold record_calls; destruct (0 <? rec_count r)|]; reflexivity).
    reflexivity. }
  intros Hnone. unfold invocations. rewrite matching_none by exact Hnone. reflexivity.
Qed.

(** C7 (as amended).  A tick that reaches the submission (the swapchain is
    neither INVALID nor NEED_RECREATE after the acquisition) with an empty
    recorder and a dirty acquired image resets the command buffer of that
    image, records the blank commands into it, clears its dirty bit, and goes
    on through submission and presentation. *)
Theorem C7_blank_commands_then_present (H : Header) (K : Collaborators) (id : Z)
    (w : World) (s : DvzObjectStatus) (c : DvzCanvas) (r : DvzRecorder) (img : Z) :
  live id w = true ->
  0 < DVZ_MAX_TIMESTAMPS H ->
  observed_status H K id w = Some s ->
  s <> DVZ_OBJECT_STATUS_INVALID ->
  s <> DVZ_OBJECT_STATUS_NEED_RECREATE ->
  canvases w !! id = Some c ->
  recorder c = Some r ->
  rec_count r = 0 ->
  acquired_img_idx H K id w = Some img ->
  0 <= img ->
  rec_dirty r !! Z.to_nat img = Some true ->
  exists w' img' c' r',
    dvz_presenter_frame H K id w = Ok tt w' /\
    trace w' = trace w
               ++ [dvz_fences_wait id (next_slot H c);
                   dvz_swapchain_acquire id (cur_frame c);
                   dvz_time id (frame_time_idx c mod DVZ_MAX_TIMESTAMPS H);
                   dvz_fences_copy id (cur_frame c) img;
                   dvz_cmd_reset id img; blank_commands id img; dvz_recorder_set id img;
                   dvz_submit_reset id; dvz_submit_commands id (canvas_cmds id)]
               ++ overlay_calls (guis w !! id) (callbacks w) id img
               ++ [dvz_submit_wait_semaphores id (cur_frame c);
                   dvz_submit_signal_semaphores id (cur_frame c);
                   dvz_submit_send id img (cur_frame c);
                   dvz_swapchain_present id (cur_frame c);
                   dvz_transfers_frame img'] /\
    canvases w' !! id = Some c' /\
    recorder c' = Some r' /\
    rec_dirty r' !! Z.to_nat img = Some false.
Proof.
  intros Hl Hts Hs Hs1 Hs2 Hc Hr Hcnt Hi Hpos Hb.
  destruct (live_inv id w Hl) as (win & c0 & r0 & l & Hw & Hc0 & Hr0 & Hcb & Hlen & Hn).
  assert (c0 = c) by congruence. subst c0.
  assert (r0 = r) by congruence. subst r0.
  erewrite observed_status_eq in Hs by eassumption.
  erewrite acquired_img_idx_eq in Hi by eassumption.
  assert (Hs' : s = sc_status (swapchain (acquired H K id c w))) by congruence.
  assert (Hi' : img = img_idx (swapchain (acquired H K id c w))) by congruence.
  clear Hs Hi. subst s img.
  erewrite frame_ready_run by eassumption.
  set (c1 := acquired H K id c w) in *.
  set (w1 := after_acquire H K id c w) in *.
  eexists. eexists. exists (presented H K id (guis w !! id) c1 r true w1). eexists.
  split; [reflexivity|].
  split.
  { rewrite trace_logged, trace_after_submit. unfold w1.
    rewrite trace_after_acquire, callbacks_after_acquire.
    unfold submit_calls, acquire_calls, record_calls. rewrite Hcnt.
    change (cur_frame c1) with (cur_frame c).
    change (frame_time_idx c1) with (frame_time_idx c).
    cbn [Z.ltb Z.compare]. repeat rewrite <- app_assoc. reflexivity. }
  split; [unfold after_submit; lookup|].
  split; [reflexivity|].
  cbn. apply list_lookup_insert_eq. apply lookup_lt_Some in Hb. exact Hb.
Qed.

(** *** Creation and deletion *)

Lemma ext_canvas_create_run K id surf w c :
  canvases w !! id = Some c ->
  let w1 := logged (dvz_canvas_create id surf) w in
  ext_canvas_create K id surf w =
    Ok tt (set_canvas id
             (canvas_with_cmds_count (snd (canvas_created K w1 id))
                (canvas_with_swapchain (fst (canvas_created K w1 id))
                   (canvas_with_surface surf c))) w1).
Proof.
  intros E w1. unfold ext_canvas_create.
  do 2 step. erewrite update_canvas_run by lookup. reflexivity.
Qed.

Lemma ext_recorder_run K id w c :
  canvases w !! id = Some c ->
  let w1 := logged (dvz_recorder_new id) w in
  ext_recorder K id w =
    Ok tt (set_canvas id
             (canvas_with_recorder
                (Some {| rec_count := 0; rec_dirty := recorder_dirty0 K w1 id |}) c) w1).
Proof.
  intros E w1. unfold ext_recorder.
  do 2 step. erewrite update_canvas_run by lookup. reflexivity.
Qed.

Lemma ext_canvas_destroy_run K id w c :
  canvases w !! id = Some c ->
  let w1 := logged (dvz_canvas_destroy id) w in
  ext_canvas_destroy K id w =
    Ok tt (set_canvas id (canvas_with_swapchain (canvas_destroyed K w1 id) c) w1).
Proof.
  intros E w1. unfold ext_canvas_destroy.
  do 2 step. erewrite update_canvas_run by lookup. reflexivity.
Qed.

Lemma create_canvas_run (H : Header) (K : Collaborators) (req : DvzRequest)
    (w : World) (c : DvzCanvas) (l : list DvzGuiCallbackPayload) (gui : Z) :
  canvases w !! req_id req = Some c ->
  callbacks w = Some l ->
  prt_gui w = Some gui ->
  creates_swapchain K ->
  0 < req_screen_width req ->
  0 < req_screen_height req ->
  req_id req <> 0 ->
  has_gui H (req_flags req) = true ->
  exists w' c' r' g,
    _create_canvas H K req w = Ok tt w' /\
    callbacks w' = Some (l ++ builtin_entries H (req_id req) (req_flags req)) /\
    guis w' !! req_id req = Some g /\
    gw_obj_id g = req_id req /\
    canvases w' !! req_id req = Some c' /\
    sc_status (swapchain c') = DVZ_OBJECT_STATUS_NEED_RECREATE /\
    recorder c' = Some r' /\
    rec_count r' = 0.
Proof.
  intros Hc Hcb Hgui Hcreated Hsw Hsh Hid Hflag.
  unfold _create_canvas.
  step_with ltac:(apply ASSERT_run; apply Z.ltb_lt; exact Hsw).
  step_with ltac:(apply ASSERT_run; apply Z.ltb_lt; exact Hsh).
  do 5 step.
  erewrite bind_Ok by (eapply ext_canvas_create_run; lookup).
  do 2 step.
  step_with ltac:(apply ASSERT_run; cbn; apply Hcreated).
  erewrite bind_Ok by (eapply ext_recorder_run; lookup).
  do 2 step.
  rewrite Hflag. cbn [when].
  erewrite bind_Ok.
  2:{ step. step_with ltac:(apply ANN_run; cbn; exact Hgui). do 2 step. reflexivity. }
  unfold builtin_entries.
  destruct (has_fps H (req_flags req)), (has_monitor H (req_flags req)); cbn [when];
    repeat first
      [ erewrite bind_Ok
          by (apply dvz_presenter_gui_run; [exact Hid | cbn; first [exact Hcb | reflexivity]])
      | step ];
    (erewrite update_canvas_run by lookup);
    (eexists; eexists; eexists; eexists; split; [reflexivity|]);
    (split; [cbn; rewrite ?Hcb, <- ?app_assoc, ?app_nil_r; reflexivity|]);
    (split; [cbn; apply lookup_insert_eq|]);
    (split; [reflexivity|]);
    (split; [cbn; apply lookup_insert_eq|]);
    repeat split.
Qed.

(** C6.  A creation request whose flags carry the overlay flag registers,
    after the entries already in the list, one callback entry for the
    frame-rate overlay when its flag is set and one for the resource-usage
    overlay when its flag is set, in this order and for the id of the request:
    two entries when both are set, none when neither is. *)
Theorem C6_builtin_overlay_entries (H : Header) (K : Collaborators) (req : DvzRequest)
    (w : World) (c : DvzCanvas) (l : list DvzGuiCallbackPayload) (gui : Z) :
  canvases w !! req_id req = Some c ->
  callbacks w = Some l ->
  prt_gui w = Some gui ->
  creates_swapchain K ->
  0 < req_screen_width req ->
  0 < req_screen_height req ->
  req_id req <> 0 ->
  has_gui H (req_flags req) = true ->
  exists w',
    _create_canvas H K req w = Ok tt w' /\
    callbacks w' = Some (l ++ builtin_entries H (req_id req) (req_flags req)) /\
    (has_fps H (req_flags req) = true -> has_monitor H (req_flags req) = true ->
     builtin_entries H (req_id req) (req_flags req) =
       [{| window_id := req_id req; callback := _gui_callback_fps; user_data := prt_fps |};
        {| window_id := req_id req; callback := _gui_callback_monitoring;
           user_data := ctx_datalloc |}]) /\
    (has_fps H (req_flags req) = false -> has_monitor H (req_flags req) = false ->
     builtin_entries H (req_id req) (req_flags req) = []).
Proof.
  intros Hc Hcb Hgui Hcreated Hsw Hsh Hid Hflag.
  destruct (create_canvas_run H K req w c l gui Hc Hcb Hgui Hcreated Hsw Hsh Hid Hflag)
    as (w' & c' & r' & g & Hrun & Hcbs & _).
  exists w'. split; [exact Hrun|]. split; [exact Hcbs|].
  unfold builtin_entries. split; intros -> ->; reflexivity.
Qed.

(** C8.  Deleting an existing surface waits for the device, destroys the
    canvas, destroys its recorder, removes the surface from the list of the
    presenter and destroys it, and last destroys the GUI window when the map
    has one for the id.  Nothing else is called: the window, its input and its
    map entry are left alone. *)
Theorem C8_delete_order (K : Collaborators) (id : Z) (w : World)
    (c : DvzCanvas) (r : DvzRecorder) :
  canvases w !! id = Some c ->
  recorder c = Some r ->
  exists w' delta,
    _delete_canvas K id w = Ok tt w' /\
    trace w' = trace w ++ delta /\
    delta = [dvz_gpu_wait; dvz_canvas_destroy id; dvz_recorder_destroy id;
             dvz_list_remove_pointer id; dvz_surface_destroy (surface c)]
            ++ match guis w !! id with
               | Some g => [dvz_gui_window_destroy g]
               | None => []
               end /\
    window_destroys_of delta = [] /\
    windows w' = windows w /\
    surfaces w' = remove_first id (surfaces w).
Proof.
  intros Hc Hr. unfold _delete_canvas.
  do 2 step.
  erewrite bind_Ok by (eapply ext_canvas_destroy_run; lookup).
  step. cbn [recorder canvas_with_swapchain]. rewrite Hr.
  do 3 step. unfold dvz_map_get. step. cbn.
  destruct (guis w !! id) as [g|].
  - eexists.
    exists ([dvz_gpu_wait; dvz_canvas_destroy id; dvz_recorder_destroy id;
             dvz_list_remove_pointer id; dvz_surface_destroy (surface c)]
            ++ [dvz_gui_window_destroy g]).
    split; [reflexivity|]. split; [apply trace_calls; reflexivity|]. repeat split.
  - eexists.
    exists ([dvz_gpu_wait; dvz_canvas_destroy id; dvz_recorder_destroy id;
             dvz_list_remove_pointer id; dvz_surface_destroy (surface c)] ++ []).
    split; [reflexivity|]. split; [apply trace_calls; reflexivity|]. repeat split.
Qed.

(** The requests callback asserts that its batch is not empty: an empty
    batch must not reach the event loop. *)
Remark requester_callback_empty_batch (H : Header) (K : Collaborators)
    (batch : DvzBatch) (w : World) :
  batch_requests batch = [] ->
  _requester_callback H K (DVZ_CLIENT_EVENT_REQUESTS batch) w = Abort.
Proof. intros Hb. unfold _requester_callback. rewrite Hb. reflexivity. Qed.

(** C10.  dvz_presenter_submit on a batch without requests returns at once:
    the world, and with it the trace, is the one it started from, so no event
    is emitted, no request reaches the renderer and the batch is not
    destroyed. *)
Theorem C10_submit_empty_batch (batch : DvzBatch) (w : World) :
  batch_requests batch = [] ->
  dvz_presenter_submit (Some batch) w = Ok tt w.
Proof.
  intros Hb. unfold dvz_presenter_submit. step. rewrite Hb. reflexivity.
Qed.

(** ** The properties on the sample configuration *)

Ltac concrete :=
  first [ reflexivity
        | discriminate
        | cbn; lia
        | vm_compute; first [ reflexivity | discriminate | split; reflexivity
                            | split; discriminate
                            | split; [discriminate | reflexivity] ] ].

Lemma sample_keeps_img_idx (s : DvzObjectStatus) (img : Z) :
  keeps_img_idx (sample_collaborators s img).
Proof.
  intros w id c Hc. cbn. unfold current_swapchain. rewrite Hc. split; reflexivity.
Defined.

Lemma sample_creates_swapchain (s : DvzObjectStatus) (img : Z) :
  creates_swapchain (sample_collaborators s img).
Proof. intros w id. reflexivity. Defined.

(** C1 fails as stated: on the sample surface, a tick whose acquisition
    leaves the swapchain INVALID returns after dvz_gpu_wait, and no
    dvz_transfers_frame call is made. *)
Lemma C1_counterexample :
  let K := sample_collaborators DVZ_OBJECT_STATUS_INVALID 1 in
  let w := sample_world blank_recorder None [] in
  live 1 w = true /\
  observed_status sample_header K 1 w = Some DVZ_OBJECT_STATUS_INVALID /\
  exists w',
    dvz_presenter_frame sample_header K 1 w = Ok tt w' /\
    trace w' = [dvz_fences_wait 1 1; dvz_swapchain_acquire 1 0; dvz_gpu_wait] /\
    transfers_of (trace w') = [].
Proof.
  cbv zeta. split; [concrete|]. split; [concrete|].
  eexists. split; [vm_compute; reflexivity|]. split; vm_compute; reflexivity.
Qed.

Lemma C1_witness :
  let K := sample_collaborators DVZ_OBJECT_STATUS_NEED_RECREATE 2 in
  let w := sample_world blank_recorder None [] in
  exists w' delta,
    dvz_presenter_frame sample_header K 1 w = Ok tt w' /\
    trace w' = trace w ++ delta /\
    transfers_of delta = [2] /\
    exists before, delta = before ++ [dvz_transfers_frame 2].
Proof.
  cbv zeta.
  apply (C1_transfers_unless_invalid sample_header
           (sample_collaborators DVZ_OBJECT_STATUS_NEED_RECREATE 2) 1
           (sample_world blank_recorder None [])
           DVZ_OBJECT_STATUS_NEED_RECREATE 2);
    first [ apply sample_keeps_img_idx | concrete ].
Defined.

Lemma C2_witness :
  let K := sample_collaborators status_created 1 in
  let w := sample_world blank_recorder None [] in
  exists w' rest,
    dvz_presenter_frame sample_header K 1 w = Ok tt w' /\
    trace w' = trace w ++ dvz_fences_wait 1 1 :: dvz_swapchain_acquire 1 0 :: rest /\
    fence_waits_of rest = [] /\
    1 <> 0.
Proof.
  cbv zeta.
  apply (C2_fence_wait_next_slot sample_header
           (sample_collaborators status_created 1) 1
           (sample_world blank_recorder None []) (sample_canvas blank_recorder));
    concrete.
Defined.

(** Scenario E: three images, all of them recorded again. *)
Lemma C3_witness :
  let K := sample_collaborators DVZ_OBJECT_STATUS_NEED_RECREATE 1 in
  let w := sample_world blank_recorder None [] in
  exists w' before img c' r',
    dvz_presenter_frame sample_header K 1 w = Ok tt w' /\
    trace w' = trace w ++ before ++ [dvz_recorder_set_dirty 1]
               ++ flat_map (record_calls 1 0) [0; 1; 2]
               ++ [dvz_transfers_frame img] /\
    (forall k, In k [0; 1; 2] <-> 0 <= k < 3) /\
    canvases w' !! 1 = Some c' /\
    recorder c' = Some r' /\
    forall j : nat, (j < 3)%nat -> rec_dirty r' !! j = Some (negb (Z.of_nat j <? 3)).
Proof.
  cbv zeta.
  apply (C3_recreate_rerecords_every_image sample_header
           (sample_collaborators DVZ_OBJECT_STATUS_NEED_RECREATE 1) 1
           (sample_world blank_recorder None [])
           (sample_canvas blank_recorder) blank_recorder);
    concrete.
Defined.

(** Scenario A: the tick after creation emits one resize event. *)
Lemma C4_witness :
  let K := sample_collaborators DVZ_OBJECT_STATUS_NEED_RECREATE 1 in
  let w := sample_world blank_recorder None [] in
  exists w' delta c' win',
    dvz_presenter_frame sample_header K 1 w = Ok tt w' /\
    trace w' = trace w ++ delta /\
    canvases w' !! 1 = Some c' /\
    windows w' !! 1 = Some win' /\
    client_events_of delta =
      [DVZ_CLIENT_EVENT_WINDOW_RESIZE 1 (canvas_width c') (canvas_height c')
         (window_width win') (window_height win')] /\
    (DVZ_OBJECT_STATUS_NEED_RECREATE = DVZ_OBJECT_STATUS_NEED_RECREATE ->
     exists w1,
       acquired_world sample_header K 1 w = Some w1 /\
       win' = window_polled K (poll_world 1 w1) 1 /\
       (canvas_width c', canvas_height c') =
         fst (canvas_recreated K (recreate_world K 1 w1) 1)).
Proof.
  cbv zeta.
  apply (C4_resize_event_on_recreate_only sample_header
           (sample_collaborators DVZ_OBJECT_STATUS_NEED_RECREATE 1) 1
           (sample_world blank_recorder None [])
           DVZ_OBJECT_STATUS_NEED_RECREATE);
    concrete.
Defined.

(** Scenario C: three callbacks for canvas 1 and one for canvas 2. *)
Lemma C5_witness :
  let K := sample_collaborators status_created 1 in
  let w := sample_world blank_recorder (Some sample_gui_window) sample_callbacks in
  (exists w' delta,
     dvz_presenter_frame sample_header K 1 w = Ok tt w' /\
     trace w' = trace w ++ delta /\
     invocations_of delta =
       [(user_gui_callback 10, sample_gui_window, user_pointer 10);
        (user_gui_callback 11, sample_gui_window, user_pointer 11);
        (user_gui_callback 12, sample_gui_window, user_pointer 12)]) /\
  (exists w',
     dvz_presenter_gui 1 (Some (user_gui_callback 13)) (user_pointer 13) w = Ok tt w' /\
     callbacks w' = Some (sample_callbacks ++ [sample_payload 1 13])).
Proof.
  cbv zeta.
  destruct (C5_overlay_callbacks sample_header
              (sample_collaborators status_created 1) 1
              (sample_world blank_recorder (Some sample_gui_window) sample_callbacks)
              sample_callbacks eq_refl) as [Htick Hreg].
  split.
  - apply (Htick status_created sample_gui_window); concrete.
  - apply (Hreg 1 (user_gui_callback 13) (user_pointer 13)). discriminate.
Defined.

(** Scenario B: overlay, frame-rate and resource-usage flags (7), and the
    overlay flag alone (1). *)
Lemma C6_witness :
  let K := sample_collaborators status_created 1 in
  let w := sample_world blank_recorder None [sample_payload 1 10] in
  (exists w',
     _create_canvas sample_header K (sample_request 7) w = Ok tt w' /\
     callbacks w' =
       Some [sample_payload 1 10;
             {| window_id := 1; callback := _gui_callback_fps; user_data := prt_fps |};
             {| window_id := 1; callback := _gui_callback_monitoring;
                user_data := ctx_datalloc |}]) /\
  (exists w',
     _create_canvas sample_header K (sample_request 1) w = Ok tt w' /\
     callbacks w' = Some [sample_payload 1 10]).
Proof.
  cbv zeta. split.
  - destruct (C6_builtin_overlay_entries sample_header
                (sample_collaborators status_created 1) (sample_request 7)
                (sample_world blank_recorder None [sample_payload 1 10])
                (sample_canvas blank_recorder) [sample_payload 1 10] 5)
      as (w' & Hrun & Hcb & Hboth & Hnone);
      try first [ apply sample_creates_swapchain | concrete ].
    exists w'. split; [exact Hrun | exact Hcb].
  - destruct (C6_builtin_overlay_entries sample_header
                (sample_collaborators status_created 1) (sample_request 1)
                (sample_world blank_recorder None [sample_payload 1 10])
                (sample_canvas blank_recorder) [sample_payload 1 10] 5)
      as (w' & Hrun & Hcb & Hboth & Hnone);
      try first [ apply sample_creates_swapchain | concrete ].
    exists w'. split; [exact Hrun | exact Hcb].
Defined.

(** C7 fails as stated: on the sample surface, with an empty recorder and
    every image dirty, a tick that finds the swapchain in NEED_RECREATE
    records the blank commands and returns without submitting or presenting
    anything. *)
Lemma C7_counterexample :
  let K := sample_collaborators DVZ_OBJECT_STATUS_NEED_RECREATE 1 in
  let w := sample_world blank_recorder None [] in
  live 1 w = true /\
  rec_count blank_recorder = 0 /\
  acquired_img_idx sample_header K 1 w = Some 1 /\
  rec_dirty blank_recorder !! 1%nat = Some true /\
  exists w',
    dvz_presenter_frame sample_header K 1 w = Ok tt w' /\
    In (blank_commands 1 1) (trace w') /\
    submissions_of (trace w') = [].
Proof.
  cbv zeta. split; [concrete|]. split; [reflexivity|]. split; [concrete|].
  split; [reflexivity|].
  eexists. split; [vm_compute; reflexivity|].
  split; [vm_compute; tauto | vm_compute; reflexivity].
Qed.

(** Scenario D in a tick that reaches the submission. *)
Lemma C7_witness :
  let K := sample_collaborators status_created 1 in
  let w := sample_world blank_recorder None [] in
  exists w' img' c' r',
    dvz_presenter_frame sample_header K 1 w = Ok tt w' /\
    trace w' = trace w
               ++ [dvz_fences_wait 1 (next_slot sample_header (sample_canvas blank_recorder));
                   dvz_swapchain_acquire 1 0;
                   dvz_time 1 (0 mod 16);
                   dvz_fences_copy 1 0 1;
                   dvz_cmd_reset 1 1; blank_commands 1 1; dvz_recorder_set 1 1;
                   dvz_submit_reset 1; dvz_submit_commands 1 (canvas_cmds 1)]
               ++ overlay_calls (guis w !! 1) (callbacks w) 1 1
               ++ [dvz_submit_wait_semaphores 1 0;
                   dvz_submit_signal_semaphores 1 0;
                   dvz_submit_send 1 1 0;
                   dvz_swapchain_present 1 0;
                   dvz_transfers_frame img'] /\
    canvases w' !! 1 = Some c' /\
    recorder c' = Some r' /\
    rec_dirty r' !! Z.to_nat 1 = Some false.
Proof.
  cbv zeta.
  apply (C7_blank_commands_then_present sample_header
           (sample_collaborators status_created 1) 1
           (sample_world blank_recorder None [])
           status_created (sample_canvas blank_recorder) blank_recorder 1);
    concrete.
Defined.

Lemma C8_witness :
  let K := sample_collaborators status_created 1 in
  let w := sample_world blank_recorder (Some sample_gui_window) [] in
  exists w' delta,
    _delete_canvas K 1 w = Ok tt w' /\
    trace w' = trace w ++ delta /\
    delta = [dvz_gpu_wait; dvz_canvas_destroy 1; dvz_recorder_destroy 1;
             dvz_list_remove_pointer 1; dvz_surface_destroy 7]
            ++ match guis w !! 1 with
               | Some g => [dvz_gui_window_destroy g]
               | None => []
               end /\
    window_destroys_of delta = [] /\
    windows w' = windows w /\
    surfaces w' = remove_first 1 (surfaces w).
Proof.
  cbv zeta.
  apply (C8_delete_order (sample_collaborators status_created 1) 1
           (sample_world blank_recorder (Some sample_gui_window) [])
           (sample_canvas blank_recorder) blank_recorder);
    concrete.
Defined.

(** C9 fails as stated: on the sample surface, with a GUI window and four
    registered callbacks, a tick that finds the swapchain in NEED_RECREATE
    records no overlay pass and submits nothing. *)
Lemma C9_counterexample :
  let K := sample_collaborators DVZ_OBJECT_STATUS_NEED_RECREATE 1 in
  let w := sample_world blank_recorder (Some sample_gui_window) sample_callbacks in
  live 1 w = true /\
  guis w !! 1 = Some sample_gui_window /\
  callbacks w = Some sample_callbacks /\
  exists w',
    dvz_presenter_frame sample_header K 1 w = Ok tt w' /\
    overlay_begins_of (trace w') = [] /\
    submissions_of (trace w') = [].
Proof.
  cbv zeta. split; [concrete|]. split; [concrete|]. split; [reflexivity|].
  eexists. split; [vm_compute; reflexivity|]. split; vm_compute; reflexivity.
Qed.

(** A tick that reaches the submission with a callback list that holds
    entries for another canvas only. *)
Lemma C9_witness :
  let K := sample_collaborators status_created 1 in
  let w := sample_world blank_recorder (Some sample_gui_window) [sample_payload 2 20] in
  exists w' before img',
    dvz_presenter_frame sample_header K 1 w = Ok tt w' /\
    trace w' = trace w ++ before
               ++ [dvz_gui_window_begin sample_gui_window 1]
               ++ invocations sample_gui_window [sample_payload 2 20]
               ++ [dvz_gui_window_end sample_gui_window 1;
                   dvz_submit_commands 1 (gui_window_cmds sample_gui_window)]
               ++ [dvz_submit_wait_semaphores 1 0;
                   dvz_submit_signal_semaphores 1 0;
                   dvz_submit_send 1 1 0;
                   dvz_swapchain_present 1 0;
                   dvz_transfers_frame img'] /\
    overlay_begins_of before = [] /\
    ((forall p, In p [sample_payload 2 20] -> window_id p <> gw_obj_id sample_gui_window) ->
     invocations sample_gui_window [sample_payload 2 20] = []).
Proof.
  cbv zeta.
  apply (C9_overlay_pass_on_nonempty_list sample_header
           (sample_collaborators status_created 1) 1
           (sample_world blank_recorder (Some sample_gui_window) [sample_payload 2 20])
           status_created (sample_canvas blank_recorder) sample_gui_window
           [sample_payload 2 20] 1);
    concrete.
Defined.

Lemma C10_witness :
  dvz_presenter_submit (Some empty_batch)
    (sample_world blank_recorder None []) = Ok tt (sample_world blank_recorder None []).
Proof. apply (C10_submit_empty_batch empty_batch). reflexivity. Defined.

(** ** More about ticks *)

Lemma clear_bits_length n : forall i l, length (clear_bits n i l) = length l.
Proof.
  induction n as [|n IH]; intros i l; cbn; [reflexivity|].
  rewrite IH. apply length_insert.
Qed.

(** A tick on a live surface, arm by arm: the world it returns and its
    calls. *)
Lemma tick_summary (H : Header) (K : Collaborators) (id : Z) (w : World)
    (c : DvzCanvas) (r : DvzRecorder) :
  live id w = true ->
  acquired_in_range H K id w = true ->
  0 < DVZ_MAX_TIMESTAMPS H ->
  canvases w !! id = Some c ->
  recorder c = Some r ->
  let c1 := acquired H K id c w in
  let w1 := after_acquire H K id c w in
  exists w',
    dvz_presenter_frame H K id w = Ok tt w' /\
    ((sc_status (swapchain c1) = DVZ_OBJECT_STATUS_INVALID /\
      w' = logged dvz_gpu_wait w1 /\
      trace w' = trace w ++ invalid_tick_calls H id c)
     \/
     (sc_status (swapchain c1) = DVZ_OBJECT_STATUS_NEED_RECREATE /\
      w' = logged (dvz_transfers_frame (img_idx (swapchain (rerecorded K id c1 r w1))))
             (after_recreate K id (guis w !! id) c1 r w1) /\
      trace w' = trace w ++ recreate_tick_calls H K id c r w)
     \/
     (exists b : bool,
        sc_status (swapchain c1) <> DVZ_OBJECT_STATUS_INVALID /\
        sc_status (swapchain c1) <> DVZ_OBJECT_STATUS_NEED_RECREATE /\
        0 <= img_idx (swapchain c1) /\
        rec_dirty r !! Z.to_nat (img_idx (swapchain c1)) = Some b /\
        w' = logged (dvz_transfers_frame
                       (img_idx (swapchain (presented H K id (guis w !! id) c1 r b w1))))
               (after_submit H K id (guis w !! id) c1 r b w1) /\
        trace w' = trace w ++ ready_tick_calls H K id c r b w)).
Proof.
  intros Hl Hin Hts Hc Hr c1 w1.
  destruct (tick_cases H K id w c r Hl Hin Hts Hc Hr)
    as [Es Hrun|Es Hrun|b Es1 Es2 Hpos Hb Hrun];
    fold c1 w1 in Hrun; eexists; (split; [exact Hrun|]).
  - left. split; [exact Es|]. split; [reflexivity|].
    rewrite trace_logged. unfold w1. rewrite trace_after_acquire.
    unfold invalid_tick_calls. rewrite <- app_assoc. reflexivity.
  - right. left. split; [exact Es|]. split; [reflexivity|].
    rewrite trace_logged, trace_after_recreate. unfold w1.
    rewrite trace_after_acquire. unfold recreate_tick_calls.
    repeat rewrite <- app_assoc. reflexivity.
  - right. right. exists b. repeat (split; [assumption|]). split; [reflexivity|].
    rewrite trace_logged, trace_after_submit. unfold w1.
    rewrite trace_after_acquire, callbacks_after_acquire. unfold ready_tick_calls.
    repeat rewrite <- app_assoc. reflexivity.
Qed.

(** *** Filtering the calls of an arm *)

Lemma filter_kind_nil (p q : Call -> bool) (l : list Call) :
  (forall c, q c = true -> p c = false) ->
  Forall (fun c => q c = true) l ->
  List.filter p l = [].
Proof.
  intros Hpq Hl. induction Hl as [|c l Hc _ IH]; [reflexivity|].
  cbn. rewrite (Hpq c Hc). exact IH.
Qed.

Lemma omap_kind_nil {A} (f : Call -> option A) (q : Call -> bool) (l : list Call) :
  (forall c, q c = true -> f c = None) ->
  Forall (fun c => q c = true) l ->
  omap f l = [].
Proof.
  intros Hfq Hl. induction Hl as [|c l Hc _ IH]; [reflexivity|].
  cbn. rewrite (Hfq c Hc). exact IH.
Qed.

Lemma filter_kind_all (p : Call -> bool) (l : list Call) :
  Forall (fun c => p c = true) l -> List.filter p l = l.
Proof.
  intros Hl. induction Hl as [|c l Hc _ IH]; [reflexivity|].
  cbn. rewrite Hc, IH. reflexivity.
Qed.

Lemma recording_record_calls id cnt img :
  Forall (fun c => recording_call c = true) (record_calls id cnt img).
Proof. unfold record_calls. destruct (0 <? cnt); repeat constructor. Qed.

Lemma recording_record_loop id cnt l :
  Forall (fun c => recording_call c = true) (flat_map (record_calls id cnt) l).
Proof.
  induction l as [|i l IH]; cbn; [constructor|].
  apply Forall_app. split; [apply recording_record_calls | exact IH].
Qed.

Lemma recording_if_record (b : bool) id cnt img :
  Forall (fun c => recording_call c = true) (if b then record_calls id cnt img else []).
Proof. destruct b; [apply recording_record_calls | constructor]. Qed.

Lemma overlay_invocations g l :
  Forall (fun c => overlay_call c = true) (invocations g l).
Proof.
  unfold invocations. induction (matching g l) as [|p m IH]; cbn; constructor;
    [reflexivity | exact IH].
Qed.

Lemma overlay_overlay_calls gw cbs id img :
  Forall (fun c => overlay_call c = true) (overlay_calls gw cbs id img).
Proof.
  unfold overlay_calls. destruct gw as [g|]; [|constructor].
  destruct cbs as [l|]; [|constructor].
  destruct (0 <? Z.of_nat (length l)); [|constructor].
  unfold overlay_pass. apply Forall_app. split; [repeat constructor|].
  apply Forall_app. split; [apply overlay_invocations | repeat constructor].
Qed.

Lemma gui_resize_gui_calls gw wd ht :
  Forall (fun c => gui_window_call c = true) (resize_gui_calls gw wd ht).
Proof. destruct gw; repeat constructor. Qed.

Section FilterSkip.

Context (p : Call -> bool).

Section Recording.
Hypothesis p_recording : forall c, recording_call c = true -> p c = false.

Lemma filter_record_loop id cnt l : List.filter p (flat_map (record_calls id cnt) l) = [].
Proof. eapply filter_kind_nil; [exact p_recording | apply recording_record_loop]. Qed.

Lemma filter_if_record (b : bool) id cnt img :
  List.filter p (if b then record_calls id cnt img else []) = [].
Proof. eapply filter_kind_nil; [exact p_recording | apply recording_if_record]. Qed.
End Recording.

Section Overlay.
Hypothesis p_overlay : forall c, overlay_call c = true -> p c = false.

Lemma filter_overlay_calls gw cbs id img : List.filter p (overlay_calls gw cbs id img) = [].
Proof. eapply filter_kind_nil; [exact p_overlay | apply overlay_overlay_calls]. Qed.
End Overlay.

Section Gui.
Hypothesis p_gui : forall c, gui_window_call c = true -> p c = false.

Lemma filter_resize_gui_calls gw wd ht : List.filter p (resize_gui_calls gw wd ht) = [].
Proof. eapply filter_kind_nil; [exact p_gui | apply gui_resize_gui_calls]. Qed.
End Gui.

End FilterSkip.

Ltac not_kind := intros []; cbn; congruence.

Ltac skip_filter :=
  rewrite ?filter_record_loop by not_kind;
  rewrite ?filter_if_record by not_kind;
  rewrite ?filter_overlay_calls by not_kind;
  rewrite ?filter_resize_gui_calls by not_kind.

(** *** Arms and final canvases *)

(** X1.  When the swapchain is INVALID after the acquisition, the tick
    makes three calls, the fence wait, the acquisition and dvz_gpu_wait, and
    leaves the canvas as it was but for its swapchain: the frame slot, the
    timestamp index, the recorder and the size are untouched, and so are the
    windows. *)
Theorem X1_invalid_tick_only_waits (H : Header) (K : Collaborators) (id : Z) (w : World)
    (c : DvzCanvas) :
  live id w = true ->
  canvases w !! id = Some c ->
  observed_status H K id w = Some DVZ_OBJECT_STATUS_INVALID ->
  exists w' c',
    dvz_presenter_frame H K id w = Ok tt w' /\
    trace w' = trace w ++ [dvz_fences_wait id (next_slot H c);
                           dvz_swapchain_acquire id (cur_frame c); dvz_gpu_wait] /\
    canvases w' !! id = Some c' /\
    canvas_with_swapchain (swapchain c) c' = c /\
    windows w' = windows w.
Proof.
  intros Hl Hc Hs.
  destruct (live_inv id w Hl) as (win & c0 & r & l & Hw & Hc0 & Hr & Hcb & Hlen & Hn).
  assert (c0 = c) by congruence. subst c0.
  erewrite observed_status_eq in Hs by eassumption.
  assert (Hs' : sc_status (swapchain (acquired H K id c w)) = DVZ_OBJECT_STATUS_INVALID)
    by congruence.
  erewrite frame_invalid_run by eassumption.
  eexists. exists (acquired H K id c w).
  split; [reflexivity|].
  split; [rewrite trace_logged, trace_after_acquire, <- app_assoc; reflexivity|].
  split; [unfold after_acquire; lookup|].
  split; [destruct c; reflexivity | reflexivity].
Qed.

(** X2.  A tick sends one submission and presents once when the swapchain
    is neither INVALID nor NEED_RECREATE after the acquisition, both for the
    acquired image and the current frame slot and in this order; in the two
    other arms it submits and presents nothing. *)
Theorem X2_submission_in_last_arm_only (H : Header) (K : Collaborators) (id : Z)
    (w : World) (c : DvzCanvas) (s : DvzObjectStatus) (img : Z) :
  live id w = true ->
  acquired_in_range H K id w = true ->
  0 < DVZ_MAX_TIMESTAMPS H ->
  canvases w !! id = Some c ->
  observed_status H K id w = Some s ->
  acquired_img_idx H K id w = Some img ->
  exists w' delta,
    dvz_presenter_frame H K id w = Ok tt w' /\
    trace w' = trace w ++ delta /\
    submissions_of delta =
      match s with
      | DVZ_OBJECT_STATUS_INVALID | DVZ_OBJECT_STATUS_NEED_RECREATE => []
      | _ => [dvz_submit_send id img (cur_frame c);
              dvz_swapchain_present id (cur_frame c)]
      end.
Proof.
  intros Hl Hin Hts Hc Hs Hi.
  destruct (live_inv id w Hl) as (win & c0 & r & l & Hw & Hc0 & Hr & Hcb & Hlen & Hn).
  assert (c0 = c) by congruence. subst c0.
  erewrite observed_status_eq in Hs by eassumption.
  erewrite acquired_img_idx_eq in Hi by eassumption.
  assert (Hs' : s = sc_status (swapchain (acquired H K id c w))) by congruence.
  assert (Hi' : img = img_idx (swapchain (acquired H K id c w))) by congruence.
  clear Hs Hi. subst s img.
  destruct (tick_summary H K id w c r Hl Hin Hts Hc Hr)
    as (w' & Hrun & [(Es & _ & Ht)|[(Es & _ & Ht)|(b & Es1 & Es2 & _ & _ & _ & Ht)]]);
    exists w'; eexists; (split; [exact Hrun|]); (split; [exact Ht|]).
  - rewrite Es. reflexivity.
  - rewrite Es. unfold submissions_of, recreate_tick_calls, recreate_calls.
    rewrite !List.filter_app. skip_filter. reflexivity.
  - assert (Hsub : submissions_of (ready_tick_calls H K id c r b w) =
                   [dvz_submit_send id (img_idx (swapchain (acquired H K id c w))) (cur_frame c);
                    dvz_swapchain_present id (cur_frame c)]).
    { unfold submissions_of, ready_tick_calls, submit_calls.
      rewrite !List.filter_app. skip_filter. reflexivity. }
    destruct (sc_status (swapchain (acquired H K id c w))); try congruence; exact Hsub.
Qed.

(** X3.  Only a tick that submits advances the frame slot: when the
    swapchain is neither INVALID nor NEED_RECREATE after the acquisition,
    cur_frame becomes (cur_frame + 1) mod DVZ_MAX_FRAMES_IN_FLIGHT, the sum
    taken in 32 bits, and the timestamp index grows by one, in 64 bits; both
    stay as they are in the two other arms. *)
Theorem X3_frame_slot_advances_with_submission (H : Header) (K : Collaborators) (id : Z)
    (w : World) (c : DvzCanvas) (s : DvzObjectStatus) :
  live id w = true ->
  acquired_in_range H K id w = true ->
  0 < DVZ_MAX_TIMESTAMPS H ->
  canvases w !! id = Some c ->
  observed_status H K id w = Some s ->
  exists w' c',
    dvz_presenter_frame H K id w = Ok tt w' /\
    canvases w' !! id = Some c' /\
    cur_frame c' =
      match s with
      | DVZ_OBJECT_STATUS_INVALID | DVZ_OBJECT_STATUS_NEED_RECREATE => cur_frame c
      | _ => ((cur_frame c + 1) mod two32) mod DVZ_MAX_FRAMES_IN_FLIGHT H
      end /\
    frame_time_idx c' =
      match s with
      | DVZ_OBJECT_STATUS_INVALID | DVZ_OBJECT_STATUS_NEED_RECREATE => frame_time_idx c
      | _ => (frame_time_idx c + 1) mod two64
      end.
Proof.
  intros Hl Hin Hts Hc Hs.
  destruct (live_inv id w Hl) as (win & c0 & r & l & Hw & Hc0 & Hr & Hcb & Hlen & Hn).
  assert (c0 = c) by congruence. subst c0.
  erewrite observed_status_eq in Hs by eassumption.
  assert (Hs' : s = sc_status (swapchain (acquired H K id c w))) by congruence.
  clear Hs. subst s.
  destruct (tick_summary H K id w c r Hl Hin Hts Hc Hr)
    as (w' & Hrun & [(Es & -> & _)|[(Es & -> & _)|(b & Es1 & Es2 & _ & _ & -> & _)]]).
  - eexists. exists (acquired H K id c w). split; [exact Hrun|].
    split; [unfold after_acquire; lookup|]. rewrite Es. split; reflexivity.
  - eexists. eexists. split; [exact Hrun|].
    split; [unfold after_recreate; lookup|]. rewrite Es. split; reflexivity.
  - eexists. eexists. split; [exact Hrun|].
    split; [unfold after_submit; lookup|].
    assert (Hcf : cur_frame (presented H K id (guis w !! id) (acquired H K id c w) r b
                               (after_acquire H K id c w))
                  = ((cur_frame c + 1) mod two32) mod DVZ_MAX_FRAMES_IN_FLIGHT H)
      by reflexivity.
    assert (Hft : frame_time_idx (presented H K id (guis w !! id) (acquired H K id c w) r b
                                    (after_acquire H K id c w))
                  = (frame_time_idx c + 1) mod two64)
      by (cbn; unfold recorded; destruct b; reflexivity).
    destruct (sc_status (swapchain (acquired H K id c w))); try congruence;
      (split; [exact Hcf | exact Hft]).
Qed.

(** X4.  A tick that reaches the submission records the command buffer of
    the acquired image exactly when the dirty bit of that image is set (the
    buffer is reused otherwise); when the tick returns that bit is clear, the
    bits of the other images are as before and the cached commands are
    untouched. *)
Theorem X4_record_only_when_dirty (H : Header) (K : Collaborators) (id : Z) (w : World)
    (s : DvzObjectStatus) (c : DvzCanvas) (r : DvzRecorder) (img : Z) (b : bool) :
  live id w = true ->
  0 < DVZ_MAX_TIMESTAMPS H ->
  observed_status H K id w = Some s ->
  s <> DVZ_OBJECT_STATUS_INVALID ->
  s <> DVZ_OBJECT_STATUS_NEED_RECREATE ->
  canvases w !! id = Some c ->
  recorder c = Some r ->
  acquired_img_idx H K id w = Some img ->
  0 <= img ->
  rec_dirty r !! Z.to_nat img = Some b ->
  exists w' delta c' r',
    dvz_presenter_frame H K id w = Ok tt w' /\
    trace w' = trace w ++ delta /\
    recordings_of delta = (if b then record_calls id (rec_count r) img else []) /\
    canvases w' !! id = Some c' /\
    recorder c' = Some r' /\
    rec_count r' = rec_count r /\
    rec_dirty r' = <[Z.to_nat img := false]> (rec_dirty r).
Proof.
  intros Hl Hts Hs Hs1 Hs2 Hc Hr Hi Hpos Hb.
  destruct (live_inv id w Hl) as (win & c0 & r0 & l & Hw & Hc0 & Hr0 & Hcb & Hlen & Hn).
  assert (c0 = c) by congruence. subst c0.
  assert (r0 = r) by congruence. subst r0.
  erewrite observed_status_eq in Hs by eassumption.
  erewrite acquired_img_idx_eq in Hi by eassumption.
  assert (Hs' : s = sc_status (swapchain (acquired H K id c w))) by congruence.
  assert (Hi' : img = img_idx (swapchain (acquired H K id c w))) by congruence.
  clear Hs Hi. subst s img.
  erewrite frame_ready_run by eassumption.
  set (c1 := acquired H K id c w) in *.
  set (w1 := after_acquire H K id c w) in *.
  eexists. exists (ready_tick_calls H K id c r b w).
  exists (presented H K id (guis w !! id) c1 r b w1).
  exists (recorder_with_dirty (<[Z.to_nat (img_idx (swapchain c1)) := false]> (rec_dirty r)) r).
  split; [reflexivity|].
  split.
  { rewrite trace_logged, trace_after_submit. unfold w1.
    rewrite trace_after_acquire, callbacks_after_acquire. unfold ready_tick_calls.
    repeat rewrite <- app_assoc. reflexivity. }
  split.
  { unfold recordings_of, ready_tick_calls, submit_calls. rewrite !List.filter_app.
    skip_filter. fold c1.
    rewrite (filter_kind_all recording_call
               (if b then record_calls id (rec_count r) (img_idx (swapchain c1)) else []))
      by apply recording_if_record.
    cbn. repeat rewrite app_nil_r. reflexivity. }
  split; [unfold after_submit; lookup|].
  split.
  { cbn. unfold recorded. destruct b; cbn; [reflexivity|].
    rewrite Hr. unfold recorder_with_dirty. f_equal. destruct r as [cnt d]. cbn in *.
    f_equal. symmetry. apply list_insert_id. exact Hb. }
  split; reflexivity.
Qed.

(** X5.  With cached commands in the recorder no tick records the blank
    pass: whatever arm it takes, blank_commands is not called. *)
Theorem X5_cached_commands_replace_blank (H : Header) (K : Collaborators) (id : Z)
    (w : World) (c : DvzCanvas) (r : DvzRecorder) :
  live id w = true ->
  acquired_in_range H K id w = true ->
  0 < DVZ_MAX_TIMESTAMPS H ->
  canvases w !! id = Some c ->
  recorder c = Some r ->
  0 < rec_count r ->
  exists w' delta,
    dvz_presenter_frame H K id w = Ok tt w' /\
    trace w' = trace w ++ delta /\
    blanks_of delta = [].
Proof.
  intros Hl Hin Hts Hc Hr Hcnt.
  assert (Hrec : forall img, blanks_of (record_calls id (rec_count r) img) = []).
  { intros img. unfold record_calls.
    replace (0 <? rec_count r) with true by (symmetry; apply Z.ltb_lt; exact Hcnt).
    reflexivity. }
  assert (Hloop : forall l, blanks_of (flat_map (record_calls id (rec_count r)) l) = []).
  { induction l as [|i l IH]; [reflexivity|]. cbn [flat_map]. unfold blanks_of in *.
    rewrite omap_app, IH, (Hrec i). reflexivity. }
  destruct (tick_summary H K id w c r Hl Hin Hts Hc Hr)
    as (w' & Hrun & [(Es & _ & Ht)|[(Es & _ & Ht)|(b & Es1 & Es2 & _ & _ & _ & Ht)]]);
    exists w'; eexists; (split; [exact Hrun|]); (split; [exact Ht|]).
  - reflexivity.
  - unfold recreate_tick_calls, recreate_calls. unfold blanks_of at 1.
    rewrite !omap_app.
    fold (blanks_of (flat_map (record_calls id (rec_count r))
                       (indices (Z.to_nat (cmds_count (acquired H K id c w))) 0))).
    rewrite Hloop.
    rewrite (omap_kind_nil _ gui_window_call (resize_gui_calls _ _ _))
      by (first [not_kind | apply gui_resize_gui_calls]).
    reflexivity.
  - unfold ready_tick_calls, submit_calls. unfold blanks_of at 1.
    rewrite !omap_app.
    rewrite (omap_kind_nil _ overlay_call (overlay_calls _ _ _ _))
      by (first [not_kind | apply overlay_overlay_calls]).
    replace (omap
               (fun c0 => match c0 with blank_commands id0 i => Some (id0, i) | _ => None end)
               (if b then record_calls id (rec_count r)
                           (img_idx (swapchain (acquired H K id c w))) else []))
      with (@nil (Z * Z)).
    + reflexivity.
    + destruct b; [symmetry; apply Hrec | reflexivity].
Qed.

(** X6.  Without a GUI window for the surface, or with an empty callback
    list, a tick records no overlay pass in any arm: no
    dvz_gui_window_begin, no callback, no dvz_gui_window_end, and no GUI
    command buffer in the submission.  Without a GUI window the tick makes no
    call on a GUI window at all, callbacks registered for the id or not. *)
Theorem X6_no_overlay_without_window_or_callbacks (H : Header) (K : Collaborators)
    (id : Z) (w : World) :
  live id w = true ->
  acquired_in_range H K id w = true ->
  0 < DVZ_MAX_TIMESTAMPS H ->
  guis w !! id = None \/ callbacks w = Some [] ->
  exists w' delta,
    dvz_presenter_frame H K id w = Ok tt w' /\
    trace w' = trace w ++ delta /\
    overlay_of delta = [] /\
    (guis w !! id = None -> gui_window_calls_of delta = []).
Proof.
  intros Hl Hin Hts Hno.
  destruct (live_inv id w Hl) as (win & c & r & l & Hw & Hc & Hr & Hcb & Hlen & Hn).
  assert (Hov : overlay_calls (guis w !! id) (callbacks w) id
                  (img_idx (swapchain (acquired H K id c w))) = []).
  { destruct Hno as [-> | ->]; [reflexivity|]. destruct (guis w !! id); reflexivity. }
  destruct (tick_summary H K id w c r Hl Hin Hts Hc Hr)
    as (w' & Hrun & [(Es & _ & Ht)|[(Es & _ & Ht)|(b & Es1 & Es2 & _ & _ & _ & Ht)]]);
    exists w'; eexists; (split; [exact Hrun|]); (split; [exact Ht|]).
  - split; [reflexivity | intros _; reflexivity].
  - unfold recreate_tick_calls, recreate_calls. split.
    + unfold overlay_of. rewrite !List.filter_app. skip_filter.
      destruct (guis w !! id); reflexivity.
    + intros Hg. rewrite Hg. unfold gui_window_calls_of.
      rewrite !List.filter_app. skip_filter. reflexivity.
  - unfold ready_tick_calls, submit_calls. rewrite Hov. split.
    + unfold overlay_of. rewrite !List.filter_app. skip_filter. reflexivity.
    + intros _. unfold gui_window_calls_of.
      rewrite !List.filter_app. skip_filter. reflexivity.
Qed.

(** X7.  A tick works on its own surface only.  It leaves the callback
    list, the map of GUI windows, the list of surfaces and the GUI of the
    presenter as they are, does not touch the canvas or the window of any
    other id, and leaves the surface live, ready for the next tick. *)
Theorem X7_tick_keeps_registry_and_other_surfaces (H : Header) (K : Collaborators)
    (id : Z) (w : World) :
  live id w = true ->
  acquired_in_range H K id w = true ->
  0 < DVZ_MAX_TIMESTAMPS H ->
  exists w',
    dvz_presenter_frame H K id w = Ok tt w' /\
    callbacks w' = callbacks w /\
    guis w' = guis w /\
    surfaces w' = surfaces w /\
    prt_gui w' = prt_gui w /\
    (forall id', id' <> id ->
       canvases w' !! id' = canvases w !! id' /\ windows w' !! id' = windows w !! id') /\
    live id w' = true.
Proof.
  intros Hl Hin Hts.
  destruct (live_inv id w Hl) as (win & c & r & l & Hw & Hc & Hr & Hcb & Hlen & Hn).
  assert (Hlive : forall (W : World) (c' : DvzCanvas) (d : list bool) (win' : DvzWindow),
            windows W !! id = Some win' ->
            canvases W !! id = Some c' ->
            callbacks W = Some l ->
            recorder c' = Some (recorder_with_dirty d r) ->
            cmds_count c' = cmds_count c ->
            length d = length (rec_dirty r) ->
            live id W = true).
  { intros W c' d win' HW HC HL HR Hcnt Hd. unfold live.
    rewrite HW, HC, HL, HR. cbn. rewrite Hcnt, Hd.
    apply andb_true_intro. split; [apply Z.ltb_lt | apply Z.leb_le]; assumption. }
  destruct (tick_summary H K id w c r Hl Hin Hts Hc Hr)
    as (w' & Hrun & [(Es & -> & _)|[(Es & -> & _)|(b & Es1 & Es2 & _ & Hb & -> & _)]]);
    eexists; (split; [exact Hrun|]); repeat (split; [reflexivity|]).
  - split.
    + intros id' Hne. split; [|reflexivity].
      unfold after_acquire. cbn. apply lookup_insert_ne. congruence.
    + apply (Hlive _ (acquired H K id c w) (rec_dirty r) win).
      * exact Hw.
      * unfold after_acquire. lookup.
      * exact Hcb.
      * cbn. rewrite Hr. destruct r; reflexivity.
      * reflexivity.
      * reflexivity.
  - split.
    + intros id' Hne. unfold after_recreate, after_acquire. cbn.
      rewrite !lookup_insert_ne by congruence. split; reflexivity.
    + eapply (Hlive _ _ (clear_bits (Z.to_nat (cmds_count c)) 0
                           (replicate (length (rec_dirty r)) true))).
      * unfold after_recreate. cbn. apply lookup_insert_eq.
      * unfold after_recreate. lookup.
      * exact Hcb.
      * reflexivity.
      * reflexivity.
      * rewrite clear_bits_length, length_replicate. reflexivity.
  - split.
    + intros id' Hne. unfold after_submit, present_world, after_acquire. cbn.
      rewrite !lookup_insert_ne by congruence. split; reflexivity.
    + eapply (Hlive _ _ (<[Z.to_nat (img_idx (swapchain (acquired H K id c w))) := false]>
                           (rec_dirty r)) win).
      * exact Hw.
      * unfold after_submit. lookup.
      * exact Hcb.
      * cbn. unfold recorded. destruct b; cbn; [reflexivity|].
        rewrite Hr. unfold recorder_with_dirty. destruct r as [cnt d]. cbn in *.
        do 2 f_equal. symmetry. apply list_insert_id. exact Hb.
      * cbn. unfold recorded. destruct b; reflexivity.
      * apply length_insert.
Qed.

(** X8.  A tick for an id without window, without canvas, or whose canvas
    has no recorder does not run: it stops at the NULL checks at the top of
    dvz_presenter_frame. *)
Theorem X8_tick_aborts_off_live_surface (H : Header) (K : Collaborators) (id : Z)
    (w : World) :
  windows w !! id = None \/
  canvases w !! id = None \/
  (exists c, canvases w !! id = Some c /\ recorder c = None) ->
  dvz_presenter_frame H K id w = Abort.
Proof.
  intros Hno.
  unfold dvz_presenter_frame, frame_acquire, the_window, the_canvas, id2window,
    dvz_renderer_canvas, bind, get, ret, ANN.
  destruct (windows w !! id) as [win|] eqn:Ew; [|reflexivity].
  destruct (canvases w !! id) as [c|] eqn:Ec; [|reflexivity].
  destruct (recorder c) as [r|] eqn:Er; [|reflexivity].
  destruct Hno as [Hno|[Hno|(c' & Hc' & Hr')]]; congruence.
Qed.

(** ** More about creation and deletion *)

(** What _create_canvas leaves, overlay flag or not. *)
Lemma create_canvas_post (H : Header) (K : Collaborators) (req : DvzRequest)
    (w : World) (c : DvzCanvas) (l : list DvzGuiCallbackPayload) :
  canvases w !! req_id req = Some c ->
  callbacks w = Some l ->
  (has_gui H (req_flags req) = true -> exists gui, prt_gui w = Some gui) ->
  creates_swapchain K ->
  0 < req_screen_width req ->
  0 < req_screen_height req ->
  req_id req <> 0 ->
  exists w' win surf c' d g,
    _create_canvas H K req w = Ok tt w' /\
    trace w' = trace w ++ create_calls H req surf g /\
    windows w' = <[req_id req := win]> (windows w) /\
    canvases w' !! req_id req = Some c' /\
    (forall id', id' <> req_id req -> canvases w' !! id' = canvases w !! id') /\
    canvas_width c' = framebuffer_width win /\
    canvas_height c' = framebuffer_height win /\
    sc_status (swapchain c') = DVZ_OBJECT_STATUS_NEED_RECREATE /\
    recorder c' = Some {| rec_count := 0; rec_dirty := d |} /\
    surface c' = surf /\
    surfaces w' = surfaces w ++ [req_id req] /\
    res_img_count w' = Z.max (img_count (swapchain c')) (res_img_count w) /\
    callbacks w' = Some (l ++ builtin_entries H (req_id req) (req_flags req)) /\
    guis w' = (if has_gui H (req_flags req) then <[req_id req := g]> (guis w) else guis w) /\
    gw_obj_id g = req_id req /\
    prt_gui w' = prt_gui w.
Proof.
  intros Hc Hcb Hgui Hcreated Hsw Hsh Hid.
  unfold _create_canvas, create_calls, builtin_entries.
  step_with ltac:(apply ASSERT_run; apply Z.ltb_lt; exact Hsw).
  step_with ltac:(apply ASSERT_run; apply Z.ltb_lt; exact Hsh).
  do 5 step.
  erewrite bind_Ok by (eapply ext_canvas_create_run; lookup).
  do 2 step.
  step_with ltac:(apply ASSERT_run; cbn; apply Hcreated).
  erewrite bind_Ok by (eapply ext_recorder_run; lookup).
  do 2 step.
  destruct (has_gui H (req_flags req)) eqn:Eg; cbn [when].
  - destruct (Hgui eq_refl) as (gui & Hg).
    erewrite bind_Ok.
    2:{ step. step_with ltac:(apply ANN_run; cbn; exact Hg). do 2 step. reflexivity. }
    destruct (has_fps H (req_flags req)), (has_monitor H (req_flags req)); cbn [when];
      repeat first
        [ erewrite bind_Ok
            by (apply dvz_presenter_gui_run; [exact Hid | cbn; first [exact Hcb | reflexivity]])
        | step ];
      (erewrite update_canvas_run by lookup);
      (eexists; eexists; eexists; eexists; eexists; eexists; split; [reflexivity|]);
      (split; [apply trace_calls; reflexivity|]);
      (split; [reflexivity|]);
      (split; [cbn; apply lookup_insert_eq|]);
      (split; [intros id' Hne; cbn; rewrite !lookup_insert_ne by congruence; reflexivity|]);
      (split; [reflexivity|]); (split; [reflexivity|]); (split; [reflexivity|]);
      (split; [reflexivity|]); (split; [reflexivity|]); (split; [reflexivity|]);
      (split; [reflexivity|]);
      (split; [cbn; rewrite ?Hcb, <- ?app_assoc, ?app_nil_r; reflexivity|]);
      (split; [reflexivity|]); split; reflexivity.
  - erewrite bind_Ok by reflexivity.
    destruct (has_fps H (req_flags req)), (has_monitor H (req_flags req)); cbn [when];
      repeat first
        [ erewrite bind_Ok
            by (apply dvz_presenter_gui_run; [exact Hid | cbn; first [exact Hcb | reflexivity]])
        | step ];
      (erewrite update_canvas_run by lookup);
      (eexists; eexists; eexists; eexists; eexists;
       exists {| gw_ptr := 0; gw_obj_id := req_id req |}; split; [reflexivity|]);
      (split; [apply trace_calls; reflexivity|]);
      (split; [reflexivity|]);
      (split; [cbn; apply lookup_insert_eq|]);
      (split; [intros id' Hne; cbn; rewrite !lookup_insert_ne by congruence; reflexivity|]);
      (split; [reflexivity|]); (split; [reflexivity|]); (split; [reflexivity|]);
      (split; [reflexivity|]); (split; [reflexivity|]); (split; [reflexivity|]);
      (split; [reflexivity|]);
      (split; [cbn; rewrite ?Hcb, <- ?app_assoc, ?app_nil_r; reflexivity|]);
      (split; [reflexivity|]); split; reflexivity.
Qed.

(** What _delete_canvas leaves, recorder or not. *)
Lemma delete_canvas_post (K : Collaborators) (id : Z) (w : World) (c : DvzCanvas) :
  canvases w !! id = Some c ->
  exists w' sc,
    _delete_canvas K id w = Ok tt w' /\
    trace w' = trace w
               ++ [dvz_gpu_wait; dvz_canvas_destroy id]
               ++ match recorder c with
                  | Some _ => [dvz_recorder_destroy id]
                  | None => []
                  end
               ++ [dvz_list_remove_pointer id; dvz_surface_destroy (surface c)]
               ++ match guis w !! id with
                  | Some g => [dvz_gui_window_destroy g]
                  | None => []
                  end /\
    windows w' = windows w /\
    guis w' = guis w /\
    callbacks w' = callbacks w /\
    prt_gui w' = prt_gui w /\
    res_img_count w' = res_img_count w /\
    surfaces w' = remove_first id (surfaces w) /\
    canvases w' = <[id := canvas_with_swapchain sc c]> (canvases w).
Proof.
  intros Hc. unfold _delete_canvas.
  do 2 step.
  erewrite bind_Ok by (eapply ext_canvas_destroy_run; lookup).
  step. cbn [recorder canvas_with_swapchain].
  destruct (recorder c) as [r|];
    do 3 step; unfold dvz_map_get; step; cbn;
    destruct (guis w !! id) as [g|];
    eexists; eexists; (split; [reflexivity|]);
    (split; [apply trace_calls; reflexivity|]);
    repeat (split; [reflexivity|]); reflexivity.
Qed.

Lemma remove_first_fresh (x : Z) (l : list Z) :
  ~ In x l -> remove_first x (l ++ [x]) = l.
Proof.
  induction l as [|y l IH]; intros Hn; cbn.
  - rewrite Z.eqb_refl. reflexivity.
  - destruct (x =? y) eqn:E.
    + apply Z.eqb_eq in E. exfalso. apply Hn. left. congruence.
    + f_equal. apply IH. intros Hin. apply Hn. right. exact Hin.
Qed.

(** X9.  A creation request that succeeds binds the canvas of its id to a
    new window of the same id: the canvas takes the framebuffer size of the
    window, gets a fresh recorder without commands, is left in the
    NEED_RECREATE state, and its surface is tracked at the end of the list of
    the presenter.  The image count of the context becomes the larger of its
    old value and the image count of the new swapchain, and no other canvas
    changes. *)
Theorem X9_create_binds_canvas_to_window (H : Header) (K : Collaborators)
    (req : DvzRequest) (w : World) (c : DvzCanvas) (l : list DvzGuiCallbackPayload) :
  canvases w !! req_id req = Some c ->
  callbacks w = Some l ->
  (has_gui H (req_flags req) = true -> exists gui, prt_gui w = Some gui) ->
  creates_swapchain K ->
  0 < req_screen_width req ->
  0 < req_screen_height req ->
  req_id req <> 0 ->
  exists w' win c' r',
    _create_canvas H K req w = Ok tt w' /\
    windows w' !! req_id req = Some win /\
    canvases w' !! req_id req = Some c' /\
    canvas_width c' = framebuffer_width win /\
    canvas_height c' = framebuffer_height win /\
    sc_status (swapchain c') = DVZ_OBJECT_STATUS_NEED_RECREATE /\
    recorder c' = Some r' /\ rec_count r' = 0 /\
    surfaces w' = surfaces w ++ [req_id req] /\
    res_img_count w' = Z.max (img_count (swapchain c')) (res_img_count w) /\
    res_img_count w <= res_img_count w' /\
    (forall id', id' <> req_id req -> canvases w' !! id' = canvases w !! id').
Proof.
  intros Hc Hcb Hgui Hcreated Hsw Hsh Hid.
  destruct (create_canvas_post H K req w c l Hc Hcb Hgui Hcreated Hsw Hsh Hid)
    as (w' & win & surf & c' & d & g & Hrun & _ & Hwin & Hc' & Hoth & Hcw & Hch & Hst
        & Hr & _ & Hsf & Hres & _).
  exists w', win, c', {| rec_count := 0; rec_dirty := d |}.
  split; [exact Hrun|].
  split; [rewrite Hwin; apply lookup_insert_eq|].
  repeat (split; [first [assumption | reflexivity]|]).
  split; [rewrite Hres; lia|]. exact Hoth.
Qed.

(** X10.  The calls of a creation, in order: the client window and its
    input, the surface of the window, the canvas on that surface, the
    tracking of the surface, the recorder, the fullscreen setting, then the
    GUI window and its map entry when the overlay flag is set, and last the
    registration of the built-in callbacks. *)
Theorem X10_create_call_order (H : Header) (K : Collaborators)
    (req : DvzRequest) (w : World) (c : DvzCanvas) (l : list DvzGuiCallbackPayload) :
  canvases w !! req_id req = Some c ->
  callbacks w = Some l ->
  (has_gui H (req_flags req) = true -> exists gui, prt_gui w = Some gui) ->
  creates_swapchain K ->
  0 < req_screen_width req ->
  0 < req_screen_height req ->
  req_id req <> 0 ->
  exists w' c' g,
    _create_canvas H K req w = Ok tt w' /\
    canvases w' !! req_id req = Some c' /\
    gw_obj_id g = req_id req /\
    (has_gui H (req_flags req) = true -> guis w' !! req_id req = Some g) /\
    trace w' = trace w ++ create_calls H req (surface c') g.
Proof.
  intros Hc Hcb Hgui Hcreated Hsw Hsh Hid.
  destruct (create_canvas_post H K req w c l Hc Hcb Hgui Hcreated Hsw Hsh Hid)
    as (w' & win & surf & c' & d & g & Hrun & Ht & _ & Hc' & _ & _ & _ & _
        & _ & Hs & _ & _ & _ & Hg & Hgid & _).
  exists w', c', g. split; [exact Hrun|]. split; [exact Hc'|]. split; [exact Hgid|].
  split.
  - intros E. rewrite Hg, E. apply lookup_insert_eq.
  - rewrite Hs. exact Ht.
Qed.

(** X11.  A creation request without the overlay flag needs no GUI in the
    presenter and makes no GUI window: the map of GUI windows is left as it
    is and no call takes a GUI window.  The built-in callbacks are registered
    all the same when their flag bits are set. *)
Theorem X11_create_without_overlay_flag (H : Header) (K : Collaborators)
    (req : DvzRequest) (w : World) (c : DvzCanvas) (l : list DvzGuiCallbackPayload) :
  canvases w !! req_id req = Some c ->
  callbacks w = Some l ->
  creates_swapchain K ->
  0 < req_screen_width req ->
  0 < req_screen_height req ->
  req_id req <> 0 ->
  has_gui H (req_flags req) = false ->
  exists w' delta,
    _create_canvas H K req w = Ok tt w' /\
    trace w' = trace w ++ delta /\
    gui_window_calls_of delta = [] /\
    guis w' = guis w /\
    callbacks w' = Some (l ++ builtin_entries H (req_id req) (req_flags req)).
Proof.
  intros Hc Hcb Hcreated Hsw Hsh Hid Hflag.
  assert (Hgui : has_gui H (req_flags req) = true -> exists gui, prt_gui w = Some gui)
    by (rewrite Hflag; discriminate).
  destruct (create_canvas_post H K req w c l Hc Hcb Hgui Hcreated Hsw Hsh Hid)
    as (w' & win & surf & c' & d & g & Hrun & Ht & _ & _ & _ & _ & _ & _
        & _ & _ & _ & _ & Hcbs & Hg & _).
  exists w'. eexists. split; [exact Hrun|]. split; [exact Ht|].
  rewrite Hflag in Hg. split; [|split; assumption].
  unfold create_calls, builtin_entries. rewrite Hflag.
  destruct (has_fps H (req_flags req)), (has_monitor H (req_flags req)); reflexivity.
Qed.


Lemma bind_Abort {A B} (m : M A) (k : A -> M B) (w : World) :
  m w = Abort -> bind m k w = Abort.
Proof. intros E. unfold bind. rewrite E. reflexivity. Qed.

Lemma presenter_gui_abort (id : Z) (cb : option DvzGuiCallback) (ud : UserData)
    (w : World) :
  id = 0 \/ cb = None \/ callbacks w = None ->
  dvz_presenter_gui id cb ud w = Abort.
Proof.
  intros Hb. unfold dvz_presenter_gui, ext_list_append_callback, bind, ASSERT, ANN, get.
  destruct (id =? 0) eqn:E; cbn; [reflexivity|].
  destruct cb as [f|]; cbn; [|reflexivity].
  destruct (callbacks w) as [l|] eqn:El; [|reflexivity].
  exfalso. apply Z.eqb_neq in E. destruct Hb as [Hb|[Hb|Hb]]; congruence.
Qed.

Lemma create_callbacks_abort (H : Header) (id flags : Z) (w : World) (k : M unit) :
  has_fps H flags = true \/ has_monitor H flags = true ->
  id = 0 \/ callbacks w = None ->
  (when (has_fps H flags) (dvz_presenter_gui id (Some _gui_callback_fps) prt_fps) >>
   when (has_monitor H flags)
     (dvz_presenter_gui id (Some _gui_callback_monitoring) ctx_datalloc) >>
   k) w = Abort.
Proof.
  intros Hflag Hb.
  destruct (has_fps H flags); cbn [when].
  - apply bind_Abort, presenter_gui_abort. tauto.
  - erewrite bind_Ok by reflexivity.
    destruct (has_monitor H flags); cbn [when].
    + apply bind_Abort, presenter_gui_abort. tauto.
    + destruct Hflag; discriminate.
Qed.

(** X12.  A creation request does not succeed when a screen dimension is
    not positive, when the renderer has no canvas for the id, when
    dvz_canvas_create leaves no created swapchain, when the overlay flag is
    set on a presenter without GUI, or when a built-in callback is asked for
    the id 0 or on a presenter without callback list. *)
Theorem X12_create_aborts_on_bad_request (H : Header) (K : Collaborators)
    (req : DvzRequest) (w : World) :
  req_screen_width req <= 0 \/
  req_screen_height req <= 0 \/
  canvases w !! req_id req = None \/
  (forall w1,
     dvz_obj_is_created K (sc_status (fst (canvas_created K w1 (req_id req)))) = false) \/
  (has_gui H (req_flags req) = true /\ prt_gui w = None) \/
  ((has_fps H (req_flags req) = true \/ has_monitor H (req_flags req) = true) /\
   (req_id req = 0 \/ callbacks w = None)) ->
  _create_canvas H K req w = Abort.
Proof.
  intros Hbad. unfold _create_canvas.
  destruct (0 <? req_screen_width req) eqn:E1; [|reflexivity].
  destruct (0 <? req_screen_height req) eqn:E2; [|reflexivity].
  apply Z.ltb_lt in E1, E2.
  do 5 step.
  destruct (canvases w !! req_id req) as [c|] eqn:Ec.
  2:{ unfold update_canvas, the_canvas, dvz_renderer_canvas, bind, get, ret, ANN. cbn.
      rewrite Ec. reflexivity. }
  do 2 step.
  erewrite bind_Ok by (eapply ext_canvas_create_run; lookup).
  do 2 step.
  cbn [swapchain canvas_with_cmds_count canvas_with_swapchain].
  match goal with |- context [dvz_obj_is_created K ?s] =>
    destruct (dvz_obj_is_created K s) eqn:Ecr end; [|reflexivity].
  step.
  erewrite bind_Ok by (eapply ext_recorder_run; lookup).
  do 2 step.
  destruct Hbad as [Hb|[Hb|[Hb|[Hb|[(Hg & Hp)|(Hf & Hb)]]]]];
    [lia | lia | discriminate | rewrite Hb in Ecr; discriminate | | ].
  - rewrite Hg. cbn [when]. apply bind_Abort.
    unfold bind, get, ANN. cbn. rewrite Hp. reflexivity.
  - destruct (has_gui H (req_flags req)); cbn [when].
    + destruct (prt_gui w) as [gui|] eqn:Ep.
      * erewrite bind_Ok.
        2:{ step. step_with ltac:(apply ANN_run; cbn; exact Ep). do 2 step. reflexivity. }
        apply create_callbacks_abort; [exact Hf | exact Hb].
      * apply bind_Abort. unfold bind, get, ANN. cbn. rewrite Ep. reflexivity.
    + erewrite bind_Ok by reflexivity.
      apply create_callbacks_abort; [exact Hf | exact Hb].
Qed.



(** X13.  Closing a window deletes its surface and nothing of the registry:
    the map of GUI windows keeps its entry for the id, the callback list keeps
    every entry, the windows of the client are left to the client, and no
    other canvas changes.  Only the surface leaves the list of the presenter.
    An event of another type is refused. *)
Theorem X13_delete_leaves_registry (K : Collaborators) (id : Z) (w : World)
    (c : DvzCanvas) :
  canvases w !! id = Some c ->
  (exists w',
     _delete_callback K (DVZ_CLIENT_EVENT_WINDOW_DELETE id) w = Ok tt w' /\
     guis w' = guis w /\
     callbacks w' = callbacks w /\
     windows w' = windows w /\
     surfaces w' = remove_first id (surfaces w) /\
     (forall id', id' <> id -> canvases w' !! id' = canvases w !! id')) /\
  (forall ev, (forall id', ev <> DVZ_CLIENT_EVENT_WINDOW_DELETE id') ->
     _delete_callback K ev w = Abort).
Proof.
  intros Hc. split.
  2:{ intros ev Hev. destruct ev; try reflexivity. exfalso. exact (Hev _ eq_refl). }
  destruct (delete_canvas_post K id w c Hc)
    as (w' & sc & Hrun & _ & Hw & Hg & Hcb & _ & _ & Hs & Hcs).
  exists w'. split.
  - unfold _delete_callback. step. exact Hrun.
  - repeat (split; [assumption|]).
    intros id' Hne. rewrite Hcs. apply lookup_insert_ne. congruence.
Qed.

(** X14.  Deleting a canvas that has no recorder skips
    dvz_recorder_destroy and does everything else, in the same order. *)
Theorem X14_delete_without_recorder (K : Collaborators) (id : Z) (w : World)
    (c : DvzCanvas) :
  canvases w !! id = Some c ->
  recorder c = None ->
  exists w',
    _delete_canvas K id w = Ok tt w' /\
    trace w' = trace w
               ++ [dvz_gpu_wait; dvz_canvas_destroy id;
                   dvz_list_remove_pointer id; dvz_surface_destroy (surface c)]
               ++ match guis w !! id with
                  | Some g => [dvz_gui_window_destroy g]
                  | None => []
                  end.
Proof.
  intros Hc Hr.
  destruct (delete_canvas_post K id w c Hc) as (w' & sc & Hrun & Ht & _).
  exists w'. split; [exact Hrun|]. rewrite Ht, Hr. reflexivity.
Qed.

(** X15.  Creating a canvas and then deleting it restores the list of
    tracked surfaces when the id was not in it, but not the registry: the
    built-in callbacks stay in the callback list, the GUI window made for the
    overlay stays in the map, and the window stays with the client. *)
Theorem X15_create_then_delete (H : Header) (K : Collaborators)
    (req del : DvzRequest) (w : World) (c : DvzCanvas)
    (l : list DvzGuiCallbackPayload) :
  canvases w !! req_id req = Some c ->
  callbacks w = Some l ->
  (has_gui H (req_flags req) = true -> exists gui, prt_gui w = Some gui) ->
  creates_swapchain K ->
  0 < req_screen_width req ->
  0 < req_screen_height req ->
  req_id req <> 0 ->
  req_action req = DVZ_REQUEST_ACTION_CREATE ->
  req_action del = DVZ_REQUEST_ACTION_DELETE ->
  req_id del = req_id req ->
  ~ In (req_id req) (surfaces w) ->
  exists w1 w2 win,
    _canvas_request H K req w = Ok tt w1 /\
    _canvas_request H K del w1 = Ok tt w2 /\
    surfaces w2 = surfaces w /\
    callbacks w2 = Some (l ++ builtin_entries H (req_id req) (req_flags req)) /\
    (has_gui H (req_flags req) = true ->
     exists g, guis w2 !! req_id req = Some g /\ gw_obj_id g = req_id req) /\
    windows w2 !! req_id req = Some win.
Proof.
  intros Hc Hcb Hgui Hcreated Hsw Hsh Hid Hact Hdel Hdid Hfresh.
  destruct (create_canvas_post H K req w c l Hc Hcb Hgui Hcreated Hsw Hsh Hid)
    as (w1 & win & surf & c' & d & g & Hrun & _ & Hwin & Hc' & _ & _ & _ & _
        & _ & _ & Hsf & _ & Hcbs & Hg & Hgid & _).
  destruct (delete_canvas_post K (req_id req) w1 c' Hc')
    as (w2 & sc & Hrun2 & _ & Hw2 & Hg2 & Hcb2 & _ & _ & Hs2 & _).
  exists w1, w2, win.
  split; [unfold _canvas_request; rewrite Hact; exact Hrun|].
  split; [unfold _canvas_request; rewrite Hdel, Hdid; exact Hrun2|].
  split; [rewrite Hs2, Hsf; apply remove_first_fresh; exact Hfresh|].
  split; [rewrite Hcb2; exact Hcbs|].
  split.
  - intros E. exists g. rewrite Hg2, Hg, E. split; [apply lookup_insert_eq | exact Hgid].
  - rewrite Hw2, Hwin. apply lookup_insert_eq.
Qed.


(** ** The router *)

Lemma for_loop_app (n m : nat) (body : Z -> M unit) :
  forall (i : Z) (w : World),
  for_loop (n + m) i body w =
    (for_loop n i body >> for_loop m (i + Z.of_nat n) body) w.
Proof.
  induction n as [|n IH]; intros i w.
  - cbn. rewrite Z.add_0_r. reflexivity.
  - cbn [Nat.add for_loop]. unfold bind.
    destruct (body i w) as [[] w1|]; [|reflexivity].
    rewrite IH. unfold bind.
    replace (i + 1 + Z.of_nat n) with (i + Z.of_nat (S n)) by lia. reflexivity.
Qed.

Lemma requester_callback_loop (H : Header) (K : Collaborators) (b : DvzBatch) (w : World) :
  batch_requests b <> [] ->
  _requester_callback H K (DVZ_CLIENT_EVENT_REQUESTS b) w =
    (for_loop (length (batch_requests b)) 0 (route H K (batch_requests b)) >>
     call (dvz_batch_destroy b)) w.
Proof.
  intros Hne. unfold _requester_callback.
  erewrite bind_Ok.
  2:{ apply ASSERT_run. apply Z.ltb_lt. destruct (batch_requests b); [congruence|].
      cbn [length]. lia. }
  rewrite Nat2Z.id. reflexivity.
Qed.

Lemma trace_requested (K : Collaborators) (req : DvzRequest) (w : World) :
  trace (requested K req w) = trace w ++ [dvz_renderer_request req].
Proof. apply trace_calls. reflexivity. Qed.

Lemma trace_forwarded (K : Collaborators) (l : list DvzRequest) :
  forall w, trace (forwarded K l w) = trace w ++ map dvz_renderer_request l.
Proof.
  induction l as [|req l IH]; intros w; cbn [forwarded map].
  - rewrite app_nil_r. reflexivity.
  - rewrite IH, trace_requested, <- app_assoc. reflexivity.
Qed.

(** The renderer owns the canvases; the rest of the world is not its
    business. *)
Lemma forwarded_keeps (K : Collaborators) (l : list DvzRequest) :
  forall w,
    windows (forwarded K l w) = windows w /\
    guis (forwarded K l w) = guis w /\
    callbacks (forwarded K l w) = callbacks w /\
    surfaces (forwarded K l w) = surfaces w /\
    prt_gui (forwarded K l w) = prt_gui w /\
    res_img_count (forwarded K l w) = res_img_count w.
Proof.
  induction l as [|req l IH]; intros w; cbn [forwarded].
  - repeat split.
  - destruct (IH (requested K req w)) as (E1 & E2 & E3 & E4 & E5 & E6).
    rewrite E1, E2, E3, E4, E5, E6. repeat split.
Qed.

Lemma route_forwarded_only (H : Header) (K : Collaborators) (l : list DvzRequest)
    (i : Z) (req : DvzRequest) (w : World) :
  l !! Z.to_nat i = Some req ->
  forwarded_only req = true ->
  route H K l i w = Ok tt (requested K req w).
Proof.
  intros Hi Hf. unfold route.
  step_with ltac:(apply ANN_run; exact Hi).
  unfold ext_renderer_request. step.
  unfold forwarded_only in Hf. unfold _canvas_request.
  destruct (req_type req), (req_action req); first [discriminate Hf | reflexivity].
Qed.

Lemma route_loop_forwarded (H : Header) (K : Collaborators) (l : list DvzRequest) :
  forall (rest pre post : list DvzRequest) (w : World),
  l = pre ++ rest ++ post ->
  Forall (fun req => forwarded_only req = true) rest ->
  for_loop (length rest) (Z.of_nat (length pre)) (route H K l) w =
    Ok tt (forwarded K rest w).
Proof.
  induction rest as [|req rest IH]; intros pre post w Hl Hf; [reflexivity|].
  inversion Hf as [|? ? Hreq Hrest]; subst.
  cbn [length for_loop forwarded].
  erewrite bind_Ok.
  2:{ apply route_forwarded_only; [|exact Hreq].
      rewrite Nat2Z.id. apply list_lookup_middle. reflexivity. }
  replace (Z.of_nat (length pre) + 1) with (Z.of_nat (length (pre ++ [req])))
    by (rewrite length_app; cbn; lia).
  apply (IH (pre ++ [req]) post); [|exact Hrest].
  rewrite <- app_assoc. reflexivity.
Qed.

(** X16.  A batch that holds no creation and no deletion of a canvas is
    forwarded to the renderer, request by request in batch order, and then
    destroyed.  The router calls nothing else and leaves the windows, the GUI
    windows, the callbacks and the tracked surfaces as they are. *)
Theorem X16_router_forwards_in_order (H : Header) (K : Collaborators) (b : DvzBatch)
    (w : World) :
  batch_requests b <> [] ->
  Forall (fun req => forwarded_only req = true) (batch_requests b) ->
  exists w',
    _requester_callback H K (DVZ_CLIENT_EVENT_REQUESTS b) w = Ok tt w' /\
    trace w' = trace w ++ map dvz_renderer_request (batch_requests b)
                       ++ [dvz_batch_destroy b] /\
    windows w' = windows w /\
    guis w' = guis w /\
    callbacks w' = callbacks w /\
    surfaces w' = surfaces w.
Proof.
  intros Hne Hf. rewrite requester_callback_loop by exact Hne.
  erewrite bind_Ok.
  2:{ apply (route_loop_forwarded H K (batch_requests b) (batch_requests b) [] []);
        [rewrite app_nil_r; reflexivity | exact Hf]. }
  eexists. split; [reflexivity|].
  destruct (forwarded_keeps K (batch_requests b) w) as (E1 & E2 & E3 & E4 & _).
  split.
  - rewrite trace_logged, trace_forwarded, <- app_assoc. reflexivity.
  - repeat split; assumption.
Qed.

(** X17.  A batch with one creation of a canvas among requests that are
    only forwarded: the renderer gets the creation request before the
    presenter makes the window, the requests that follow are forwarded after
    the creation is complete, and the batch is destroyed last. *)
Theorem X17_router_creates_after_renderer (H : Header) (K : Collaborators)
    (b : DvzBatch) (pre post : list DvzRequest) (req : DvzRequest) (w : World)
    (c : DvzCanvas) (l : list DvzGuiCallbackPayload) :
  batch_requests b = pre ++ req :: post ->
  Forall (fun r => forwarded_only r = true) pre ->
  Forall (fun r => forwarded_only r = true) post ->
  req_type req = DVZ_REQUEST_OBJECT_CANVAS ->
  req_action req = DVZ_REQUEST_ACTION_CREATE ->
  canvases (requested K req (forwarded K pre w)) !! req_id req = Some c ->
  callbacks w = Some l ->
  (has_gui H (req_flags req) = true -> exists gui, prt_gui w = Some gui) ->
  creates_swapchain K ->
  0 < req_screen_width req ->
  0 < req_screen_height req ->
  req_id req <> 0 ->
  exists w' surf g,
    _requester_callback H K (DVZ_CLIENT_EVENT_REQUESTS b) w = Ok tt w' /\
    trace w' = trace w
               ++ map dvz_renderer_request pre
               ++ [dvz_renderer_request req]
               ++ create_calls H req surf g
               ++ map dvz_renderer_request post
               ++ [dvz_batch_destroy b].
Proof.
  intros Hb Hpre Hpost Hty Hact Hc Hcb Hgui Hcreated Hsw Hsh Hid.
  rewrite requester_callback_loop by (rewrite Hb; destruct pre; discriminate).
  rewrite Hb.
  replace (length (pre ++ req :: post)) with (length pre + S (length post))%nat
    by (rewrite length_app; reflexivity).
  destruct (forwarded_keeps K pre w) as (_ & _ & Ecb & _ & Egui & _).
  destruct (create_canvas_post H K req (requested K req (forwarded K pre w)) c l Hc)
    as (w1 & win & surf & c' & d & g & Hrun & Ht & _); try assumption.
  { cbn. rewrite Ecb. exact Hcb. }
  { intros Hg. cbn. rewrite Egui. exact (Hgui Hg). }
  exists (logged (dvz_batch_destroy b) (forwarded K post w1)), surf, g.
  split.
  - erewrite bind_Ok; [reflexivity|].
    rewrite for_loop_app.
    erewrite bind_Ok.
    2:{ apply (route_loop_forwarded H K (pre ++ req :: post) pre [] (req :: post));
          [reflexivity | exact Hpre]. }
    cbn [for_loop].
    erewrite bind_Ok.
    2:{ unfold route.
        step_with ltac:(apply ANN_run; cbn; rewrite Z.add_0_l, Nat2Z.id;
                        apply list_lookup_middle; reflexivity).
        unfold ext_renderer_request. step.
        rewrite Hty. unfold _canvas_request. rewrite Hact. exact Hrun. }
    replace (0 + Z.of_nat (length pre) + 1) with (Z.of_nat (length (pre ++ [req])))
      by (rewrite length_app; cbn; lia).
    apply (route_loop_forwarded H K (pre ++ req :: post) post (pre ++ [req]) []);
      [rewrite app_nil_r, <- app_assoc; reflexivity | exact Hpost].
  - rewrite trace_logged, trace_forwarded, Ht, trace_requested, trace_forwarded.
    repeat rewrite <- app_assoc. reflexivity.
Qed.

(** X18.  dvz_presenter_submit on a batch with requests emits exactly one
    REQUESTS event that carries the batch, after the diagnostics the
    environment asks for.  It sends nothing to the renderer and does not
    destroy the batch; that is left to the event loop. *)
Theorem X18_submit_emits_one_event (b : DvzBatch) (w : World) :
  batch_requests b <> [] ->
  let delta := diagnostic_calls w b ++ [dvz_client_event (DVZ_CLIENT_EVENT_REQUESTS b)] in
  exists w',
    dvz_presenter_submit (Some b) w = Ok tt w' /\
    trace w' = trace w ++ delta /\
    client_events_of delta = [DVZ_CLIENT_EVENT_REQUESTS b] /\
    renderer_requests_of delta = [] /\
    batch_destroys_of delta = [] /\
    with_calls (calls w) w' = w.
Proof.
  intros Hne. cbv zeta. unfold dvz_presenter_submit, diagnostic_calls. step.
  destruct (batch_requests b) as [|req l] eqn:Eb; [congruence|].
  cbn [length].
  replace (Z.of_nat (S (length l)) =? 0) with false by (symmetry; apply Z.eqb_neq; lia).
  step_with ltac:(apply ASSERT_run; apply Z.ltb_lt; lia).
  step.
  destruct (environ w "DVZ_VERBOSE"%string) as [v|];
    [destruct (is_prefix_prt v)|]; cbn [when];
    destruct (environ w "DVZ_DRP"%string) as [file|];
    do 2 step; eexists; (split; [reflexivity|]);
    (split; [apply trace_calls; reflexivity|]);
    repeat (split; [reflexivity|]);
    destruct w; reflexivity.
Qed.

(** X19.  dvz_presenter_gui refuses exactly three things: the id 0, a NULL
    callback, and a presenter without callback list.  In every other case it
    returns. *)
Theorem X19_register_contract (id : Z) (cb : option DvzGuiCallback) (ud : UserData)
    (w : World) :
  dvz_presenter_gui id cb ud w = Abort <->
  (id = 0 \/ cb = None \/ callbacks w = None).
Proof.
  split; [|apply presenter_gui_abort].
  intros Hrun.
  destruct (Z.eq_dec id 0) as [E|E]; [left; exact E|].
  destruct cb as [f|]; [|right; left; reflexivity].
  destruct (callbacks w) as [l|] eqn:El; [|right; right; reflexivity].
  rewrite (dvz_presenter_gui_run id f ud w l E El) in Hrun. discriminate.
Qed.


(** ** The overlay pass on its own *)

(** X20.  _gui_callback returns without a call when it gets no GUI window
    or when the presenter has no callback list.  Otherwise it records a whole
    pass, whatever the list holds: dvz_gui_window_begin, the callbacks whose
    window id is the id stored in the GUI window, in list order,
    dvz_gui_window_end, and the GUI command buffer added to the submission.
    With an empty list the pass is still begun, ended and submitted; it is
    the caller that skips it. *)
Theorem X20_gui_callback_pass (id img : Z) (w : World) :
  _gui_callback None id img w = Ok tt w /\
  (forall gw, callbacks w = None -> _gui_callback gw id img w = Ok tt w) /\
  (forall g l,
     callbacks w = Some l ->
     Z.of_nat (length l) < two32 ->
     exists w',
       _gui_callback (Some g) id img w = Ok tt w' /\
       trace w' = trace w
                  ++ [dvz_gui_window_begin g img]
                  ++ map (fun p => gui_callback_invoke (callback p) g (user_data p))
                       (List.filter (fun p => window_id p =? gw_obj_id g) l)
                  ++ [dvz_gui_window_end g img; dvz_submit_commands id (gui_window_cmds g)] /\
       with_calls (calls w) w' = w).
Proof.
  split; [reflexivity|]. split.
  - intros gw Hcb. unfold _gui_callback. step. rewrite Hcb. destruct gw; reflexivity.
  - intros g l Hcb Hlen. rewrite (gui_callback_run g id img w l Hcb Hlen).
    eexists. split; [reflexivity|]. split.
    + apply trace_calls. unfold logs. cbn [calls with_calls]. reflexivity.
    + destruct w; reflexivity.
Qed.


(** ** The further properties on the sample configuration *)

Lemma X1_witness :
  let K := sample_collaborators DVZ_OBJECT_STATUS_INVALID 1 in
  let w := sample_world blank_recorder None [] in
  let c := sample_canvas blank_recorder in
  exists w' c',
    dvz_presenter_frame sample_header K 1 w = Ok tt w' /\
    trace w' = trace w ++ [dvz_fences_wait 1 (next_slot sample_header c);
                           dvz_swapchain_acquire 1 (cur_frame c); dvz_gpu_wait] /\
    canvases w' !! 1 = Some c' /\
    canvas_with_swapchain (swapchain c) c' = c /\
    windows w' = windows w.
Proof.
  cbv zeta.
  apply (X1_invalid_tick_only_waits sample_header
           (sample_collaborators DVZ_OBJECT_STATUS_INVALID 1) 1
           (sample_world blank_recorder None []) (sample_canvas blank_recorder));
    concrete.
Defined.

Lemma X2_witness :
  let K := sample_collaborators status_created 1 in
  let w := sample_world blank_recorder None [] in
  exists w' delta,
    dvz_presenter_frame sample_header K 1 w = Ok tt w' /\
    trace w' = trace w ++ delta /\
    submissions_of delta = [dvz_submit_send 1 1 0; dvz_swapchain_present 1 0].
Proof.
  cbv zeta.
  apply (X2_submission_in_last_arm_only sample_header
           (sample_collaborators status_created 1) 1
           (sample_world blank_recorder None []) (sample_canvas blank_recorder)
           status_created 1);
    concrete.
Defined.

Lemma X3_witness :
  let K := sample_collaborators status_created 1 in
  let w := sample_world blank_recorder None [] in
  exists w' c',
    dvz_presenter_frame sample_header K 1 w = Ok tt w' /\
    canvases w' !! 1 = Some c' /\
    cur_frame c' = 1 /\
    frame_time_idx c' = 1.
Proof.
  cbv zeta.
  apply (X3_frame_slot_advances_with_submission sample_header
           (sample_collaborators status_created 1) 1
           (sample_world blank_recorder None []) (sample_canvas blank_recorder)
           status_created);
    concrete.
Defined.

(** The bit of image 1 is clean: the tick records nothing. *)
Lemma X4_witness :
  let K := sample_collaborators status_created 1 in
  let w := sample_world cached_recorder None [] in
  exists w' delta c' r',
    dvz_presenter_frame sample_header K 1 w = Ok tt w' /\
    trace w' = trace w ++ delta /\
    recordings_of delta = [] /\
    canvases w' !! 1 = Some c' /\
    recorder c' = Some r' /\
    rec_count r' = 2 /\
    rec_dirty r' = [true; false; true].
Proof.
  cbv zeta.
  apply (X4_record_only_when_dirty sample_header
           (sample_collaborators status_created 1) 1
           (sample_world cached_recorder None [])
           status_created (sample_canvas cached_recorder) cached_recorder 1 false);
    concrete.
Defined.

Lemma X5_witness :
  let K := sample_collaborators DVZ_OBJECT_STATUS_NEED_RECREATE 1 in
  let w := sample_world cached_recorder None [] in
  exists w' delta,
    dvz_presenter_frame sample_header K 1 w = Ok tt w' /\
    trace w' = trace w ++ delta /\
    blanks_of delta = [].
Proof.
  cbv zeta.
  apply (X5_cached_commands_replace_blank sample_header
           (sample_collaborators DVZ_OBJECT_STATUS_NEED_RECREATE 1) 1
           (sample_world cached_recorder None [])
           (sample_canvas cached_recorder) cached_recorder);
    concrete.
Defined.

(** Four callbacks are registered, but canvas 1 has no GUI window. *)
Lemma X6_witness :
  let K := sample_collaborators status_created 1 in
  let w := sample_world blank_recorder None sample_callbacks in
  exists w' delta,
    dvz_presenter_frame sample_header K 1 w = Ok tt w' /\
    trace w' = trace w ++ delta /\
    overlay_of delta = [] /\
    (guis w !! 1 = None -> gui_window_calls_of delta = []).
Proof.
  cbv zeta.
  apply (X6_no_overlay_without_window_or_callbacks sample_header
           (sample_collaborators status_created 1) 1
           (sample_world blank_recorder None sample_callbacks));
    first [ concrete | left; reflexivity ].
Defined.

Lemma X7_witness :
  let K := sample_collaborators DVZ_OBJECT_STATUS_NEED_RECREATE 1 in
  let w := sample_world blank_recorder (Some sample_gui_window) sample_callbacks in
  exists w',
    dvz_presenter_frame sample_header K 1 w = Ok tt w' /\
    callbacks w' = callbacks w /\
    guis w' = guis w /\
    surfaces w' = surfaces w /\
    prt_gui w' = prt_gui w /\
    (forall id', id' <> 1 ->
       canvases w' !! id' = canvases w !! id' /\ windows w' !! id' = windows w !! id') /\
    live 1 w' = true.
Proof.
  cbv zeta.
  apply (X7_tick_keeps_registry_and_other_surfaces sample_header
           (sample_collaborators DVZ_OBJECT_STATUS_NEED_RECREATE 1) 1
           (sample_world blank_recorder (Some sample_gui_window) sample_callbacks));
    concrete.
Defined.

(** Canvas 2 does not exist; canvas 1 of the bare world has no recorder. *)
Lemma X8_witness :
  let K := sample_collaborators status_created 1 in
  dvz_presenter_frame sample_header K 2 (sample_world blank_recorder None []) = Abort /\
  dvz_presenter_frame sample_header K 1 bare_world = Abort.
Proof.
  cbv zeta. split.
  - apply (X8_tick_aborts_off_live_surface sample_header
             (sample_collaborators status_created 1) 2
             (sample_world blank_recorder None [])).
    left. reflexivity.
  - apply (X8_tick_aborts_off_live_surface sample_header
             (sample_collaborators status_created 1) 1 bare_world).
    right. right. eexists. split; reflexivity.
Defined.


Ltac sample_create :=
  first [ apply sample_creates_swapchain
        | intros _; eexists; reflexivity
        | concrete ].

(** Scenario A: a window of 800x600 with a framebuffer of 1600x1200. *)
Lemma X9_witness :
  let K := sample_collaborators status_created 1 in
  let w := sample_world blank_recorder None [] in
  exists w' win c' r',
    _create_canvas sample_header K (sample_request 7) w = Ok tt w' /\
    windows w' !! 1 = Some win /\
    canvases w' !! 1 = Some c' /\
    canvas_width c' = framebuffer_width win /\
    canvas_height c' = framebuffer_height win /\
    sc_status (swapchain c') = DVZ_OBJECT_STATUS_NEED_RECREATE /\
    recorder c' = Some r' /\ rec_count r' = 0 /\
    surfaces w' = surfaces w ++ [1] /\
    res_img_count w' = Z.max (img_count (swapchain c')) (res_img_count w) /\
    res_img_count w <= res_img_count w' /\
    (forall id', id' <> 1 -> canvases w' !! id' = canvases w !! id').
Proof.
  cbv zeta.
  apply (X9_create_binds_canvas_to_window sample_header
           (sample_collaborators status_created 1) (sample_request 7)
           (sample_world blank_recorder None []) (sample_canvas blank_recorder) []);
    sample_create.
Defined.

Lemma X10_witness :
  let K := sample_collaborators status_created 1 in
  let w := sample_world blank_recorder None [] in
  exists w' c' g,
    _create_canvas sample_header K (sample_request 7) w = Ok tt w' /\
    canvases w' !! 1 = Some c' /\
    gw_obj_id g = 1 /\
    (has_gui sample_header 7 = true -> guis w' !! 1 = Some g) /\
    trace w' = trace w ++ create_calls sample_header (sample_request 7) (surface c') g.
Proof.
  cbv zeta.
  apply (X10_create_call_order sample_header
           (sample_collaborators status_created 1) (sample_request 7)
           (sample_world blank_recorder None []) (sample_canvas blank_recorder) []);
    sample_create.
Defined.

(** The flags 6 carry the bits of both built-in overlays, not the overlay
    flag itself. *)
Lemma X11_witness :
  let K := sample_collaborators status_created 1 in
  let w := sample_world blank_recorder None [] in
  exists w' delta,
    _create_canvas sample_header K (sample_request 6) w = Ok tt w' /\
    trace w' = trace w ++ delta /\
    gui_window_calls_of delta = [] /\
    guis w' = guis w /\
    callbacks w' = Some ([] ++ builtin_entries sample_header 1 6).
Proof.
  cbv zeta.
  apply (X11_create_without_overlay_flag sample_header
           (sample_collaborators status_created 1) (sample_request 6)
           (sample_world blank_recorder None []) (sample_canvas blank_recorder) []);
    sample_create.
Defined.

(** The renderer has no canvas 2. *)
Lemma X12_witness :
  _create_canvas sample_header (sample_collaborators status_created 1)
    {| req_action := DVZ_REQUEST_ACTION_CREATE; req_type := DVZ_REQUEST_OBJECT_CANVAS;
       req_id := 2; req_flags := 0; req_screen_width := 800; req_screen_height := 600 |}
    (sample_world blank_recorder None []) = Abort.
Proof.
  apply (X12_create_aborts_on_bad_request sample_header
           (sample_collaborators status_created 1)).
  right. right. left. reflexivity.
Defined.

Lemma X13_witness :
  let K := sample_collaborators status_created 1 in
  let w := sample_world blank_recorder (Some sample_gui_window) sample_callbacks in
  (exists w',
     _delete_callback K (DVZ_CLIENT_EVENT_WINDOW_DELETE 1) w = Ok tt w' /\
     guis w' = guis w /\
     callbacks w' = callbacks w /\
     windows w' = windows w /\
     surfaces w' = remove_first 1 (surfaces w) /\
     (forall id', id' <> 1 -> canvases w' !! id' = canvases w !! id')) /\
  (forall ev, (forall id', ev <> DVZ_CLIENT_EVENT_WINDOW_DELETE id') ->
     _delete_callback K ev w = Abort).
Proof.
  cbv zeta.
  apply (X13_delete_leaves_registry (sample_collaborators status_created 1) 1
           (sample_world blank_recorder (Some sample_gui_window) sample_callbacks)
           (sample_canvas blank_recorder));
    concrete.
Defined.

Lemma X14_witness :
  let K := sample_collaborators status_created 1 in
  exists w',
    _delete_canvas K 1 bare_world = Ok tt w' /\
    trace w' = trace bare_world
               ++ [dvz_gpu_wait; dvz_canvas_destroy 1;
                   dvz_list_remove_pointer 1; dvz_surface_destroy 7]
               ++ [dvz_gui_window_destroy sample_gui_window].
Proof.
  cbv zeta.
  apply (X14_delete_without_recorder (sample_collaborators status_created 1) 1
           bare_world (canvas_with_recorder None (sample_canvas blank_recorder)));
    concrete.
Defined.

Lemma X15_witness :
  let K := sample_collaborators status_created 1 in
  exists w1 w2 win,
    _canvas_request sample_header K (sample_request 7) untracked_world = Ok tt w1 /\
    _canvas_request sample_header K (delete_request 1) w1 = Ok tt w2 /\
    surfaces w2 = surfaces untracked_world /\
    callbacks w2 = Some ([] ++ builtin_entries sample_header 1 7) /\
    (has_gui sample_header 7 = true ->
     exists g, guis w2 !! 1 = Some g /\ gw_obj_id g = 1) /\
    windows w2 !! 1 = Some win.
Proof.
  cbv zeta.
  apply (X15_create_then_delete sample_header
           (sample_collaborators status_created 1) (sample_request 7) (delete_request 1)
           untracked_world (sample_canvas blank_recorder) []);
    first [ sample_create | intros [] ].
Defined.

Lemma X16_witness :
  let K := sample_collaborators status_created 1 in
  let w := sample_world blank_recorder None [] in
  exists w',
    _requester_callback sample_header K (DVZ_CLIENT_EVENT_REQUESTS upload_batch) w
      = Ok tt w' /\
    trace w' = trace w ++ map dvz_renderer_request [upload_request 20; record_request 1]
                       ++ [dvz_batch_destroy upload_batch] /\
    windows w' = windows w /\
    guis w' = guis w /\
    callbacks w' = callbacks w /\
    surfaces w' = surfaces w.
Proof.
  cbv zeta.
  apply (X16_router_forwards_in_order sample_header
           (sample_collaborators status_created 1) upload_batch
           (sample_world blank_recorder None []));
    first [ discriminate | repeat constructor ].
Defined.

Lemma X17_witness :
  let K := sample_collaborators status_created 1 in
  let w := sample_world blank_recorder None [] in
  exists w' surf g,
    _requester_callback sample_header K (DVZ_CLIENT_EVENT_REQUESTS creation_batch) w
      = Ok tt w' /\
    trace w' = trace w
               ++ map dvz_renderer_request [upload_request 20]
               ++ [dvz_renderer_request (sample_request 7)]
               ++ create_calls sample_header (sample_request 7) surf g
               ++ map dvz_renderer_request [record_request 1]
               ++ [dvz_batch_destroy creation_batch].
Proof.
  cbv zeta.
  apply (X17_router_creates_after_renderer sample_header
           (sample_collaborators status_created 1) creation_batch
           [upload_request 20] [record_request 1] (sample_request 7)
           (sample_world blank_recorder None []) (sample_canvas blank_recorder) []);
    first [ reflexivity | repeat constructor; fail | sample_create ].
Defined.

Lemma X18_witness :
  let w := sample_world blank_recorder None [] in
  let delta := diagnostic_calls w upload_batch
               ++ [dvz_client_event (DVZ_CLIENT_EVENT_REQUESTS upload_batch)] in
  exists w',
    dvz_presenter_submit (Some upload_batch) w = Ok tt w' /\
    trace w' = trace w ++ delta /\
    client_events_of delta = [DVZ_CLIENT_EVENT_REQUESTS upload_batch] /\
    renderer_requests_of delta = [] /\
    batch_destroys_of delta = [] /\
    with_calls (calls w) w' = w.
Proof.
  cbv zeta.
  apply (X18_submit_emits_one_event upload_batch (sample_world blank_recorder None [])).
  discriminate.
Defined.

(** The id 0 is refused. *)
Lemma X19_witness :
  dvz_presenter_gui 0 (Some (user_gui_callback 10)) (user_pointer 10)
    (sample_world blank_recorder None []) = Abort.
Proof.
  apply (proj2 (X19_register_contract 0 (Some (user_gui_callback 10)) (user_pointer 10)
                  (sample_world blank_recorder None []))).
  left. reflexivity.
Defined.

Lemma X20_witness :
  let w := sample_world blank_recorder (Some sample_gui_window) [] in
  exists w',
    _gui_callback (Some sample_gui_window) 1 2 w = Ok tt w' /\
    trace w' = [dvz_gui_window_begin sample_gui_window 2;
                dvz_gui_window_end sample_gui_window 2;
                dvz_submit_commands 1 (gui_window_cmds sample_gui_window)] /\
    with_calls (calls w) w' = w.
Proof.
  cbv zeta.
  apply (proj2 (proj2 (X20_gui_callback_pass 1 2
                         (sample_world blank_recorder (Some sample_gui_window) [])))
           sample_gui_window []);
    concrete.
Defined.
